(** * A shallow embedding of the content-generation core

    The development follows the layout of the application:

    - [Js]: the few JavaScript string operations the code relies on
      ([toLowerCase], [trim], [split], [startsWith], [substring]) and a small
      backtracking matcher for the regular expressions of the parser;
    - [Hex]: the hexadecimal codec of Node buffers;
    - [Zod]: the validation combinators used by [app/models/schemas.ts];
    - the encryption service, the metafields service, the API-key service,
      the two providers and the facade, over an explicit world state.

    Conventions.  A JavaScript string is a Rocq [string] whose characters
    stand for the code units 0..255; the text handed to the encryption
    service, which the UTF-8 codec acts on, is a [Js.Text], a sequence of
    16-bit code units.  A JavaScript exception is a value
    [Throw msg] of the type [result]; [try]/[catch] is a [match] on it.
    Asynchronous calls are sequential here: every [await] is a bind of the
    world monad [M]. *)

From Stdlib Require Import ZArith NArith QArith Ascii String List Bool Lia.
From stdpp Require Import base option gmap strings list.

Import ListNotations.
Local Open Scope string_scope.

(** ** Exceptions *)

Inductive result (A : Type) : Type :=
| Ok (a : A)
| Throw (message : string).
Arguments Ok {A} a.
Arguments Throw {A} message.

(** ** JavaScript strings *)

Module Js.

Definition newline : ascii := "010"%char.

(** [\s] of a regular expression and the characters removed by [trim]:
    TAB, LF, VT, FF, CR, SPACE and NBSP (the white space and line
    terminators below code unit 256). *)
Definition isWhiteSpace (c : ascii) : bool :=
  let n := N_of_ascii c in
  ((9 <=? n) && (n <=? 13) || (n =? 32) || (n =? 160))%N.

Definition lowerChar (c : ascii) : ascii :=
  let n := N_of_ascii c in
  if ((65 <=? n) && (n <=? 90)
      || (192 <=? n) && (n <=? 222) && negb (n =? 215))%N
  then ascii_of_N (n + 32) else c.

Fixpoint toLowerCase (s : string) : string :=
  match s with
  | EmptyString => EmptyString
  | String c s' => String (lowerChar c) (toLowerCase s')
  end.

Fixpoint trimStart (s : string) : string :=
  match s with
  | EmptyString => EmptyString
  | String c s' => if isWhiteSpace c then trimStart s' else s
  end.

Fixpoint trimEnd (s : string) : string :=
  match s with
  | EmptyString => EmptyString
  | String c s' =>
      match trimEnd s' with
      | EmptyString => if isWhiteSpace c then EmptyString else String c EmptyString
      | t => String c t
      end
  end.

Definition trim (s : string) : string := trimEnd (trimStart s).

(** [s.split(sep)] for a separator of one character: never empty, one
    more part than there are separators. *)
Fixpoint split (sep : ascii) (s : string) : list string :=
  match s with
  | EmptyString => [EmptyString]
  | String c s' =>
      if Ascii.eqb c sep then EmptyString :: split sep s'
      else match split sep s' with
           | part :: parts => String c part :: parts
           | [] => [String c EmptyString]
           end
  end.

Fixpoint startsWith (s prefix : string) : bool :=
  match prefix, s with
  | EmptyString, _ => true
  | String p prefix', String c s' => Ascii.eqb c p && startsWith s' prefix'
  | String _ _, EmptyString => false
  end.

(** [s.substring(n)] *)
Fixpoint substring (n : nat) (s : string) : string :=
  match n, s with
  | O, _ => s
  | S n', String _ s' => substring n' s'
  | S _, EmptyString => EmptyString
  end.

(** Truthiness of a string: [''] is falsy. *)
Definition truthy (s : string) : bool :=
  match s with EmptyString => false | String _ _ => true end.

(** [a || b] on a value that may be [null]/[undefined]. *)
Definition orElse (a : option string) (b : string) : string :=
  match a with
  | Some s => if truthy s then s else b
  | None => b
  end.

Fixpoint count (c : ascii) (s : string) : nat :=
  match s with
  | EmptyString => 0
  | String d s' => (if Ascii.eqb d c then 1 else 0) + count c s'
  end.

(** *** Text in full

    UTF-8 encoding looks at surrogates, which lie above code unit 255: the
    text that is encrypted, an API key, is kept with all its 16-bit code
    units, each as its high and its low byte. *)

Definition CodeUnit : Type := ascii * ascii.

Definition Text : Type := list CodeUnit.

(** A string of code units below 256 as a text. *)
Definition text (s : string) : Text :=
  List.map (fun c => (zero, c)) (list_ascii_of_string s).

(** The code units 0xD800..0xDBFF and 0xDC00..0xDFFF. *)
Definition isHighSurrogate (u : CodeUnit) : bool :=
  let n := N_of_ascii (fst u) in ((216 <=? n) && (n <=? 219))%N.

Definition isLowSurrogate (u : CodeUnit) : bool :=
  let n := N_of_ascii (fst u) in ((220 <=? n) && (n <=? 223))%N.

(** U+FFFD *)
Definition replacement : CodeUnit := ("255"%char, "253"%char).

(** [s.isWellFormed()]: there is no lone surrogate, every high surrogate
    is followed by a low one and every low one follows a high one. *)
Fixpoint isWellFormed (s : Text) : bool :=
  match s with
  | [] => true
  | u :: rest =>
      if isHighSurrogate u then
        match rest with
        | v :: rest' => isLowSurrogate v && isWellFormed rest'
        | [] => false
        end
      else negb (isLowSurrogate u) && isWellFormed rest
  end.

(** [s.toWellFormed()]: every lone surrogate replaced by U+FFFD. *)
Fixpoint toWellFormed (s : Text) : Text :=
  match s with
  | [] => []
  | u :: rest =>
      if isHighSurrogate u then
        match rest with
        | v :: rest' =>
            if isLowSurrogate v then u :: v :: toWellFormed rest'
            else replacement :: toWellFormed rest
        | [] => [replacement]
        end
      else if isLowSurrogate u then replacement :: toWellFormed rest
      else u :: toWellFormed rest
  end.

(** *** Regular expressions

    The fragment the parser uses, with the backtracking order of the
    language: a greedy star tries one more iteration first, a lazy star
    tries to stop first; [Group] is capture group 1; [Eos] is [$] without
    the multiline flag, the end of the input. *)
Inductive Re : Type :=
| Eps
| Chr (c : ascii)
| Cls (p : ascii -> bool)
| Seq (a b : Re)
| Alt (a b : Re)
| Star (r : Re)
| StarLazy (r : Re)
| Group (r : Re)
| LookAhead (r : Re)
| Eos.

Fixpoint Lit (s : string) : Re :=
  match s with
  | EmptyString => Eps
  | String c EmptyString => Chr c
  | String c s' => Seq (Chr c) (Lit s')
  end.

Definition firstn_diff (s s' : list ascii) : list ascii :=
  firstn (List.length s - List.length s') s.

(** [run r s cap k]: match [r] at the front of [s], then continue with
    [k] on the rest; [cap] is the text of group 1 so far.  The first
    successful path wins. *)
Fixpoint run {R : Type} (r : Re) (s : list ascii) (cap : option (list ascii))
    (k : list ascii -> option (list ascii) -> option R) {struct r} : option R :=
  match r with
  | Eps => k s cap
  | Chr c =>
      match s with
      | d :: s' => if Ascii.eqb d c then k s' cap else None
      | [] => None
      end
  | Cls p =>
      match s with
      | d :: s' => if p d then k s' cap else None
      | [] => None
      end
  | Seq a b => run a s cap (fun s' cap' => run b s' cap' k)
  | Alt a b =>
      match run a s cap k with
      | Some x => Some x
      | None => run b s cap k
      end
  | Star r' =>
      (fix iter (fuel : nat) (s : list ascii) (cap : option (list ascii)) : option R :=
         match fuel with
         | O => k s cap
         | S fuel' =>
             match run r' s cap (fun s' cap' =>
                     if Nat.ltb (List.length s') (List.length s)
                     then iter fuel' s' cap' else None) with
             | Some x => Some x
             | None => k s cap
             end
         end) (List.length s) s cap
  | StarLazy r' =>
      (fix iter (fuel : nat) (s : list ascii) (cap : option (list ascii)) : option R :=
         match fuel with
         | O => k s cap
         | S fuel' =>
             match k s cap with
             | Some x => Some x
             | None =>
                 run r' s cap (fun s' cap' =>
                   if Nat.ltb (List.length s') (List.length s)
                   then iter fuel' s' cap' else None)
             end
         end) (List.length s) s cap
  | Group r' => run r' s cap (fun s' _ => k s' (Some (firstn_diff s s')))
  | LookAhead r' =>
      match run r' s cap (fun _ cap' => Some cap') with
      | Some cap' => k s cap'
      | None => None
      end
  | Eos => match s with [] => k s cap | _ :: _ => None end
  end.

(** [s.match(r)] for a regular expression without the global flag: the
    leftmost start position at which [r] matches.  Only group 1 of the
    match array is kept: [None] when there is no match, [Some None] when
    the group did not take part. *)
Fixpoint search (r : Re) (s : list ascii) : option (option (list ascii)) :=
  match run r s None (fun _ cap => Some cap) with
  | Some cap => Some cap
  | None =>
      match s with
      | [] => None
      | _ :: s' => search r s'
      end
  end.

Definition matchGroup1 (r : Re) (s : string) : option (option string) :=
  match search r (list_ascii_of_string s) with
  | Some cap => Some (string_of_list_ascii <$> cap)
  | None => None
  end.

End Js.

(** ** Data model ([app/models/types.ts]) *)

Record Image := { image_id : string; image_url : string; altText : option string }.

Record Metafield := { mf_namespace : string; mf_key : string; mf_value : string }.

Record ProductData := {
  product_id : string;
  product_title : string;
  product_description : string;
  images : list Image;
  product_metafields : list Metafield }.

Record StoreContext := {
  store_id : string;
  store_name : string;
  store_description : string;
  domain : string;
  email : string }.

Inductive Tone := professional | casual | enthusiastic.

(** [length] is a JavaScript number; the callers pass integers. *)
Record GenerationOptions := {
  length : Z;
  tone : option Tone;
  includeKeywords : option (list string) }.

Record ProductContent := {
  title : string;
  description : string;
  seoTitle : option string;
  seoDescription : option string;
  keywords : option (list string) }.

Record Metadata := {
  model : string;
  promptTokens : option Z;
  completionTokens : option Z;
  totalTokens : option Z }.

Record ContentGenerationResult := {
  success : bool;
  content : option ProductContent;
  error : option string;
  errorCode : option string;
  metadata : option Metadata }.

(** [{ success: false, error, errorCode }] *)
Definition failure (err code : string) : ContentGenerationResult :=
  {| success := false; content := None; error := Some err;
     errorCode := Some code; metadata := None |}.

(** ** Structured-text parser

    Both providers carry the same private method; the regular expressions
    are those of the source, [/# TITLE\s*\n([\s\S]*?)(?=\n# |$)/] and its
    four siblings. *)

Definition sectionRe (heading : string) : Js.Re :=
  Js.Seq (Js.Lit heading)
   (Js.Seq (Js.Star (Js.Cls Js.isWhiteSpace))
    (Js.Seq (Js.Chr Js.newline)
     (Js.Seq (Js.Group (Js.StarLazy (Js.Cls (fun c => Js.isWhiteSpace c || negb (Js.isWhiteSpace c)))))
      (Js.LookAhead (Js.Alt (Js.Seq (Js.Chr Js.newline) (Js.Seq (Js.Chr "#") (Js.Chr " "))) Js.Eos))))).

(** [m && m[1]]: the group when the match exists and the group is a
    non-empty string. *)
Definition capture (m : option (option string)) : option string :=
  match m with
  | Some (Some g) => if Js.truthy g then Some g else None
  | _ => None
  end.

Definition parseKeywords (g : string) : list string :=
  List.filter (fun keyword => Nat.ltb 0 (String.length keyword))
    (List.map Js.trim (Js.split "," (Js.trim g))).

(** ** Validation schemas ([app/models/schemas.ts]) *)

Module Zod.

(** JavaScript numbers: the finite ones as rationals, and the three
    special values. *)
Inductive JsNum := Fin (q : Q) | PosInf | NegInf | NaN.

#[local] Set Warnings "-register-all".
Inductive JsValue :=
| JUndefined
| JNull
| JBool (b : bool)
| JNumber (n : JsNum)
| JString (s : string)
| JArray (items : list JsValue)
| JObject (fields : list (string * JsValue)).

Inductive Issue :=
| InvalidType
| NotInteger
| TooSmall (message : string)
| TooBig (message : string)
| InvalidEnumValue.

(** A schema maps an input to the issues it raises; the input passes when
    there is none. *)
Definition Schema := JsValue -> list Issue.

Definition safeParse (schema : Schema) (input : JsValue) : bool :=
  match schema input with [] => true | _ :: _ => false end.

(** [Number.isInteger] *)
Definition isInteger (n : JsNum) : bool :=
  match n with
  | Fin q => (Qnum q mod Zpos (Qden q) =? 0)%Z
  | _ => false
  end.

(** [n >= bound] and [n <= bound] *)
Definition geq (n : JsNum) (bound : Z) : bool :=
  match n with
  | Fin q => Qle_bool (inject_Z bound) q
  | PosInf => true
  | NegInf | NaN => false
  end.

Definition leq (n : JsNum) (bound : Z) : bool :=
  match n with
  | Fin q => Qle_bool q (inject_Z bound)
  | NegInf => true
  | PosInf | NaN => false
  end.

Definition NumberCheck := JsNum -> list Issue.

Definition int : NumberCheck := fun n => if isInteger n then [] else [NotInteger].
Definition min (bound : Z) (message : string) : NumberCheck :=
  fun n => if geq n bound then [] else [TooSmall message].
Definition max (bound : Z) (message : string) : NumberCheck :=
  fun n => if leq n bound then [] else [TooBig message].

(** [z.number()] followed by its checks; [NaN] is not a number for zod. *)
Definition number (checks : list NumberCheck) : Schema :=
  fun v =>
    match v with
    | JNumber NaN => [InvalidType]
    | JNumber n => List.concat (List.map (fun check => check n) checks)
    | _ => [InvalidType]
    end.

Definition StringCheck := string -> list Issue.

Definition minLength (bound : nat) (message : string) : StringCheck :=
  fun s => if Nat.leb bound (String.length s) then [] else [TooSmall message].
Definition maxLength (bound : nat) (message : string) : StringCheck :=
  fun s => if Nat.leb (String.length s) bound then [] else [TooBig message].

Definition string_ (checks : list StringCheck) : Schema :=
  fun v =>
    match v with
    | JString s => List.concat (List.map (fun check => check s) checks)
    | _ => [InvalidType]
    end.

Definition enum (values : list string) : Schema :=
  fun v =>
    match v with
    | JString s => if existsb (String.eqb s) values then [] else [InvalidEnumValue]
    | _ => [InvalidEnumValue]
    end.

Definition array (item : Schema) : Schema :=
  fun v =>
    match v with
    | JArray items => List.concat (List.map item items)
    | _ => [InvalidType]
    end.

Definition optional (schema : Schema) : Schema :=
  fun v => match v with JUndefined => [] | _ => schema v end.

Fixpoint field (key : string) (fields : list (string * JsValue)) : JsValue :=
  match fields with
  | [] => JUndefined
  | (k, v) :: rest => if String.eqb k key then v else field key rest
  end.

(** [z.object(shape)]: every key of the shape is checked, keys outside
    the shape are ignored. *)
Definition object (shape : list (string * Schema)) : Schema :=
  fun v =>
    match v with
    | JObject fields =>
        List.concat (List.map (fun '(key, schema) => schema (field key fields)) shape)
    | _ => [InvalidType]
    end.

End Zod.

Definition GenerationOptionsSchema : Zod.Schema :=
  Zod.object
    [ ("length", Zod.number
         [ Zod.int;
           Zod.min 100 "Content length must be at least 100 words";
           Zod.max 500 "Content length cannot exceed 500 words" ]);
      ("tone", Zod.optional (Zod.enum ["professional"; "casual"; "enthusiastic"]));
      ("includeKeywords", Zod.optional (Zod.array (Zod.string_ []))) ].

Definition AppSettingsSchema : Zod.Schema :=
  Zod.object
    [ ("apiProvider", Zod.enum ["openaiApiKey"; "deepseekApiKey"]);
      ("apiKey", Zod.string_
         [ Zod.minLength 20 "API key appears to be too short";
           Zod.maxLength 100 "API key appears to be too long" ]);
      ("customPrompt", Zod.string_
         [ Zod.minLength 10 "Custom prompt must be at least 10 characters";
           Zod.maxLength 1000 "Custom prompt cannot exceed 1000 characters" ]);
      ("defaultLength", Zod.number
         [ Zod.int;
           Zod.min 100 "Default length must be at least 100 words";
           Zod.max 500 "Default length cannot exceed 500 words" ]) ].

Definition FeedbackSchema : Zod.Schema :=
  Zod.object
    [ ("feedback", Zod.string_
         [ Zod.minLength 10 "Feedback must be at least 10 characters";
           Zod.maxLength 500 "Feedback cannot exceed 500 characters" ]);
      ("length", Zod.number
         [ Zod.int;
           Zod.min 100 "Content length must be at least 100 words";
           Zod.max 500 "Content length cannot exceed 500 words" ]) ].

(** Generated content as the interface accepts it. *)
Definition ProductContentSchema : Zod.Schema :=
  Zod.object
    [ ("title", Zod.string_
         [ Zod.minLength 5 "Title must be at least 5 characters";
           Zod.maxLength 100 "Title cannot exceed 100 characters" ]);
      ("description", Zod.string_
         [ Zod.minLength 50 "Description must be at least 50 characters" ]);
      ("seoTitle", Zod.optional (Zod.string_
         [ Zod.maxLength 70 "SEO title should be 70 characters or less" ]));
      ("seoDescription", Zod.optional (Zod.string_
         [ Zod.maxLength 160 "SEO description should be 160 characters or less" ]));
      ("keywords", Zod.optional (Zod.array (Zod.string_ []))) ].

(** The JavaScript value of a [GenerationOptions]: absent optional fields
    are absent keys. *)
Definition toneName (t : Tone) : string :=
  match t with
  | professional => "professional"
  | casual => "casual"
  | enthusiastic => "enthusiastic"
  end.

Definition optionsValue (o : GenerationOptions) : Zod.JsValue :=
  Zod.JObject
    ([("length", Zod.JNumber (Zod.Fin (inject_Z (length o))))]
     ++ match tone o with
        | Some t => [("tone", Zod.JString (toneName t))]
        | None => []
        end
     ++ match includeKeywords o with
        | Some kws => [("includeKeywords", Zod.JArray (List.map Zod.JString kws))]
        | None => []
        end).

(** ** Hexadecimal codec of Node buffers *)

Definition Buffer := list ascii.

Module Hex.

Definition digit (n : N) : ascii :=
  if (n <? 10)%N then ascii_of_N (48 + n) else ascii_of_N (87 + n).

(** The value of a hexadecimal digit, of either case. *)
Definition value (c : ascii) : option N :=
  let n := N_of_ascii c in
  if ((48 <=? n) && (n <=? 57))%N then Some (n - 48)%N
  else if ((97 <=? n) && (n <=? 102))%N then Some (n - 87)%N
  else if ((65 <=? n) && (n <=? 70))%N then Some (n - 55)%N
  else None.

(** [buffer.toString('hex')] *)
Fixpoint encode (b : Buffer) : string :=
  match b with
  | [] => EmptyString
  | c :: b' =>
      let n := N_of_ascii c in
      String (digit (n / 16)) (String (digit (n mod 16)) (encode b'))
  end.

(** [Buffer.from(s, 'hex')]: pairs of digits are decoded up to the first
    pair that is not hexadecimal; a trailing single character is dropped. *)
Fixpoint decode (s : string) : Buffer :=
  match s with
  | String hi (String lo s') =>
      match value hi, value lo with
      | Some h, Some l => ascii_of_N (16 * h + l) :: decode s'
      | _, _ => []
      end
  | _ => []
  end.

End Hex.

(** ** Node primitives

    The cipher, the hash and the UTF-8 codec come from Node.  [cipher key iv
    data] is [createCipheriv('aes-256-cbc', key, iv)] followed by [update]
    and [final], [None] when Node throws; [decipher] likewise.  [utf8_encode]
    is the encoding of a string given to [update] as ['utf8'], [utf8_decode]
    the decoding of the bytes it returns as ['utf8']. *)

Class NodeCrypto := {
  cipher : Buffer -> Buffer -> Buffer -> option Buffer;
  decipher : Buffer -> Buffer -> Buffer -> option Buffer;
  sha256 : Buffer -> Buffer;
  utf8_encode : Js.Text -> Buffer;
  utf8_decode : Buffer -> Js.Text }.

(** What the code relies on: with a key of 32 bytes and an initialization
    vector of 16 bytes the cipher succeeds and the decipher inverts it, and a
    digest has 32 bytes.  Decoding inverts encoding on well-formed text
    only: the encoder writes a lone surrogate as it writes U+FFFD. *)
Class NodeCryptoLaws `{NodeCrypto} : Prop := {
  decipher_cipher : forall key iv data,
    List.length key = 32 -> List.length iv = 16 ->
    exists encrypted, cipher key iv data = Some encrypted
                      /\ decipher key iv encrypted = Some data;
  sha256_length : forall data, List.length (sha256 data) = 32;
  utf8_decode_encode : forall s,
    Js.isWellFormed s = true -> utf8_decode (utf8_encode s) = s;
  utf8_encode_lone_surrogates : forall s,
    utf8_encode s = utf8_encode (Js.toWellFormed s) }.

(** ** The world

    What the code talks to: the process environment, the metafields of the
    shops on the platform, the replies the platform will give, the outcomes
    the calls to the clients of the language-model services will have, the
    random source, and a log of the requests and calls made. *)

Inductive ShopReply :=
| Served                        (* the request is carried out *)
| Refused (message : string)    (* a mutation answered with user errors *)
| Failed.                       (* authentication or transport throws *)

Record Usage := {
  prompt_tokens : option Z;
  completion_tokens : option Z;
  total_tokens : option Z }.

(** The outcome of one call to the client of a language-model service
    ([client.chat.completions.create] of the OpenAI client, [client.post]
    of axios), whatever the client did to obtain it: the OpenAI client
    repeats some failed requests by itself before it gives up.  A
    completion carries [choices[0].message?.content] and [usage]; a thrown
    error carries the HTTP status the service answered with, if it
    answered, and [error.message]. *)
Inductive LlmReply :=
| Completed (content : option string) (usage : option Usage)
| Thrown (status : option Z) (message : string).

(** A prompt is kept as the data it is built from. *)
Inductive Prompt :=
| ProductPrompt (productData : ProductData) (customPrompt : string) (options : GenerationOptions)
| RegenerationPrompt (previousContent : ProductContent) (feedback : string) (options : GenerationOptions)
| ImagePrompt (imageUrl : string) (storeContext : StoreContext) (customPrompt : string)
    (options : GenerationOptions).

(** What is logged: the requests sent to the platform, the calls to the
    clients of the language-model services, and the entry into a method of
    a provider object. *)
Inductive Event :=
| GetMetafieldQuery (shop namespace key : string)
| MetafieldsSetMutation (shop namespace key value type : string)
| MetafieldDefinitionCreate (shop name namespace key : string)
| ProviderCalled (provider method : string)
| ChatCompletionRequest (provider : string) (apiKey : Js.Text) (model : string)
    (prompt : Prompt).

Record World := {
  ENCRYPTION_KEY : option string;
  metafields : gmap (string * string * string) string;
  shopReplies : list ShopReply;
  llmReplies : list LlmReply;
  entropy : nat -> ascii;
  drawn : nat;
  log : list Event }.

Definition M (A : Type) : Type := World -> A * World.

Definition ret {A} (a : A) : M A := fun w => (a, w).
Definition bind {A B} (m : M A) (f : A -> M B) : M B :=
  fun w => let (a, w') := m w in f a w'.

Notation "'let*' x ':=' m 'in' k" := (bind m (fun x => k))
  (at level 10, x name, m at level 100, k at level 200).
Notation "'do' m 'then' k" := (bind m (fun _ => k))
  (at level 10, m at level 100, k at level 200).

Definition emit (e : Event) : M unit :=
  fun w => (tt, {| ENCRYPTION_KEY := ENCRYPTION_KEY w; metafields := metafields w;
                   shopReplies := shopReplies w; llmReplies := llmReplies w;
                   entropy := entropy w; drawn := drawn w; log := log w ++ [e] |}).

Definition getenv : M (option string) := fun w => (ENCRYPTION_KEY w, w).

(** [crypto.randomBytes(n)] *)
Definition randomBytes (n : nat) : M Buffer :=
  fun w => (List.map (entropy w) (seq (drawn w) n),
            {| ENCRYPTION_KEY := ENCRYPTION_KEY w; metafields := metafields w;
               shopReplies := shopReplies w; llmReplies := llmReplies w;
               entropy := entropy w; drawn := drawn w + n; log := log w |}).

(** The next reply of the platform; once the script is used up every
    request is served. *)
Definition nextShopReply : M ShopReply :=
  fun w => (match shopReplies w with [] => Served | r :: _ => r end,
            {| ENCRYPTION_KEY := ENCRYPTION_KEY w; metafields := metafields w;
               shopReplies := tl (shopReplies w); llmReplies := llmReplies w;
               entropy := entropy w; drawn := drawn w; log := log w |}).

(** The outcome of the next call to a client; once the script is used up the
    service cannot be reached. *)
Definition nextLlmReply : M LlmReply :=
  fun w => (match llmReplies w with [] => Thrown None "connect ECONNREFUSED" | r :: _ => r end,
            {| ENCRYPTION_KEY := ENCRYPTION_KEY w; metafields := metafields w;
               shopReplies := shopReplies w; llmReplies := tl (llmReplies w);
               entropy := entropy w; drawn := drawn w; log := log w |}).

Definition readMetafield (k : string * string * string) : M (option string) :=
  fun w => (metafields w !! k, w).

Definition writeMetafield (k : string * string * string) (value : string) : M unit :=
  fun w => (tt, {| ENCRYPTION_KEY := ENCRYPTION_KEY w; metafields := <[k := value]> (metafields w);
                   shopReplies := shopReplies w; llmReplies := llmReplies w;
                   entropy := entropy w; drawn := drawn w; log := log w |}).

Record Session := { shop : string }.

(** ** Encryption service ([app/utils/encryption.ts]) *)

Module EncryptionService.
Section WithCrypto.
Context `{NodeCrypto}.

Definition algorithm : string := "aes-256-cbc".

Definition getEncryptionKey (env : option string) : result Buffer :=
  let key := Js.orElse env "default_encryption_key_for_development_only" in
  if Js.startsWith key "hex:" then
    let hexKey := Js.substring 4 key in
    let buffer := Hex.decode hexKey in
    if Nat.eqb (List.length buffer) 32 then Ok buffer
    else Throw "ENCRYPTION_KEY must be 32 bytes (64 hex characters)"
  else Ok (sha256 (utf8_encode (Js.text key))).

(** The body of [encrypt] once the initialization vector is drawn. *)
Definition encryptWith (env : option string) (iv : Buffer) (plaintext : Js.Text)
    : result string :=
  match getEncryptionKey env with
  | Throw _ => Throw "Failed to encrypt data"
  | Ok key =>
      match cipher key iv (utf8_encode plaintext) with
      | None => Throw "Failed to encrypt data"
      | Some encrypted => Ok (Hex.encode iv +:+ ":" +:+ Hex.encode encrypted)
      end
  end.

Definition encrypt (plaintext : Js.Text) : M (result string) :=
  let* iv := randomBytes 16 in
  let* env := getenv in
  ret (encryptWith env iv plaintext).

(** [decipher.update(encrypted, 'hex', 'utf8')] throws on a text with an odd
    number of characters. *)
Definition decryptWith (env : option string) (encryptedText : string) : result Js.Text :=
  match Js.split ":" encryptedText with
  | [part0; part1] =>
      let iv := Hex.decode part0 in
      let encrypted := part1 in
      match getEncryptionKey env with
      | Throw _ => Throw "Failed to decrypt data"
      | Ok key =>
          if Nat.odd (String.length encrypted) then Throw "Failed to decrypt data"
          else
            match decipher key iv (Hex.decode encrypted) with
            | None => Throw "Failed to decrypt data"
            | Some decrypted => Ok (utf8_decode decrypted)
            end
      end
  | _ => Throw "Failed to decrypt data"
  end.

Definition decrypt (encryptedText : string) : M (result Js.Text) :=
  let* env := getenv in
  ret (decryptWith env encryptedText).

End WithCrypto.
End EncryptionService.

(** ** Metafields service ([app/utils/metafields.ts]) *)

Module MetafieldsService.

(** [admin.graphql] with the [GetMetafield] query: the value of the
    shop metafield, [null] when there is none. *)
Definition queryMetafield (session : Session) (namespace key : string)
    : M (result (option string)) :=
  do emit (GetMetafieldQuery (shop session) namespace key) then
  let* reply := nextShopReply in
  match reply with
  | Served => let* value := readMetafield (shop session, namespace, key) in ret (Ok value)
  | Refused message => ret (Throw message)
  | Failed => ret (Throw "request failed")
  end.

(** [admin.graphql] with the [metafieldsSet] mutation: the user errors
    of the answer. *)
Definition mutateMetafield (session : Session) (namespace key value type : string)
    : M (result (list string)) :=
  do emit (MetafieldsSetMutation (shop session) namespace key value type) then
  let* reply := nextShopReply in
  match reply with
  | Served => do writeMetafield (shop session, namespace, key) value then ret (Ok [])
  | Refused message => ret (Ok [message])
  | Failed => ret (Throw "request failed")
  end.

Definition createDefinition (session : Session) (definition : string * string * string)
    : M (result unit) :=
  let '(name, namespace, key) := definition in
  do emit (MetafieldDefinitionCreate (shop session) name namespace key) then
  let* reply := nextShopReply in
  match reply with
  | Failed => ret (Throw "request failed")
  | _ => ret (Ok tt)
  end.

Definition metafieldDefinitions : list (string * string * string) :=
  [ ("Encrypted API Key", "apiservice", "encrypted_key");
    ("API Provider", "apiservice", "provider");
    ("Custom Prompt", "apiservice", "custom_prompt");
    ("Default Length", "apiservice", "default_length") ].

Fixpoint createAll (session : Session) (definitions : list (string * string * string))
    : M bool :=
  match definitions with
  | [] => ret true
  | definition :: rest =>
      let* r := createDefinition session definition in
      match r with
      | Ok _ => createAll session rest
      | Throw _ => ret false
      end
  end.

Definition setupMetafieldDefinitions (session : Session) : M bool :=
  createAll session metafieldDefinitions.

Definition getMetafield (session : Session) (namespace key : string) : M (option string) :=
  let* r := queryMetafield session namespace key in
  match r with
  | Ok None => ret None
  | Ok (Some value) => ret (Some value)
  | Throw _ => ret None
  end.

Definition setMetafield (session : Session) (namespace key value : string) : M bool :=
  let type :=
    if String.eqb key "custom_prompt" then "multi_line_text_field"
    else if String.eqb key "default_length" then "number_integer"
    else "single_line_text_field" in
  let* r := mutateMetafield session namespace key value type in
  match r with
  | Ok userErrors => if Nat.ltb 0 (List.length userErrors) then ret false else ret true
  | Throw _ => ret false
  end.

End MetafieldsService.

(** ** API-key service ([app/facades/apiKeys.ts]) *)

Record ApiKeyData := { provider : string; apiKey : Js.Text }.

Module ApiKeysService.
Section WithCrypto.
Context `{NodeCrypto}.

Definition API_KEY_NAMESPACE : string := "apiservice".
Definition API_KEY_FIELD_KEY : string := "encrypted_key".
Definition API_KEY_PROVIDER_KEY : string := "provider".

Definition saveApiKey (session : Session) (provider : string) (apiKey : Js.Text) : M bool :=
  let* r := EncryptionService.encrypt apiKey in
  match r with
  | Throw _ => ret false
  | Ok encryptedKey =>
      do MetafieldsService.setMetafield session API_KEY_NAMESPACE API_KEY_FIELD_KEY encryptedKey then
      do MetafieldsService.setMetafield session API_KEY_NAMESPACE API_KEY_PROVIDER_KEY provider then
      ret true
  end.

(** [a !== b] for a value that may be [null] and a string. *)
Definition differs (a : option string) (b : string) : bool :=
  match a with
  | Some s => negb (String.eqb s b)
  | None => true
  end.

Definition getApiKey (session : Session) (provider : option string) : M (option ApiKeyData) :=
  let* encryptedKey := MetafieldsService.getMetafield session API_KEY_NAMESPACE API_KEY_FIELD_KEY in
  match encryptedKey with
  | None => ret None
  | Some encryptedKey =>
      if negb (Js.truthy encryptedKey) then ret None
      else
        let* storedProvider :=
          MetafieldsService.getMetafield session API_KEY_NAMESPACE API_KEY_PROVIDER_KEY in
        let requested :=
          match provider with
          | Some p => Js.truthy p && differs storedProvider p
          | None => false
          end in
        if requested then ret None
        else
          let* r := EncryptionService.decrypt encryptedKey in
          match r with
          | Throw _ => ret None
          | Ok apiKey =>
              ret (Some {| provider := Js.orElse storedProvider "unknown"; apiKey := apiKey |})
          end
  end.

Definition deleteApiKey (session : Session) (provider : string) : M bool :=
  let* storedProvider :=
          MetafieldsService.getMetafield session API_KEY_NAMESPACE API_KEY_PROVIDER_KEY in
  if differs storedProvider provider then ret false
  else
    do MetafieldsService.setMetafield session API_KEY_NAMESPACE API_KEY_FIELD_KEY "" then
    do MetafieldsService.setMetafield session API_KEY_NAMESPACE API_KEY_PROVIDER_KEY "" then
    ret true.

End WithCrypto.
End ApiKeysService.

(** ** Providers ([app/utils/ai-providers]) *)

(** A call to the client of a service, and its outcome. *)
Definition chatCompletion (provider : string) (apiKey : Js.Text) (model : string)
    (prompt : Prompt) : M LlmReply :=
  do emit (ChatCompletionRequest provider apiKey model prompt) then
  nextLlmReply.

(** [status === n] for the status of [error.response], if there is one. *)
Definition statusIs (status : option Z) (n : Z) : bool :=
  match status with
  | Some s => Z.eqb s n
  | None => false
  end.

Module OpenAIProvider.

(** [error.response] in a [catch] of this provider: the errors of the OpenAI
    client carry their status as [error.status] and have no [response]. *)
Definition response (status : option Z) : option Z := None.

Definition parseGeneratedContent (rawContent : string) : ProductContent :=
  let titleMatch := Js.matchGroup1 (sectionRe "# TITLE") rawContent in
  let descriptionMatch := Js.matchGroup1 (sectionRe "# DESCRIPTION") rawContent in
  let seoTitleMatch := Js.matchGroup1 (sectionRe "# SEO_TITLE") rawContent in
  let seoDescriptionMatch := Js.matchGroup1 (sectionRe "# SEO_DESCRIPTION") rawContent in
  let keywordsMatch := Js.matchGroup1 (sectionRe "# KEYWORDS") rawContent in
  {| title := match capture titleMatch with Some g => Js.trim g | None => "" end;
     description := match capture descriptionMatch with Some g => Js.trim g | None => "" end;
     seoTitle := Js.trim <$> capture seoTitleMatch;
     seoDescription := Js.trim <$> capture seoDescriptionMatch;
     keywords := parseKeywords <$> capture keywordsMatch |}.

Definition generated (model : string) (content : option string) (usage : option Usage)
    : ContentGenerationResult :=
  let rawContent := Js.orElse content "" in
  {| success := true;
     content := Some (parseGeneratedContent rawContent);
     error := None;
     errorCode := None;
     metadata := Some {| model := model;
                         promptTokens := usage ≫= prompt_tokens;
                         completionTokens := usage ≫= completion_tokens;
                         totalTokens := usage ≫= total_tokens |} |}.

Definition generateProductContent (apiKey : Js.Text) (productData : ProductData)
    (customPrompt : string) (options : GenerationOptions) : M ContentGenerationResult :=
  do emit (ProviderCalled "openai" "generateProductContent") then
  let prompt := ProductPrompt productData customPrompt options in
  let* reply := chatCompletion "openai" apiKey "gpt-4" prompt in
  match reply with
  | Completed content usage => ret (generated "gpt-4" content usage)
  | Thrown status message =>
      if statusIs (response status) 401 then
        ret (failure "Invalid API key. Please check your OpenAI API key in the settings."
               "INVALID_API_KEY")
      else if statusIs (response status) 429 then
        ret (failure "OpenAI rate limit exceeded. Please try again later."
               "RATE_LIMIT_EXCEEDED")
      else
        ret (failure
               (Js.orElse (Some message) "An error occurred while generating content with OpenAI.")
               "OPENAI_ERROR")
  end.

Definition regenerateContent (apiKey : Js.Text) (previousResult : ContentGenerationResult)
    (feedback : string) (options : GenerationOptions) : M ContentGenerationResult :=
  do emit (ProviderCalled "openai" "regenerateContent") then
  match success previousResult, content previousResult with
  | true, Some previousContent =>
      let prompt := RegenerationPrompt previousContent feedback options in
      let* reply := chatCompletion "openai" apiKey "gpt-4" prompt in
      match reply with
      | Completed content usage => ret (generated "gpt-4" content usage)
      | Thrown _ message =>
          ret (failure
                 (Js.orElse (Some message)
                    "An error occurred while regenerating content with OpenAI.")
                 "OPENAI_REGENERATION_ERROR")
      end
  | _, _ => ret (failure "No previous content to regenerate" "NO_PREVIOUS_CONTENT")
  end.

Definition generateFromImage (apiKey : Js.Text) (imageUrl : string)
    (storeContext : StoreContext)
    (customPrompt : string) (options : GenerationOptions) : M ContentGenerationResult :=
  do emit (ProviderCalled "openai" "generateFromImage") then
  let prompt := ImagePrompt imageUrl storeContext customPrompt options in
  let* reply := chatCompletion "openai" apiKey "gpt-4-vision-preview" prompt in
  match reply with
  | Completed content usage => ret (generated "gpt-4-vision-preview" content usage)
  | Thrown status message =>
      if statusIs (response status) 400 then
        ret (failure "Invalid image format or URL. Please provide a valid image."
               "INVALID_IMAGE")
      else
        ret (failure
               (Js.orElse (Some message)
                  "An error occurred while generating content from image with OpenAI.")
               "OPENAI_IMAGE_ERROR")
  end.

End OpenAIProvider.

Module DeepSeekProvider.

Definition apiBaseUrl : string := "https://api.deepseek.ai/v1".

(** [error.response] in a [catch] of this provider: the errors of axios
    carry the reply of the service, when there is one. *)
Definition response (status : option Z) : option Z := status.

Definition parseGeneratedContent (rawContent : string) : ProductContent :=
  let titleMatch := Js.matchGroup1 (sectionRe "# TITLE") rawContent in
  let descriptionMatch := Js.matchGroup1 (sectionRe "# DESCRIPTION") rawContent in
  let seoTitleMatch := Js.matchGroup1 (sectionRe "# SEO_TITLE") rawContent in
  let seoDescriptionMatch := Js.matchGroup1 (sectionRe "# SEO_DESCRIPTION") rawContent in
  let keywordsMatch := Js.matchGroup1 (sectionRe "# KEYWORDS") rawContent in
  {| title := match capture titleMatch with Some g => Js.trim g | None => "" end;
     description := match capture descriptionMatch with Some g => Js.trim g | None => "" end;
     seoTitle := Js.trim <$> capture seoTitleMatch;
     seoDescription := Js.trim <$> capture seoDescriptionMatch;
     keywords := parseKeywords <$> capture keywordsMatch |}.

Definition generated (model : string) (content : option string) (usage : option Usage)
    : ContentGenerationResult :=
  let rawContent := Js.orElse content "" in
  {| success := true;
     content := Some (parseGeneratedContent rawContent);
     error := None;
     errorCode := None;
     metadata := Some {| model := model;
                         promptTokens := usage ≫= prompt_tokens;
                         completionTokens := usage ≫= completion_tokens;
                         totalTokens := usage ≫= total_tokens |} |}.

Definition generateProductContent (apiKey : Js.Text) (productData : ProductData)
    (customPrompt : string) (options : GenerationOptions) : M ContentGenerationResult :=
  do emit (ProviderCalled "deepseek" "generateProductContent") then
  let prompt := ProductPrompt productData customPrompt options in
  let* reply := chatCompletion "deepseek" apiKey "deepseek-coder-v2" prompt in
  match reply with
  | Completed content usage => ret (generated "deepseek-coder-v2" content usage)
  | Thrown status message =>
      if statusIs (response status) 401 then
        ret (failure "Invalid API key. Please check your DeepSeek API key in the settings."
               "INVALID_API_KEY")
      else if statusIs (response status) 429 then
        ret (failure "DeepSeek rate limit exceeded. Please try again later."
               "RATE_LIMIT_EXCEEDED")
      else
        ret (failure
               (Js.orElse (Some message)
                  "An error occurred while generating content with DeepSeek.")
               "DEEPSEEK_ERROR")
  end.

Definition regenerateContent (apiKey : Js.Text) (previousResult : ContentGenerationResult)
    (feedback : string) (options : GenerationOptions) : M ContentGenerationResult :=
  do emit (ProviderCalled "deepseek" "regenerateContent") then
  match success previousResult, content previousResult with
  | true, Some previousContent =>
      let prompt := RegenerationPrompt previousContent feedback options in
      let* reply := chatCompletion "deepseek" apiKey "deepseek-coder-v2" prompt in
      match reply with
      | Completed content usage => ret (generated "deepseek-coder-v2" content usage)
      | Thrown _ message =>
          ret (failure
                 (Js.orElse (Some message)
                    "An error occurred while regenerating content with DeepSeek.")
                 "DEEPSEEK_REGENERATION_ERROR")
      end
  | _, _ => ret (failure "No previous content to regenerate" "NO_PREVIOUS_CONTENT")
  end.

(** The method builds its client and its prompt and answers without a
    request. *)
Definition generateFromImage (apiKey : Js.Text) (imageUrl : string)
    (storeContext : StoreContext)
    (customPrompt : string) (options : GenerationOptions) : M ContentGenerationResult :=
  do emit (ProviderCalled "deepseek" "generateFromImage") then
  ret (failure
         "Image-based generation is not currently supported by DeepSeek. Please use OpenAI for this feature."
         "FEATURE_NOT_SUPPORTED").

End DeepSeekProvider.

(** The capability set of a provider object. *)
Record AiProvider := {
  generateProductContent :
    Js.Text -> ProductData -> string -> GenerationOptions -> M ContentGenerationResult;
  regenerateContent :
    Js.Text -> ContentGenerationResult -> string -> GenerationOptions
    -> M ContentGenerationResult;
  generateFromImage :
    option (Js.Text -> string -> StoreContext -> string -> GenerationOptions
            -> M ContentGenerationResult) }.

Definition openaiProvider : AiProvider :=
  {| generateProductContent := OpenAIProvider.generateProductContent;
     regenerateContent := OpenAIProvider.regenerateContent;
     generateFromImage := Some OpenAIProvider.generateFromImage |}.

Definition deepseekProvider : AiProvider :=
  {| generateProductContent := DeepSeekProvider.generateProductContent;
     regenerateContent := DeepSeekProvider.regenerateContent;
     generateFromImage := Some DeepSeekProvider.generateFromImage |}.

(** ** The facade ([app/facades/aiService.ts]) *)

Module AiServiceImplementation.
Section WithCrypto.
Context `{NodeCrypto}.

Definition getProvider (provider : string) : result AiProvider :=
  let selector := Js.toLowerCase provider in
  if String.eqb selector "openaiApiKey" then Ok openaiProvider
  else if String.eqb selector "deepseekApiKey" then Ok deepseekProvider
  else Throw ("Unsupported AI provider: " +:+ provider).

Definition noApiKey : ContentGenerationResult :=
  failure "No API key configured. Please configure an API key in the settings." "NO_API_KEY".

Definition generateProductContent (session : Session) (productData : ProductData)
    (customPrompt : string) (options : GenerationOptions) : M ContentGenerationResult :=
  let* apiKeyData := ApiKeysService.getApiKey session None in
  match apiKeyData with
  | None => ret noApiKey
  | Some apiKeyData =>
      match getProvider (provider apiKeyData) with
      | Throw message => ret (failure message "GENERATION_FAILED")
      | Ok provider =>
          generateProductContent provider (apiKey apiKeyData) productData customPrompt options
      end
  end.

Definition regenerateContent (session : Session) (previousResult : ContentGenerationResult)
    (feedback : string) (options : GenerationOptions) : M ContentGenerationResult :=
  let* apiKeyData := ApiKeysService.getApiKey session None in
  match apiKeyData with
  | None => ret noApiKey
  | Some apiKeyData =>
      match getProvider (provider apiKeyData) with
      | Throw message => ret (failure message "REGENERATION_FAILED")
      | Ok provider =>
          regenerateContent provider (apiKey apiKeyData) previousResult feedback options
      end
  end.

Definition generateFromImage (session : Session) (imageUrl : string)
    (storeContext : StoreContext) (customPrompt : string) (options : GenerationOptions)
    : M ContentGenerationResult :=
  let* apiKeyData := ApiKeysService.getApiKey session None in
  match apiKeyData with
  | None => ret noApiKey
  | Some apiKeyData =>
      let storedProvider := provider apiKeyData in
      match getProvider storedProvider with
      | Throw message => ret (failure message "IMAGE_GENERATION_FAILED")
      | Ok provider =>
          match generateFromImage provider with
          | None =>
              ret (failure
                     ("The " +:+ storedProvider
                      +:+ " provider does not support image-based generation.")
                     "UNSUPPORTED_FEATURE")
          | Some method =>
              method (apiKey apiKeyData) imageUrl storeContext customPrompt options
          end
      end
  end.

End WithCrypto.
End AiServiceImplementation.

(** ** A small lawful instance of the Node primitives

    Used to run the model on concrete inputs: a stream cipher that masks
    the data with the key and the initialization vector, a digest that pads
    or cuts its input to 32 bytes, and a codec that writes the two bytes of
    each code unit once the lone surrogates are replaced. *)

Module XorCrypto.

Definition xorAscii (a b : ascii) : ascii :=
  match a, b with
  | Ascii a0 a1 a2 a3 a4 a5 a6 a7, Ascii b0 b1 b2 b3 b4 b5 b6 b7 =>
      Ascii (xorb a0 b0) (xorb a1 b1) (xorb a2 b2) (xorb a3 b3)
            (xorb a4 b4) (xorb a5 b5) (xorb a6 b6) (xorb a7 b7)
  end.

Fixpoint mask (pad rest data : Buffer) : Buffer :=
  match data with
  | [] => []
  | d :: data' =>
      match rest with
      | m :: rest' => xorAscii d m :: mask pad rest' data'
      | [] =>
          match pad with
          | m :: pad' => xorAscii d m :: mask pad pad' data'
          | [] => d :: mask pad [] data'
          end
      end
  end.

Definition sized (key iv : Buffer) : bool :=
  Nat.eqb (List.length key) 32 && Nat.eqb (List.length iv) 16.

Definition xorCipher (key iv data : Buffer) : option Buffer :=
  if sized key iv then Some (mask (iv ++ key)%list [] data) else None.

Definition digest (data : Buffer) : Buffer :=
  firstn 32 (data ++ repeat zero 32)%list.

Definition unitBytes (s : Js.Text) : Buffer :=
  flat_map (fun u => [fst u; snd u]) s.

Definition encodeText (s : Js.Text) : Buffer := unitBytes (Js.toWellFormed s).

Fixpoint decodeText (data : Buffer) : Js.Text :=
  match data with
  | high :: low :: rest => (high, low) :: decodeText rest
  | _ => []
  end.

Definition crypto : NodeCrypto :=
  {| cipher := xorCipher;
     decipher := xorCipher;
     sha256 := digest;
     utf8_encode := encodeText;
     utf8_decode := decodeText |}.

End XorCrypto.

(** ** Concrete worlds *)

Definition emptyWorld : World :=
  {| ENCRYPTION_KEY := None;
     metafields := ∅;
     shopReplies := [];
     llmReplies := [];
     entropy := fun n => ascii_of_nat (7 * n + 3);
     drawn := 0;
     log := [] |}.

Definition demoSession : Session := {| shop := "demo.myshopify.com" |}.

(** The text ['\uD800']: a high surrogate that nothing follows. *)
Definition loneSurrogate : Js.Text := [("216"%char, zero)].

Definition nl : string := String Js.newline EmptyString.

(** The reply ["# TITLE\nFoo\n# DESCRIPTION\nBar baz\n# KEYWORDS\na, b, b, \n"]. *)
Definition sampleReply : string :=
  "# TITLE" +:+ nl +:+ "Foo" +:+ nl +:+ "# DESCRIPTION" +:+ nl +:+ "Bar baz" +:+ nl
  +:+ "# KEYWORDS" +:+ nl +:+ "a, b, b, " +:+ nl.

Definition sampleOptions : GenerationOptions :=
  {| length := 250; tone := None; includeKeywords := None |}.

Definition withLength (n : Z) (o : GenerationOptions) : GenerationOptions :=
  {| length := n; tone := tone o; includeKeywords := includeKeywords o |}.

(** ** Vocabulary of the statements *)

(** The world after a request to the platform: the request is logged and
    the next reply is consumed. *)
Definition asked (e : Event) (w : World) : World := (nextShopReply (emit e w).2).2.

Definition stored (k : string * string * string) (value : string) (w : World) : World :=
  (writeMetafield k value w).2.

(** The metafield type [setMetafield] sends for a key. *)
Definition fieldType (key : string) : string :=
  if String.eqb key "custom_prompt" then "multi_line_text_field"
  else if String.eqb key "default_length" then "number_integer"
  else "single_line_text_field".

Definition isMetafieldQuery (e : Event) : Prop :=
  match e with GetMetafieldQuery _ _ _ => True | _ => False end.

Abbreviation keyField session := (shop session, "apiservice", "encrypted_key").
Abbreviation providerField session := (shop session, "apiservice", "provider").

Definition knownProvider (p : string) : Prop :=
  p = "openaiApiKey" \/ p = "deepseekApiKey".

Definition withShopReplies (replies : list ShopReply) (w : World) : World :=
  {| ENCRYPTION_KEY := ENCRYPTION_KEY w; metafields := metafields w;
     shopReplies := replies; llmReplies := llmReplies w;
     entropy := entropy w; drawn := drawn w; log := log w |}.

(** The world after the key ['sk-secret'] was saved for a provider. *)
Definition savedWorld (provider : string) : World :=
  (@ApiKeysService.saveApiKey XorCrypto.crypto demoSession provider (Js.text "sk-secret") emptyWorld).2.

(** A platform that serves the read of [deleteApiKey], answers its first
    write with a user error and serves the second. *)
Definition refusingWorld : World :=
  withShopReplies [Served; Refused "Value can't be blank"; Served] (savedWorld "openaiApiKey").

Definition sampleProduct : ProductData :=
  {| product_id := "gid://shopify/Product/1"; product_title := "Mug";
     product_description := ""; images := []; product_metafields := [] |}.

(** A previous result that is a failure. *)
Definition failedResult : ContentGenerationResult :=
  failure "OpenAI rate limit exceeded. Please try again later." "RATE_LIMIT_EXCEEDED".

(** ** Vocabulary of the further properties *)

(** *** The section expression, read directly

    What the regular expression of a section does, as plain recursive
    functions on the characters: [strip] reads the heading, [greedy] is
    [\s*] followed by the rest, [lazily] is [[\s\S]*?] followed by the rest,
    and [ahead] is the lookahead. *)

Abbreviation chars := list_ascii_of_string.

Fixpoint greedy {R} (p : ascii -> bool) (k : list ascii -> option R) (s : list ascii)
    : option R :=
  match s with
  | d :: s' =>
      if p d then match greedy p k s' with Some x => Some x | None => k s end else k s
  | [] => k s
  end.

Fixpoint lazily {R} (p : ascii -> bool) (k : list ascii -> option R) (s : list ascii)
    {struct s} : option R :=
  match k s with
  | Some x => Some x
  | None =>
      match s with
      | d :: s' => if p d then lazily p k s' else None
      | [] => None
      end
  end.

Fixpoint strip (prefix : string) (s : list ascii) : option (list ascii) :=
  match prefix with
  | EmptyString => Some s
  | String c prefix' =>
      match s with
      | d :: s' => if Ascii.eqb d c then strip prefix' s' else None
      | [] => None
      end
  end.

Definition ahead (s : list ascii) : bool :=
  match s with
  | [] => true
  | a :: b :: c :: _ => Ascii.eqb a Js.newline && Ascii.eqb b "#" && Ascii.eqb c " "
  | _ => false
  end.

(** The match of a section at the front of [s], and at its leftmost
    position in [s]. *)
Definition sectionAt (h : string) (s : list ascii) : option (option (list ascii)) :=
  match strip h s with
  | None => None
  | Some rest =>
      greedy Js.isWhiteSpace
        (fun r =>
           match r with
           | d :: g =>
               if Ascii.eqb d Js.newline then
                 lazily (fun _ => true)
                   (fun s' => if ahead s' then Some (Some (Js.firstn_diff g s')) else None) g
               else None
           | [] => None
           end) rest
  end.

Fixpoint sectionSearch (h : string) (s : list ascii) : option (option (list ascii)) :=
  match sectionAt h s with
  | Some cap => Some cap
  | None => match s with [] => None | _ :: s' => sectionSearch h s' end
  end.

(** *** Replies made of sections *)

Inductive Heading := TITLE | DESCRIPTION | SEO_TITLE | SEO_DESCRIPTION | KEYWORDS.

Definition headingText (h : Heading) : string :=
  match h with
  | TITLE => "# TITLE"
  | DESCRIPTION => "# DESCRIPTION"
  | SEO_TITLE => "# SEO_TITLE"
  | SEO_DESCRIPTION => "# SEO_DESCRIPTION"
  | KEYWORDS => "# KEYWORDS"
  end.

Definition Heading_eqb (a b : Heading) : bool :=
  match a, b with
  | TITLE, TITLE | DESCRIPTION, DESCRIPTION | SEO_TITLE, SEO_TITLE
  | SEO_DESCRIPTION, SEO_DESCRIPTION | KEYWORDS, KEYWORDS => true
  | _, _ => false
  end.

(** A section is its heading, a newline and its text; a reply is a list of
    sections separated by newlines. *)
Definition sectionText (hb : Heading * string) : string :=
  headingText hb.1 +:+ nl +:+ hb.2.

Fixpoint reply (sections : list (Heading * string)) : string :=
  match sections with
  | [] => ""
  | [x] => sectionText x
  | x :: rest => sectionText x +:+ nl +:+ reply rest
  end.

(** The text of the first section with a given heading. *)
Fixpoint body (h : Heading) (sections : list (Heading * string)) : option string :=
  match sections with
  | [] => None
  | (h', b) :: rest => if Heading_eqb h' h then Some b else body h rest
  end.

Definition trimmed (s : string) : Prop := Js.trim s = s.

(** No white space at either end: neither the first nor the last character
    is one. *)
Definition noSpaceAtEnds (s : string) : Prop :=
  (forall c, head (chars s) = Some c -> Js.isWhiteSpace c = false)
  /\ (forall c, last (chars s) = Some c -> Js.isWhiteSpace c = false).

(** The text of a section: not empty, without white space at either end
    and without [#]. *)
Definition clean (b : string) : Prop :=
  b <> "" /\ Js.trim b = b /\ Js.count "#" b = 0.

(** A keyword: not empty, without white space at either end and without
    comma. *)
Definition keyword (k : string) : Prop :=
  k <> "" /\ trimmed k /\ Js.count "," k = 0.

Definition hashFree (s : list ascii) : Prop := Forall (fun c => c <> "#"%char) s.

Definition endsSection (post : list ascii) : Prop :=
  post = [] \/ exists t, post = Js.newline :: "#"%char :: " "%char :: t.

Definition after (rest : list (Heading * string)) : list ascii :=
  match rest with
  | [] => []
  | _ :: _ => Js.newline :: chars (reply rest)
  end.

(** What the parser finds for a heading: [m && m[1]] of its match. *)
Definition found (h : Heading) (raw : string) : option string :=
  capture (Js.matchGroup1 (sectionRe (headingText h)) raw).

(** [array.join(', ')] *)
Fixpoint join (items : list string) : string :=
  match items with
  | [] => ""
  | [k] => k
  | k :: rest => k +:+ ", " +:+ join rest
  end.

Definition emptyContent : ProductContent :=
  {| title := ""; description := ""; seoTitle := None; seoDescription := None;
     keywords := None |}.

(** *** Results and calls of the providers *)

(** The result envelope: a success carries content and no error, a failure
    carries no content, an error text that is not empty and an error code. *)
Definition wellFormed (r : ContentGenerationResult) : Prop :=
  match success r with
  | true => content r <> None /\ error r = None /\ errorCode r = None
  | false => content r = None
             /\ (exists e, error r = Some e /\ e <> "")
             /\ errorCode r <> None
  end.

(** The outcome the next call to a client of a language-model service will
    have. *)
Definition nextReply (w : World) : LlmReply :=
  hd (Thrown None "connect ECONNREFUSED") (llmReplies w).

(** The world after a provider method was entered, and after it called its
    client. *)
Definition entered (provider method : string) (w : World) : World :=
  (emit (ProviderCalled provider method) w).2.

Definition sent (provider method : string) (apiKey : Js.Text) (model : string)
    (prompt : Prompt) (w : World) : World :=
  (chatCompletion provider apiKey model prompt (entered provider method w)).2.

(** [error.message || fallback] *)
Definition errorText (message fallback : string) : string :=
  Js.orElse (Some message) fallback.

(** The world after a provider method: the shop untouched, at most one
    call to the client, at most two events logged. *)
Definition oneCallAtMost (w w' : World) : Prop :=
  metafields w' = metafields w
  /\ shopReplies w' = shopReplies w
  /\ (llmReplies w' = llmReplies w \/ llmReplies w' = tl (llmReplies w))
  /\ exists events, log w' = (log w ++ events)%list /\ List.length events <= 2.

(** *** Accepted inputs of the schemas *)

(** A finite number whose value is an integer between the bounds. *)
Definition integerIn (lo hi : Z) (v : Zod.JsValue) : Prop :=
  exists q n, v = Zod.JNumber (Zod.Fin q) /\ (q == inject_Z n)%Q /\ (lo <= n <= hi)%Z.

Definition stringOfLength (lo : nat) (hi : option nat) (v : Zod.JsValue) : Prop :=
  exists s, v = Zod.JString s /\ lo <= String.length s
            /\ match hi with Some h => String.length s <= h | None => True end.

Definition oneOf (values : list string) (v : Zod.JsValue) : Prop :=
  exists s, v = Zod.JString s /\ In s values.

Definition stringArray (v : Zod.JsValue) : Prop :=
  exists items, v = Zod.JArray (List.map Zod.JString items).

Definition absentOr (P : Zod.JsValue -> Prop) (v : Zod.JsValue) : Prop :=
  v = Zod.JUndefined \/ P v.

(** *** Further concrete worlds *)

Definition withLlmReplies (replies : list LlmReply) (w : World) : World :=
  {| ENCRYPTION_KEY := ENCRYPTION_KEY w; metafields := metafields w;
     shopReplies := shopReplies w; llmReplies := replies;
     entropy := entropy w; drawn := drawn w; log := log w |}.

Definition withEncryptionKey (key : option string) (w : World) : World :=
  {| ENCRYPTION_KEY := key; metafields := metafields w;
     shopReplies := shopReplies w; llmReplies := llmReplies w;
     entropy := entropy w; drawn := drawn w; log := log w |}.

(** A process configured with a hexadecimal key of two bytes. *)
Definition shortKeyWorld : World := withEncryptionKey (Some "hex:abcd") emptyWorld.

(** A shop whose encrypted-key metafield holds a text without colon. *)
Definition corruptWorld : World :=
  stored (keyField demoSession) "not-a-token" emptyWorld.

(** A service whose client throws on the next call, the service having
    answered with status 401, and one that completes it without text. *)
Definition unauthorizedWorld : World :=
  withLlmReplies [Thrown (Some 401%Z) "Unauthorized"] emptyWorld.

Definition silentWorld : World := withLlmReplies [Completed None None] emptyWorld.

Definition sampleContent : ProductContent :=
  {| title := "Blue mug"; description := "A sturdy mug."; seoTitle := None;
     seoDescription := None; keywords := None |}.

Definition previousSuccess : ContentGenerationResult :=
  {| success := true; content := Some sampleContent; error := None; errorCode := None;
     metadata := None |}.

Definition sampleSections : list (Heading * string) :=
  [ (DESCRIPTION, "A sturdy mug." +:+ nl +:+ "Dishwasher safe.");
    (TITLE, "Blue mug");
    (KEYWORDS, "mug, blue mug") ].

(** * Properties *)

(** ** Strings *)

Lemma split_length sep s : List.length (Js.split sep s) = S (Js.count sep s).
Proof.
  induction s as [|c s IH]; simpl; [reflexivity|].
  destruct (Ascii.eqb c sep); simpl; [now rewrite IH|].
  destruct (Js.split sep s); simpl in *; [discriminate IH | exact IH].
Qed.

Lemma split_no_separator sep s : Js.count sep s = 0 -> Js.split sep s = [s].
Proof.
  induction s as [|c s IH]; simpl; [reflexivity|].
  destruct (Ascii.eqb c sep); simpl; [discriminate|].
  intros Hc. now rewrite (IH Hc).
Qed.

Lemma split_first_separator sep a b :
  Js.count sep a = 0 -> Js.split sep (a +:+ String sep b) = a :: Js.split sep b.
Proof.
  induction a as [|c a IH]; simpl.
  - intros _. now rewrite Ascii.eqb_refl.
  - destruct (Ascii.eqb c sep); simpl; [discriminate|].
    intros Hc. now rewrite (IH Hc).
Qed.

Lemma lowerChar_not_A c : Js.lowerChar c <> "A"%char.
Proof. destruct c as [[] [] [] [] [] [] [] []]; vm_compute; discriminate. Qed.

Lemma toLowerCase_no_A s : Js.count "A" (Js.toLowerCase s) = 0.
Proof.
  induction s as [|c s IH]; simpl; [reflexivity|].
  rewrite IH. destruct (Ascii.eqb_spec (Js.lowerChar c) "A"%char) as [E|_]; [|reflexivity].
  now apply lowerChar_not_A in E.
Qed.

(** ** Text in full *)

(** Induction that steps over a pair of code units. *)
Lemma text_pair_ind (P : Js.Text -> Prop) :
  P [] ->
  (forall u, P [u]) ->
  (forall u v s, P s -> P (v :: s) -> P (u :: v :: s)) ->
  forall s, P s.
Proof.
  intros Hnil Hone Hcons s.
  enough (Hboth : P s /\ forall v, P (v :: s)) by apply Hboth.
  induction s as [|u s [IH IHcons]].
  - split; [exact Hnil | exact Hone].
  - split; [apply IHcons|]. intros v. apply Hcons; [exact IH | apply IHcons].
Qed.

Lemma toWellFormed_wellFormed s : Js.isWellFormed s = true -> Js.toWellFormed s = s.
Proof.
  induction s as [| u | u v s IH IHv] using text_pair_ind.
  - reflexivity.
  - cbn. destruct (Js.isHighSurrogate u); [discriminate|].
    destruct (Js.isLowSurrogate u); [discriminate | reflexivity].
  - intros Hwf.
    change (Js.isWellFormed (u :: v :: s))
      with (if Js.isHighSurrogate u then Js.isLowSurrogate v && Js.isWellFormed s
            else negb (Js.isLowSurrogate u) && Js.isWellFormed (v :: s)) in Hwf.
    change (Js.toWellFormed (u :: v :: s))
      with (if Js.isHighSurrogate u then
              if Js.isLowSurrogate v then u :: v :: Js.toWellFormed s
              else Js.replacement :: Js.toWellFormed (v :: s)
            else if Js.isLowSurrogate u then Js.replacement :: Js.toWellFormed (v :: s)
                 else u :: Js.toWellFormed (v :: s)).
    destruct (Js.isHighSurrogate u).
    + apply andb_true_iff in Hwf as [Hlow Hs]. rewrite Hlow, (IH Hs). reflexivity.
    + apply andb_true_iff in Hwf as [Hlow Hs]. apply negb_true_iff in Hlow.
      rewrite Hlow, (IHv Hs). reflexivity.
Qed.

Lemma isWellFormed_toWellFormed s : Js.isWellFormed (Js.toWellFormed s) = true.
Proof.
  assert (Hrep : forall t, Js.isWellFormed t = true
                           -> Js.isWellFormed (Js.replacement :: t) = true).
  { intros t Ht. cbn. exact Ht. }
  assert (Hplain : forall u t, Js.isHighSurrogate u = false -> Js.isLowSurrogate u = false ->
                               Js.isWellFormed t = true -> Js.isWellFormed (u :: t) = true).
  { intros u t Hh Hl Ht.
    change (Js.isWellFormed (u :: t))
      with (if Js.isHighSurrogate u then
              match t with v :: t' => Js.isLowSurrogate v && Js.isWellFormed t' | [] => false end
            else negb (Js.isLowSurrogate u) && Js.isWellFormed t).
    now rewrite Hh, Hl, Ht. }
  induction s as [| u | u v s IH IHv] using text_pair_ind.
  - reflexivity.
  - cbn [Js.toWellFormed]. destruct (Js.isHighSurrogate u) eqn:Hh; [reflexivity|].
    destruct (Js.isLowSurrogate u) eqn:Hl; [reflexivity|]. now apply Hplain.
  - change (Js.toWellFormed (u :: v :: s))
      with (if Js.isHighSurrogate u then
              if Js.isLowSurrogate v then u :: v :: Js.toWellFormed s
              else Js.replacement :: Js.toWellFormed (v :: s)
            else if Js.isLowSurrogate u then Js.replacement :: Js.toWellFormed (v :: s)
                 else u :: Js.toWellFormed (v :: s)).
    destruct (Js.isHighSurrogate u) eqn:Hh.
    + destruct (Js.isLowSurrogate v) eqn:Hl; [|now apply Hrep].
      change (Js.isWellFormed (u :: v :: Js.toWellFormed s))
        with (if Js.isHighSurrogate u
              then Js.isLowSurrogate v && Js.isWellFormed (Js.toWellFormed s)
              else negb (Js.isLowSurrogate u) && Js.isWellFormed (v :: Js.toWellFormed s)).
      now rewrite Hh, Hl, IH.
    + destruct (Js.isLowSurrogate u) eqn:Hl; [now apply Hrep | now apply Hplain].
Qed.

Lemma toWellFormed_idempotent s : Js.toWellFormed (Js.toWellFormed s) = Js.toWellFormed s.
Proof. apply toWellFormed_wellFormed, isWellFormed_toWellFormed. Qed.

(** A text of code units below 256 has no surrogate. *)
Lemma isWellFormed_text s : Js.isWellFormed (Js.text s) = true.
Proof.
  unfold Js.text. induction (list_ascii_of_string s) as [|c l IH]; [reflexivity|].
  cbn [List.map].
  change (Js.isWellFormed ((zero, c) :: List.map (fun c => (zero, c)) l))
    with (Js.isWellFormed (List.map (fun c => (zero, c)) l)).
  exact IH.
Qed.

(** ** Provider selection *)

(** Whatever the identifier, the selection throws: the scrutinee is lower
    case and both labels contain a capital A. *)
Lemma getProvider_unsupported provider :
  AiServiceImplementation.getProvider provider
  = Throw ("Unsupported AI provider: " +:+ provider).
Proof.
  unfold AiServiceImplementation.getProvider.
  pose proof (toLowerCase_no_A provider) as HA.
  destruct (String.eqb_spec (Js.toLowerCase provider) "openaiApiKey") as [E|_].
  { rewrite E in HA. discriminate HA. }
  destruct (String.eqb_spec (Js.toLowerCase provider) "deepseekApiKey") as [E|_].
  { rewrite E in HA. discriminate HA. }
  reflexivity.
Qed.

(** C1 (code defect).  The claim expects the OpenAI-style provider for
    ['openaiApiKey'] and the DeepSeek-style provider for ['deepseekApiKey'];
    the selection lower-cases the identifier before comparing it with these
    two mixed-case labels, so both identifiers end in the unsupported-provider
    error. *)
Theorem C1_getProvider_known_identifiers_unsupported :
  AiServiceImplementation.getProvider "openaiApiKey"
    = Throw "Unsupported AI provider: openaiApiKey"
  /\ AiServiceImplementation.getProvider "deepseekApiKey"
    = Throw "Unsupported AI provider: deepseekApiKey".
Proof. split; reflexivity. Qed.

(** ** Structured-text parser *)

(** C6.  On the reply with the sections TITLE, DESCRIPTION and KEYWORDS the
    parser of either provider returns title ['Foo'], description ['Bar baz'],
    keywords ['a','b','b'] (the duplicate kept, the empty token dropped) and
    neither seoTitle nor seoDescription. *)
Theorem C6_parseGeneratedContent_sample :
  OpenAIProvider.parseGeneratedContent sampleReply
    = {| title := "Foo"; description := "Bar baz"; seoTitle := None;
         seoDescription := None; keywords := Some ["a"; "b"; "b"] |}
  /\ DeepSeekProvider.parseGeneratedContent sampleReply
    = {| title := "Foo"; description := "Bar baz"; seoTitle := None;
         seoDescription := None; keywords := Some ["a"; "b"; "b"] |}.
Proof. split; vm_compute; reflexivity. Qed.

(** ** Validation of the generation options *)

Lemma isInteger_inject_Z n : Zod.isInteger (Zod.Fin (inject_Z n)) = true.
Proof. simpl. rewrite Z.mod_1_r. reflexivity. Qed.

Lemma geq_inject_Z n bound : Zod.geq (Zod.Fin (inject_Z n)) bound = (bound <=? n)%Z.
Proof. unfold Zod.geq, Qle_bool; simpl. now rewrite !Z.mul_1_r. Qed.

Lemma leq_inject_Z n bound : Zod.leq (Zod.Fin (inject_Z n)) bound = (n <=? bound)%Z.
Proof. unfold Zod.leq, Qle_bool; simpl. now rewrite !Z.mul_1_r. Qed.

Lemma optional_fields_pass o :
  Zod.optional (Zod.enum ["professional"; "casual"; "enthusiastic"])
    (Zod.field "tone" (match optionsValue o with Zod.JObject f => f | _ => [] end)) = []
  /\ Zod.optional (Zod.array (Zod.string_ []))
    (Zod.field "includeKeywords" (match optionsValue o with Zod.JObject f => f | _ => [] end)) = [].
Proof.
  destruct o as [n t kws]; unfold optionsValue; simpl.
  split.
  - destruct t as [[]|]; simpl; [reflexivity..|].
    destruct kws; reflexivity.
  - assert (Hkw : forall l, List.concat (List.map (Zod.string_ []) (List.map Zod.JString l)) = []).
    { induction l; simpl; auto. }
    destruct t as [[]|], kws; simpl; rewrite ?Hkw; reflexivity.
Qed.

Lemma GenerationOptionsSchema_length o :
  Zod.safeParse GenerationOptionsSchema (optionsValue o)
  = ((100 <=? length o)%Z && (length o <=? 500)%Z).
Proof.
  destruct (optional_fields_pass o) as [Ht Hk].
  unfold Zod.safeParse, GenerationOptionsSchema, Zod.object.
  unfold optionsValue in *. cbn [List.map List.concat].
  rewrite Ht, Hk. cbn [Zod.field String.eqb Ascii.eqb Bool.eqb app].
  unfold Zod.number. cbn [List.map List.concat].
  unfold Zod.int, Zod.min, Zod.max.
  rewrite isInteger_inject_Z, geq_inject_Z, leq_inject_Z.
  destruct (100 <=? length o)%Z, (length o <=? 500)%Z; reflexivity.
Qed.

(** C8.  The schema rejects the lengths 50 and 600 and accepts 100 and 500;
    for every integer [n], options with length [n] pass exactly when
    [100 <= n <= 500]. *)
Theorem C8_GenerationOptionsSchema_length_bounds (o : GenerationOptions) :
  Zod.safeParse GenerationOptionsSchema (optionsValue (withLength 50 o)) = false
  /\ Zod.safeParse GenerationOptionsSchema (optionsValue (withLength 600 o)) = false
  /\ Zod.safeParse GenerationOptionsSchema (optionsValue (withLength 100 o)) = true
  /\ Zod.safeParse GenerationOptionsSchema (optionsValue (withLength 500 o)) = true
  /\ forall n : Z,
       Zod.safeParse GenerationOptionsSchema (optionsValue (withLength n o)) = true
       <-> (100 <= n <= 500)%Z.
Proof.
  assert (Hiff : forall n : Z,
             Zod.safeParse GenerationOptionsSchema (optionsValue (withLength n o)) = true
             <-> (100 <= n <= 500)%Z).
  { intros n. rewrite GenerationOptionsSchema_length. cbn [length withLength].
    rewrite andb_true_iff, !Z.leb_le. reflexivity. }
  split; [|split; [|split; [|split]]]; try exact Hiff;
    rewrite GenerationOptionsSchema_length; reflexivity.
Qed.

(** ** Hexadecimal codec *)

Lemma hex_byte c :
  let n := N_of_ascii c in
  Hex.value (Hex.digit (n / 16)) = Some (n / 16)%N
  /\ Hex.value (Hex.digit (n mod 16)) = Some (n mod 16)%N
  /\ ascii_of_N (16 * (n / 16) + n mod 16) = c
  /\ Hex.digit (n / 16) <> ":"%char
  /\ Hex.digit (n mod 16) <> ":"%char.
Proof.
  destruct c as [[] [] [] [] [] [] [] []]; vm_compute;
    repeat split; discriminate.
Qed.

Lemma hex_decode_encode b : Hex.decode (Hex.encode b) = b.
Proof.
  induction b as [|c b IH]; simpl; [reflexivity|].
  destruct (hex_byte c) as (Hhi & Hlo & Hc & _ & _); simpl in *.
  rewrite Hhi, Hlo, Hc, IH. reflexivity.
Qed.

Lemma hex_encode_injective b1 b2 : Hex.encode b1 = Hex.encode b2 -> b1 = b2.
Proof.
  intros E. rewrite <- (hex_decode_encode b1), <- (hex_decode_encode b2).
  now rewrite E.
Qed.

Lemma hex_encode_no_colon b : Js.count ":" (Hex.encode b) = 0.
Proof.
  induction b as [|c b IH]; simpl; [reflexivity|].
  destruct (hex_byte c) as (_ & _ & _ & Hhi & Hlo); simpl in *.
  destruct (Ascii.eqb_spec (Hex.digit (N_of_ascii c / 16)) ":"%char); [contradiction|].
  destruct (Ascii.eqb_spec (Hex.digit (N_of_ascii c mod 16)) ":"%char); [contradiction|].
  exact IH.
Qed.

Lemma hex_encode_length b : String.length (Hex.encode b) = 2 * List.length b.
Proof. induction b as [|c b IH]; simpl; [reflexivity|]. rewrite IH. lia. Qed.

Lemma hex_encode_even b : Nat.odd (String.length (Hex.encode b)) = false.
Proof. rewrite hex_encode_length, Nat.odd_mul. reflexivity. Qed.

Lemma split_token iv encrypted :
  Js.split ":" (Hex.encode iv +:+ ":" +:+ Hex.encode encrypted)
  = [Hex.encode iv; Hex.encode encrypted].
Proof.
  change (Hex.encode iv +:+ ":" +:+ Hex.encode encrypted)
    with (Hex.encode iv +:+ String ":" (Hex.encode encrypted)).
  rewrite split_first_separator by apply hex_encode_no_colon.
  rewrite split_no_separator by apply hex_encode_no_colon.
  reflexivity.
Qed.

(** ** Encryption service *)

Lemma getEncryptionKey_length `{NodeCryptoLaws} env key :
  EncryptionService.getEncryptionKey env = Ok key -> List.length key = 32.
Proof.
  unfold EncryptionService.getEncryptionKey.
  destruct (Js.startsWith _ "hex:").
  - destruct (Nat.eqb_spec (List.length (Hex.decode
        (Js.substring 4 (Js.orElse env "default_encryption_key_for_development_only")))) 32)
      as [E|_]; [|discriminate].
    intros [= <-]. exact E.
  - intros [= <-]. apply sha256_length.
Qed.

Lemma randomBytes_length n w : List.length (randomBytes n w).1 = n.
Proof. unfold randomBytes; simpl. now rewrite length_map, length_seq. Qed.

Lemma encryptWith_token `{NodeCrypto} env iv plaintext token :
  EncryptionService.encryptWith env iv plaintext = Ok token ->
  exists encrypted, token = Hex.encode iv +:+ ":" +:+ Hex.encode encrypted.
Proof.
  unfold EncryptionService.encryptWith.
  destruct (EncryptionService.getEncryptionKey env); [|discriminate].
  destruct (cipher _ _ _) as [encrypted|]; [|discriminate].
  intros [= <-]. now exists encrypted.
Qed.

Lemma decryptWith_encryptWith `{NodeCryptoLaws} env key iv plaintext :
  EncryptionService.getEncryptionKey env = Ok key ->
  List.length iv = 16 ->
  exists token,
    EncryptionService.encryptWith env iv plaintext = Ok token
    /\ EncryptionService.decryptWith env token = Ok (Js.toWellFormed plaintext).
Proof.
  intros Hkey Hiv.
  pose proof (getEncryptionKey_length _ _ Hkey) as Hlen.
  destruct (decipher_cipher key iv (utf8_encode plaintext) Hlen Hiv)
    as (encrypted & Henc & Hdec).
  exists (Hex.encode iv +:+ ":" +:+ Hex.encode encrypted). split.
  - unfold EncryptionService.encryptWith. now rewrite Hkey, Henc.
  - unfold EncryptionService.decryptWith.
    rewrite split_token, Hkey, hex_encode_even, !hex_decode_encode, Hdec.
    rewrite utf8_encode_lone_surrogates, utf8_decode_encode
      by apply isWellFormed_toWellFormed.
    reflexivity.
Qed.

(** C3.  Under a configured key the service accepts, decrypting what
    [encrypt] returned gives the plaintext with every lone surrogate
    replaced by U+FFFD, hence the plaintext itself when it is well formed;
    and two encryptions of the same plaintext whose initialization vectors
    differ give different tokens, which differ in their hexadecimal prefix
    before the colon. *)
Theorem C3_decrypt_encrypt_and_fresh_iv `{NodeCryptoLaws}
    (w : World) (key : Buffer) (P : Js.Text) :
  EncryptionService.getEncryptionKey (ENCRYPTION_KEY w) = Ok key ->
  (exists token,
      (EncryptionService.encrypt P w).1 = Ok token
      /\ (EncryptionService.decrypt token (EncryptionService.encrypt P w).2).1
         = Ok (Js.toWellFormed P)
      /\ (Js.isWellFormed P = true ->
          (EncryptionService.decrypt token (EncryptionService.encrypt P w).2).1 = Ok P))
  /\ (forall (w' : World) (token token' : string),
        ENCRYPTION_KEY w' = ENCRYPTION_KEY w ->
        (randomBytes 16 w).1 <> (randomBytes 16 w').1 ->
        (EncryptionService.encrypt P w).1 = Ok token ->
        (EncryptionService.encrypt P w').1 = Ok token' ->
        token <> token'
        /\ head (Js.split ":" token) = Some (Hex.encode (randomBytes 16 w).1)
        /\ head (Js.split ":" token') = Some (Hex.encode (randomBytes 16 w').1)
        /\ head (Js.split ":" token) <> head (Js.split ":" token')).
Proof.
  intros Hkey. split.
  - destruct (decryptWith_encryptWith _ key (randomBytes 16 w).1 P Hkey
                (randomBytes_length 16 w)) as (token & Henc & Hdec).
    exists token. split; [exact Henc|]. split; [exact Hdec|].
    intros Hwf. rewrite <- (toWellFormed_wellFormed P Hwf) at 2. exact Hdec.
  - intros w' token token' Henv Hiv Ht Ht'.
    assert (Ht0 : EncryptionService.encryptWith (ENCRYPTION_KEY w) (randomBytes 16 w).1 P
                  = Ok token) by exact Ht.
    assert (Ht0' : EncryptionService.encryptWith (ENCRYPTION_KEY w') (randomBytes 16 w').1 P
                   = Ok token') by exact Ht'.
    apply encryptWith_token in Ht0 as (e & ->).
    apply encryptWith_token in Ht0' as (e' & ->).
    rewrite !split_token. cbn [head].
    assert (Hne : Hex.encode (randomBytes 16 w).1 <> Hex.encode (randomBytes 16 w').1).
    { intros E. apply Hiv. now apply hex_encode_injective. }
    repeat split; try congruence.
    intros E. apply (f_equal (Js.split ":")) in E. rewrite !split_token in E.
    congruence.
Qed.

(** C7.  A token whose number of colons is not one (none, or two and more)
    makes [decrypt] throw its decryption error; no plaintext is returned. *)
Theorem C7_decrypt_rejects_delimiter_count `{NodeCrypto} (w : World) (token : string) :
  Js.count ":" token <> 1 ->
  (EncryptionService.decrypt token w).1 = Throw "Failed to decrypt data".
Proof.
  intros Hcount.
  unfold EncryptionService.decrypt, EncryptionService.decryptWith, bind, getenv, ret; simpl.
  pose proof (split_length ":" token) as Hlen.
  destruct (Js.split ":" token) as [|part0 [|part1 [|part2 parts]]]; try reflexivity.
  simpl in Hlen. congruence.
Qed.

(** ** The lawful instance *)

Lemma xorAscii_involutive d m : XorCrypto.xorAscii (XorCrypto.xorAscii d m) m = d.
Proof.
  destruct d, m; unfold XorCrypto.xorAscii.
  f_equal; match goal with |- xorb (xorb ?a ?b) ?b = ?a => now destruct a, b end.
Qed.

Lemma mask_involutive pad data :
  forall rest, XorCrypto.mask pad rest (XorCrypto.mask pad rest data) = data.
Proof.
  induction data as [|d data IH]; intros rest; simpl; [reflexivity|].
  destruct rest as [|m rest]; [destruct pad as [|m pad']|]; simpl;
    rewrite ?xorAscii_involutive, IH; reflexivity.
Qed.

Lemma decodeText_unitBytes s : XorCrypto.decodeText (XorCrypto.unitBytes s) = s.
Proof.
  induction s as [|[high low] s IH]; [reflexivity|].
  cbn. f_equal. exact IH.
Qed.

Lemma XorCrypto_laws : @NodeCryptoLaws XorCrypto.crypto.
Proof.
  split; simpl.
  - intros key iv data Hkey Hiv. unfold XorCrypto.xorCipher, XorCrypto.sized.
    rewrite Hkey, Hiv; simpl.
    eexists; split; [reflexivity|]. now rewrite mask_involutive.
  - intros data. unfold XorCrypto.digest.
    rewrite length_firstn, length_app, repeat_length. lia.
  - intros s Hwf. unfold XorCrypto.encodeText.
    rewrite (toWellFormed_wellFormed s Hwf). apply decodeText_unitBytes.
  - intros s. unfold XorCrypto.encodeText. now rewrite toWellFormed_idempotent.
Qed.

(** ** The world monad and the metafields service *)

Lemma bind_run {A B} (m : M A) (f : A -> M B) w : bind m f w = f (m w).1 (m w).2.
Proof. unfold bind. now destruct (m w). Qed.

Lemma hd_nth {A} (d : A) l : hd d l = nth 0 l d.
Proof. now destruct l. Qed.

Lemma hd_tl {A} (d : A) l : hd d (tl l) = nth 1 l d.
Proof. now destruct l as [|? []]. Qed.

Lemma hd_tl_tl {A} (d : A) l : hd d (tl (tl l)) = nth 2 l d.
Proof. now destruct l as [|? [|? []]]. Qed.

(** A read returns the stored value when the platform serves it and
    [null] otherwise; it never changes the store. *)
Lemma getMetafield_run session namespace key w :
  MetafieldsService.getMetafield session namespace key w
  = (match hd Served (shopReplies w) with
     | Served => metafields w !! (shop session, namespace, key)
     | _ => None
     end,
     asked (GetMetafieldQuery (shop session) namespace key) w).
Proof.
  unfold MetafieldsService.getMetafield, MetafieldsService.queryMetafield, asked,
    bind, emit, nextShopReply, readMetafield, ret; cbn.
  destruct (shopReplies w) as [|[|message|] replies]; cbn; try reflexivity.
  all: now destruct (metafields w !! _).
Qed.

(** A write changes the store exactly when the platform serves it, and
    reports so. *)
Lemma setMetafield_run session namespace key value w :
  MetafieldsService.setMetafield session namespace key value w
  = let w' := asked (MetafieldsSetMutation (shop session) namespace key value (fieldType key)) w in
    match hd Served (shopReplies w) with
    | Served => (true, stored (shop session, namespace, key) value w')
    | _ => (false, w')
    end.
Proof.
  unfold MetafieldsService.setMetafield, MetafieldsService.mutateMetafield, asked, stored,
    fieldType, bind, emit, nextShopReply, writeMetafield, ret; cbn.
  destruct (shopReplies w) as [|[|message|] replies]; cbn; reflexivity.
Qed.

Lemma setMetafield_spec session namespace key value w :
  let r := MetafieldsService.setMetafield session namespace key value w in
  shopReplies r.2 = tl (shopReplies w)
  /\ match hd Served (shopReplies w) with
     | Served => r.1 = true
                 /\ metafields r.2 = <[(shop session, namespace, key) := value]> (metafields w)
     | _ => r.1 = false /\ metafields r.2 = metafields w
     end.
Proof.
  rewrite setMetafield_run. cbn zeta.
  destruct (hd Served (shopReplies w)); repeat split.
Qed.

Lemma encrypt_world `{NodeCrypto} plaintext w :
  metafields (EncryptionService.encrypt plaintext w).2 = metafields w
  /\ shopReplies (EncryptionService.encrypt plaintext w).2 = shopReplies w.
Proof. split; reflexivity. Qed.

(** ** API-key service *)

(** C5.  When the stored provider identifier is not the requested one,
    [deleteApiKey] returns false, leaves every metafield as it was, and the
    only request it makes is the read of the provider field. *)
Theorem C5_deleteApiKey_other_provider_untouched
    (session : Session) (p : string) (w : World) :
  metafields w !! providerField session <> Some p ->
  (ApiKeysService.deleteApiKey session p w).1 = false
  /\ metafields (ApiKeysService.deleteApiKey session p w).2 = metafields w
  /\ log (ApiKeysService.deleteApiKey session p w).2
     = (log w ++ [GetMetafieldQuery (shop session) "apiservice" "provider"])%list.
Proof.
  intros Hstored. unfold ApiKeysService.deleteApiKey.
  rewrite bind_run, getMetafield_run. cbn [fst snd].
  change (shop session, ApiKeysService.API_KEY_NAMESPACE, ApiKeysService.API_KEY_PROVIDER_KEY)
    with (providerField session).
  assert (Hd : ApiKeysService.differs
                 match hd Served (shopReplies w) with
                 | Served => metafields w !! providerField session
                 | _ => None
                 end p = true).
  { destruct (hd Served (shopReplies w)); try reflexivity.
    destruct (metafields w !! providerField session) as [v|]; [|reflexivity].
    simpl. destruct (String.eqb_spec v p); [subst; contradiction | reflexivity]. }
  rewrite Hd. repeat split.
Qed.

Lemma C5_witness :
  metafields (savedWorld "deepseekApiKey") !! providerField demoSession <> Some "openaiApiKey"
  /\ (ApiKeysService.deleteApiKey demoSession "openaiApiKey" (savedWorld "deepseekApiKey")).1
     = false
  /\ metafields (ApiKeysService.deleteApiKey demoSession "openaiApiKey"
                   (savedWorld "deepseekApiKey")).2
     = metafields (savedWorld "deepseekApiKey").
Proof.
  assert (Hstored : metafields (savedWorld "deepseekApiKey") !! providerField demoSession
                    <> Some "openaiApiKey") by (vm_compute; discriminate).
  split; [exact Hstored|].
  destruct (C5_deleteApiKey_other_provider_untouched demoSession "openaiApiKey"
              (savedWorld "deepseekApiKey") Hstored) as (Hfalse & Hsame & _).
  split; [exact Hfalse | exact Hsame].
Defined.

Lemma deleteApiKey_true session p w :
  (ApiKeysService.deleteApiKey session p w).1 = true ->
  hd Served (shopReplies w) = Served /\ metafields w !! providerField session = Some p.
Proof.
  unfold ApiKeysService.deleteApiKey.
  rewrite bind_run, getMetafield_run. cbn [fst snd].
  change (shop session, ApiKeysService.API_KEY_NAMESPACE, ApiKeysService.API_KEY_PROVIDER_KEY)
    with (providerField session).
  destruct (hd Served (shopReplies w)); cbn; try discriminate.
  destruct (metafields w !! providerField session) as [v|]; cbn; [|discriminate].
  destruct (String.eqb_spec v p); cbn; [subst; auto | discriminate].
Qed.

Lemma deleteApiKey_fields session p w :
  (ApiKeysService.deleteApiKey session p w).1 = true ->
  nth 1 (shopReplies w) Served = Served ->
  metafields (ApiKeysService.deleteApiKey session p w).2 !! keyField session = Some ""
  /\ (nth 2 (shopReplies w) Served = Served ->
      metafields (ApiKeysService.deleteApiKey session p w).2 !! providerField session
      = Some "").
Proof.
  intros Htrue Hserved.
  destruct (deleteApiKey_true _ _ _ Htrue) as [Hread Hstored].
  unfold ApiKeysService.deleteApiKey.
  rewrite bind_run, getMetafield_run. cbn [fst snd].
  rewrite Hread.
  change (shop session, ApiKeysService.API_KEY_NAMESPACE, ApiKeysService.API_KEY_PROVIDER_KEY)
    with (providerField session).
  rewrite Hstored. cbn [ApiKeysService.differs]. rewrite String.eqb_refl. cbn [negb].
  rewrite bind_run, setMetafield_run. cbn [asked shopReplies emit nextShopReply snd fst].
  rewrite hd_tl, Hserved. cbn [fst snd].
  rewrite bind_run, setMetafield_run. cbn -[insert lookup].
  rewrite hd_tl_tl.
  destruct (nth 2 (shopReplies w) Served) eqn:E2; cbn -[insert lookup].
  - rewrite lookup_insert_ne by discriminate. rewrite !lookup_insert_eq. auto.
  - rewrite lookup_insert_eq. split; [reflexivity|discriminate].
  - rewrite lookup_insert_eq. split; [reflexivity|discriminate].
Qed.

(** The writes of [deleteApiKey] play no part in its result. *)
Lemma deleteApiKey_matching session p w :
  hd Served (shopReplies w) = Served ->
  metafields w !! providerField session = Some p ->
  (ApiKeysService.deleteApiKey session p w).1 = true.
Proof.
  intros Hread Hstored. unfold ApiKeysService.deleteApiKey.
  rewrite bind_run, getMetafield_run. cbn [fst snd].
  change (shop session, ApiKeysService.API_KEY_NAMESPACE, ApiKeysService.API_KEY_PROVIDER_KEY)
    with (providerField session).
  rewrite Hread, Hstored. cbn [ApiKeysService.differs]. rewrite String.eqb_refl. cbn [negb].
  rewrite bind_run.
  destruct (MetafieldsService.setMetafield session _ ApiKeysService.API_KEY_FIELD_KEY _ _)
    as [b1 w1]. cbn [fst snd]. rewrite bind_run.
  destruct (MetafieldsService.setMetafield session _ ApiKeysService.API_KEY_PROVIDER_KEY _ _)
    as [b2 w2]. reflexivity.
Qed.

(** C10 (as amended).  [deleteApiKey] returns true exactly when the platform
    serves its read of the stored provider and that provider is the
    requested one, whatever becomes of its two writes.  When it returns true
    and the platform carries out the write of the encrypted key, that field
    holds the empty string afterwards (and so does the provider field when
    its write is carried out too), and [getApiKey], with or without a
    provider filter, returns [null] on the resulting store. *)
Theorem C10_getApiKey_null_after_served_delete `{NodeCrypto}
    (session : Session) (p : string) (filter : option string) (w : World) :
  ((ApiKeysService.deleteApiKey session p w).1 = true
   <-> nth 0 (shopReplies w) Served = Served
       /\ metafields w !! providerField session = Some p)
  /\ ((ApiKeysService.deleteApiKey session p w).1 = true ->
      nth 1 (shopReplies w) Served = Served ->
      metafields (ApiKeysService.deleteApiKey session p w).2 !! keyField session = Some ""
      /\ (nth 2 (shopReplies w) Served = Served ->
          metafields (ApiKeysService.deleteApiKey session p w).2 !! providerField session
          = Some "")
      /\ (ApiKeysService.getApiKey session filter
            (ApiKeysService.deleteApiKey session p w).2).1
         = None).
Proof.
  split.
  { rewrite <- hd_nth. split; [apply deleteApiKey_true|].
    intros [Hread Hstored]. now apply deleteApiKey_matching. }
  intros Htrue Hserved.
  destruct (deleteApiKey_fields _ _ _ Htrue Hserved) as [Hkey Hprov].
  repeat split; [exact Hkey | exact Hprov |].
  unfold ApiKeysService.getApiKey.
  rewrite bind_run, getMetafield_run. cbn [fst snd].
  change (shop session, ApiKeysService.API_KEY_NAMESPACE, ApiKeysService.API_KEY_FIELD_KEY)
    with (keyField session).
  rewrite Hkey.
  now destruct (hd Served (shopReplies (ApiKeysService.deleteApiKey session p w).2)).
Qed.

Lemma C10_witness :
  (ApiKeysService.deleteApiKey demoSession "openaiApiKey" (savedWorld "openaiApiKey")).1 = true
  /\ nth 1 (shopReplies (savedWorld "openaiApiKey")) Served = Served
  /\ (@ApiKeysService.getApiKey XorCrypto.crypto demoSession None
        (ApiKeysService.deleteApiKey demoSession "openaiApiKey" (savedWorld "openaiApiKey")).2).1
     = None.
Proof.
  assert (Htrue : (ApiKeysService.deleteApiKey demoSession "openaiApiKey"
                     (savedWorld "openaiApiKey")).1 = true) by (vm_compute; reflexivity).
  assert (Hserved : nth 1 (shopReplies (savedWorld "openaiApiKey")) Served = Served)
    by (vm_compute; reflexivity).
  split; [exact Htrue|]. split; [exact Hserved|].
  exact (proj2 (proj2 (proj2 (@C10_getApiKey_null_after_served_delete XorCrypto.crypto
                                demoSession "openaiApiKey" None (savedWorld "openaiApiKey"))
                         Htrue Hserved))).
Defined.

(** The claim C10 as stated fails: the platform refuses the write of the
    encrypted key, [deleteApiKey] still returns true, and the next
    [getApiKey] returns the key. *)
Lemma C10_counterexample :
  (ApiKeysService.deleteApiKey demoSession "openaiApiKey" refusingWorld).1 = true
  /\ (@ApiKeysService.getApiKey XorCrypto.crypto demoSession None
        (ApiKeysService.deleteApiKey demoSession "openaiApiKey" refusingWorld).2).1
     = Some {| provider := "unknown"; apiKey := Js.text "sk-secret" |}.
Proof. split; vm_compute; reflexivity. Qed.

Lemma saveApiKey_provider_field `{NodeCrypto} session p k w :
  let w' := (ApiKeysService.saveApiKey session p k w).2 in
  (metafields w' !! providerField session = Some p
   \/ metafields w' !! providerField session = metafields w !! providerField session)
  /\ (forall encryptedKey,
        (EncryptionService.encrypt k w).1 = Ok encryptedKey ->
        nth 1 (shopReplies w) Served = Served ->
        (ApiKeysService.saveApiKey session p k w).1 = true
        /\ metafields w' !! providerField session = Some p).
Proof.
  unfold ApiKeysService.saveApiKey. rewrite bind_run.
  destruct (encrypt_world k w) as (Hm & Hr).
  destruct (EncryptionService.encrypt k w) as [[encryptedKey|message] w1]; cbn [fst snd] in *.
  2:{ cbn. split; [right; now rewrite Hm | discriminate]. }
  rewrite bind_run.
  destruct (setMetafield_spec session ApiKeysService.API_KEY_NAMESPACE
              ApiKeysService.API_KEY_FIELD_KEY encryptedKey w1) as [Hr1 Hm1].
  destruct (MetafieldsService.setMetafield session _ ApiKeysService.API_KEY_FIELD_KEY _ w1)
    as [b1 w2]; cbn [fst snd] in *.
  rewrite bind_run.
  destruct (setMetafield_spec session ApiKeysService.API_KEY_NAMESPACE
              ApiKeysService.API_KEY_PROVIDER_KEY p w2) as [Hr2 Hm2].
  destruct (MetafieldsService.setMetafield session _ ApiKeysService.API_KEY_PROVIDER_KEY _ w2)
    as [b2 w3]; cbn [fst snd ret] in *.
  assert (Hp : metafields w2 !! providerField session = metafields w !! providerField session).
  { rewrite <- Hm. destruct (hd Served (shopReplies w1)); destruct Hm1 as [_ ->];
      try reflexivity.
    now rewrite lookup_insert_ne by discriminate. }
  rewrite Hr1, hd_tl, Hr in Hm2.
  destruct (nth 1 (shopReplies w) Served); destruct Hm2 as [_ ->];
    change (shop session, ApiKeysService.API_KEY_NAMESPACE, ApiKeysService.API_KEY_PROVIDER_KEY)
      with (providerField session);
    rewrite ?lookup_insert_eq;
    (split; [auto | intros ? _ ?; try discriminate; auto]).
Qed.

Lemma getApiKey_provider `{NodeCrypto} session filter w d :
  (ApiKeysService.getApiKey session filter w).1 = Some d ->
  provider d = "unknown"
  \/ (metafields w !! providerField session = Some (provider d) /\ provider d <> "").
Proof.
  unfold ApiKeysService.getApiKey.
  rewrite bind_run, getMetafield_run. cbn [fst snd].
  destruct (match hd Served (shopReplies w) with Served => _ | _ => None end) as [enc|];
    [|discriminate].
  destruct (Js.truthy enc); cbn [negb]; [|discriminate].
  rewrite bind_run, getMetafield_run. cbn [fst snd].
  change (shop session, ApiKeysService.API_KEY_NAMESPACE, ApiKeysService.API_KEY_PROVIDER_KEY)
    with (providerField session).
  set (v := match hd Served (shopReplies (asked _ w)) with Served => _ | _ => None end).
  assert (Hv : v = None \/ v = metafields w !! providerField session).
  { subst v. destruct (hd Served _); auto. }
  destruct (match filter with Some p => _ | None => false end); [discriminate|].
  rewrite bind_run.
  destruct (EncryptionService.decrypt enc _) as [[apiKey|message] w3]; cbn; [|discriminate].
  intros [= <-]. cbn.
  destruct Hv as [-> | ->]; [now left|].
  destruct (metafields w !! providerField session) as [s|]; cbn; [|now left].
  destruct s; cbn; [now left | right; split; [reflexivity | discriminate]].
Qed.

Lemma AppSettingsSchema_apiProvider fields :
  Zod.safeParse AppSettingsSchema (Zod.JObject fields) = true ->
  exists p, Zod.field "apiProvider" fields = Zod.JString p /\ knownProvider p.
Proof.
  unfold Zod.safeParse, AppSettingsSchema, Zod.object. cbn [List.map List.concat].
  destruct (Zod.field "apiProvider" fields) as [| | | |p| |]; cbn; try discriminate.
  destruct (String.eqb_spec p "openaiApiKey") as [->|_]; cbn.
  { intros _. exists "openaiApiKey". split; [reflexivity | now left]. }
  destruct (String.eqb_spec p "deepseekApiKey") as [->|_]; cbn.
  { intros _. exists "deepseekApiKey". split; [reflexivity | now right]. }
  discriminate.
Qed.

(** C9 (as amended).  The API-key service does not check the provider
    identifier.  [saveApiKey] leaves in the provider field either the string
    it was given or what was there before, and stores the given string,
    whatever it is, once the key is encrypted and the platform carries out
    the write; a non-null result of [getApiKey] carries the stored
    identifier when that is not empty, and ['unknown'] otherwise.  The two
    known identifiers are enforced one level up, by [AppSettingsSchema]. *)
Theorem C9_provider_identifier_stored_unchecked `{NodeCrypto}
    (session : Session) (w : World) :
  (forall p k,
      metafields (ApiKeysService.saveApiKey session p k w).2 !! providerField session = Some p
      \/ metafields (ApiKeysService.saveApiKey session p k w).2 !! providerField session
         = metafields w !! providerField session)
  /\ (forall p k encryptedKey,
        (EncryptionService.encrypt k w).1 = Ok encryptedKey ->
        nth 1 (shopReplies w) Served = Served ->
        (ApiKeysService.saveApiKey session p k w).1 = true
        /\ metafields (ApiKeysService.saveApiKey session p k w).2 !! providerField session
           = Some p)
  /\ (forall filter d,
        (ApiKeysService.getApiKey session filter w).1 = Some d ->
        provider d = "unknown"
        \/ (metafields w !! providerField session = Some (provider d) /\ provider d <> ""))
  /\ (forall fields,
        Zod.safeParse AppSettingsSchema (Zod.JObject fields) = true ->
        exists p, Zod.field "apiProvider" fields = Zod.JString p /\ knownProvider p).
Proof.
  repeat split.
  - intros p k. apply (saveApiKey_provider_field session p k w).
  - eapply (saveApiKey_provider_field session p k w); eassumption.
  - eapply (saveApiKey_provider_field session p k w); eassumption.
  - intros filter d. apply getApiKey_provider.
  - apply AppSettingsSchema_apiProvider.
Qed.

(** The claim C9 as stated fails: a provider string outside the two known
    identifiers is stored as it is and comes back from [getApiKey]. *)
Lemma C9_counterexample :
  metafields (savedWorld "anthropic") !! providerField demoSession = Some "anthropic"
  /\ (@ApiKeysService.getApiKey XorCrypto.crypto demoSession None (savedWorld "anthropic")).1
     = Some {| provider := "anthropic"; apiKey := Js.text "sk-secret" |}
  /\ ~ knownProvider "anthropic".
Proof.
  split; [vm_compute; reflexivity|]. split; [vm_compute; reflexivity|].
  intros [E|E]; discriminate E.
Qed.

(** ** The facade *)

Lemma getApiKey_world `{NodeCrypto} session filter w :
  let w' := (ApiKeysService.getApiKey session filter w).2 in
  metafields w' = metafields w
  /\ llmReplies w' = llmReplies w
  /\ exists events, log w' = (log w ++ events)%list /\ Forall isMetafieldQuery events.
Proof.
  unfold ApiKeysService.getApiKey.
  rewrite bind_run, getMetafield_run. cbn [fst snd].
  assert (Hone : forall e w0, isMetafieldQuery e ->
            exists events, log (asked e w0) = (log w0 ++ events)%list
                           /\ Forall isMetafieldQuery events).
  { intros e w0 He. exists [e]. split; [reflexivity | now constructor]. }
  destruct (match hd Served (shopReplies w) with Served => _ | _ => None end) as [enc|];
    [|repeat split; now apply Hone].
  destruct (Js.truthy enc); cbn [negb]; [|repeat split; now apply Hone].
  rewrite bind_run, getMetafield_run. cbn [fst snd].
  assert (Htwo : exists events,
             log (asked (GetMetafieldQuery (shop session) ApiKeysService.API_KEY_NAMESPACE
                           ApiKeysService.API_KEY_PROVIDER_KEY)
                    (asked (GetMetafieldQuery (shop session) ApiKeysService.API_KEY_NAMESPACE
                              ApiKeysService.API_KEY_FIELD_KEY) w))
             = (log w ++ events)%list /\ Forall isMetafieldQuery events).
  { eexists [_; _]. split; [cbn; now rewrite <- app_assoc | now repeat constructor]. }
  destruct (match filter with Some p => _ | None => false end); [now repeat split|].
  rewrite bind_run.
  assert (Hd : forall w0, (EncryptionService.decrypt enc w0).2 = w0) by reflexivity.
  destruct (EncryptionService.decrypt enc _) as [[apiKey|message] w3] eqn:E;
    apply (f_equal snd) in E; rewrite Hd in E; cbn in E; subst w3; now repeat split.
Qed.

(** C4.  When the API-key service returns [null] for the session, the
    facade's [generateProductContent] returns the failure with errorCode
    ['NO_API_KEY']; the world it leaves is the one the key lookup left: no
    reply of a language-model service is consumed and every logged event is
    a metafield read, so no provider method ran and no request was sent. *)
Theorem C4_generate_without_credential `{NodeCrypto}
    (session : Session) (productData : ProductData) (customPrompt : string)
    (options : GenerationOptions) (w : World) :
  (ApiKeysService.getApiKey session None w).1 = None ->
  let r := AiServiceImplementation.generateProductContent
             session productData customPrompt options w in
  r.1 = failure "No API key configured. Please configure an API key in the settings."
          "NO_API_KEY"
  /\ r.2 = (ApiKeysService.getApiKey session None w).2
  /\ llmReplies r.2 = llmReplies w
  /\ exists events, log r.2 = (log w ++ events)%list /\ Forall isMetafieldQuery events.
Proof.
  intros Hnone. unfold AiServiceImplementation.generateProductContent.
  rewrite bind_run, Hnone. cbn [ret fst snd].
  split; [reflexivity|]. split; [reflexivity|]. apply getApiKey_world.
Qed.

Lemma C4_witness :
  (@ApiKeysService.getApiKey XorCrypto.crypto demoSession None emptyWorld).1 = None
  /\ (@AiServiceImplementation.generateProductContent XorCrypto.crypto
        demoSession sampleProduct "Be concise" sampleOptions emptyWorld).1
     = failure "No API key configured. Please configure an API key in the settings."
         "NO_API_KEY".
Proof.
  assert (Hnone : (@ApiKeysService.getApiKey XorCrypto.crypto demoSession None emptyWorld).1
                  = None) by (vm_compute; reflexivity).
  split; [exact Hnone|].
  exact (proj1 (@C4_generate_without_credential XorCrypto.crypto demoSession sampleProduct
                  "Be concise" sampleOptions emptyWorld Hnone)).
Defined.

(** With a credential stored the selection of the provider decides: as
    it throws for every identifier, [generateProductContent] and
    [regenerateContent] end in their catch clause. *)
Lemma generate_with_credential `{NodeCrypto} session productData customPrompt options w d :
  (ApiKeysService.getApiKey session None w).1 = Some d ->
  AiServiceImplementation.generateProductContent session productData customPrompt options w
  = (failure ("Unsupported AI provider: " +:+ provider d) "GENERATION_FAILED",
     (ApiKeysService.getApiKey session None w).2).
Proof.
  intros Hsome. unfold AiServiceImplementation.generateProductContent.
  rewrite bind_run, Hsome, getProvider_unsupported. reflexivity.
Qed.

Lemma regenerate_with_credential `{NodeCrypto} session previousResult feedback options w d :
  (ApiKeysService.getApiKey session None w).1 = Some d ->
  AiServiceImplementation.regenerateContent session previousResult feedback options w
  = (failure ("Unsupported AI provider: " +:+ provider d) "REGENERATION_FAILED",
     (ApiKeysService.getApiKey session None w).2).
Proof.
  intros Hsome. unfold AiServiceImplementation.regenerateContent.
  rewrite bind_run, Hsome, getProvider_unsupported. reflexivity.
Qed.

Lemma regenerate_openai_no_previous apiKey previousResult feedback options w :
  success previousResult = false \/ content previousResult = None ->
  OpenAIProvider.regenerateContent apiKey previousResult feedback options w
  = (failure "No previous content to regenerate" "NO_PREVIOUS_CONTENT",
     (emit (ProviderCalled "openai" "regenerateContent") w).2).
Proof.
  intros Hprev. unfold OpenAIProvider.regenerateContent. rewrite bind_run.
  destruct Hprev as [-> | ->]; [reflexivity|].
  now destruct (success previousResult).
Qed.

Lemma regenerate_deepseek_no_previous apiKey previousResult feedback options w :
  success previousResult = false \/ content previousResult = None ->
  DeepSeekProvider.regenerateContent apiKey previousResult feedback options w
  = (failure "No previous content to regenerate" "NO_PREVIOUS_CONTENT",
     (emit (ProviderCalled "deepseek" "regenerateContent") w).2).
Proof.
  intros Hprev. unfold DeepSeekProvider.regenerateContent. rewrite bind_run.
  destruct Hprev as [-> | ->]; [reflexivity|].
  now destruct (success previousResult).
Qed.

(** C2 (as amended).  The check of the previous result is the provider's:
    called with a previous result whose [success] is false or whose
    [content] is absent, [regenerateContent] of either provider returns the
    failure with errorCode ['NO_PREVIOUS_CONTENT'] and sends no request.  The
    facade looks the credential up first: when none is stored it returns
    errorCode ['NO_API_KEY'], whatever the previous result. *)
Theorem C2_regenerate_without_previous_content `{NodeCrypto}
    (session : Session) (previousResult : ContentGenerationResult)
    (feedback : string) (options : GenerationOptions) (w : World) :
  success previousResult = false \/ content previousResult = None ->
  (forall apiKey,
      (regenerateContent openaiProvider apiKey previousResult feedback options w).1
      = failure "No previous content to regenerate" "NO_PREVIOUS_CONTENT"
      /\ (regenerateContent deepseekProvider apiKey previousResult feedback options w).1
         = failure "No previous content to regenerate" "NO_PREVIOUS_CONTENT"
      /\ log (regenerateContent openaiProvider apiKey previousResult feedback options w).2
         = (log w ++ [ProviderCalled "openai" "regenerateContent"])%list
      /\ log (regenerateContent deepseekProvider apiKey previousResult feedback options w).2
         = (log w ++ [ProviderCalled "deepseek" "regenerateContent"])%list)
  /\ ((ApiKeysService.getApiKey session None w).1 = None ->
      (AiServiceImplementation.regenerateContent session previousResult feedback options w).1
      = failure "No API key configured. Please configure an API key in the settings."
          "NO_API_KEY").
Proof.
  intros Hprev. split.
  - intros apiKey. cbn [regenerateContent openaiProvider deepseekProvider].
    rewrite (regenerate_openai_no_previous _ _ _ _ _ Hprev),
      (regenerate_deepseek_no_previous _ _ _ _ _ Hprev).
    repeat split.
  - intros Hnone. unfold AiServiceImplementation.regenerateContent.
    rewrite bind_run, Hnone. reflexivity.
Qed.

Lemma C2_witness :
  (success failedResult = false \/ content failedResult = None)
  /\ (regenerateContent openaiProvider (Js.text "sk-secret") failedResult "Shorter, please"
        sampleOptions emptyWorld).1
     = failure "No previous content to regenerate" "NO_PREVIOUS_CONTENT".
Proof.
  assert (Hprev : success failedResult = false \/ content failedResult = None)
    by (left; reflexivity).
  split; [exact Hprev|].
  exact (proj1 (proj1 (@C2_regenerate_without_previous_content XorCrypto.crypto demoSession
                         failedResult "Shorter, please" sampleOptions emptyWorld Hprev)
                  (Js.text "sk-secret"))).
Defined.

(** The claim C2 as stated fails: with no credential stored the facade
    answers a failed previous result with ['NO_API_KEY']. *)
Lemma C2_counterexample :
  success failedResult = false
  /\ errorCode (@AiServiceImplementation.regenerateContent XorCrypto.crypto demoSession
                  failedResult "Shorter, please" sampleOptions emptyWorld).1
     = Some "NO_API_KEY"
  /\ errorCode (@AiServiceImplementation.regenerateContent XorCrypto.crypto demoSession
                  failedResult "Shorter, please" sampleOptions emptyWorld).1
     <> Some "NO_PREVIOUS_CONTENT".
Proof.
  split; [reflexivity|]. split; [vm_compute; reflexivity | vm_compute; discriminate].
Qed.

(** ** Concrete runs of the encryption service *)

Lemma C3_witness :
  @EncryptionService.getEncryptionKey XorCrypto.crypto (ENCRYPTION_KEY emptyWorld)
  = Ok (XorCrypto.digest
          (XorCrypto.encodeText (Js.text "default_encryption_key_for_development_only")))
  /\ Js.isWellFormed (Js.text "sk-secret") = true
  /\ exists token,
      (@EncryptionService.encrypt XorCrypto.crypto (Js.text "sk-secret") emptyWorld).1 = Ok token
      /\ (@EncryptionService.decrypt XorCrypto.crypto token
            (@EncryptionService.encrypt XorCrypto.crypto (Js.text "sk-secret") emptyWorld).2).1
         = Ok (Js.text "sk-secret").
Proof.
  assert (Hkey : @EncryptionService.getEncryptionKey XorCrypto.crypto
                   (ENCRYPTION_KEY emptyWorld)
                 = Ok (XorCrypto.digest
                         (XorCrypto.encodeText
                            (Js.text "default_encryption_key_for_development_only"))))
    by reflexivity.
  assert (Hwf : Js.isWellFormed (Js.text "sk-secret") = true) by reflexivity.
  split; [exact Hkey|]. split; [exact Hwf|].
  destruct (proj1 (@C3_decrypt_encrypt_and_fresh_iv XorCrypto.crypto XorCrypto_laws
                     emptyWorld _ (Js.text "sk-secret") Hkey))
    as (token & Henc & _ & Hdec).
  exists token. split; [exact Henc | exact (Hdec Hwf)].
Defined.

(** A plaintext that is a lone high surrogate comes back as U+FFFD. *)
Lemma C3_counterexample :
  exists token,
    (@EncryptionService.encrypt XorCrypto.crypto loneSurrogate emptyWorld).1 = Ok token
    /\ (@EncryptionService.decrypt XorCrypto.crypto token
          (@EncryptionService.encrypt XorCrypto.crypto loneSurrogate emptyWorld).2).1
       = Ok [Js.replacement]
    /\ [Js.replacement] <> loneSurrogate.
Proof.
  eexists. split; [vm_compute; reflexivity|].
  split; [vm_compute; reflexivity | discriminate].
Qed.

Lemma C7_witness :
  Js.count ":" "00ff:0a:1b" <> 1
  /\ (@EncryptionService.decrypt XorCrypto.crypto "00ff:0a:1b" emptyWorld).1
     = Throw "Failed to decrypt data".
Proof.
  assert (Hcount : Js.count ":" "00ff:0a:1b" <> 1) by (vm_compute; discriminate).
  split; [exact Hcount|].
  exact (@C7_decrypt_rejects_delimiter_count XorCrypto.crypto emptyWorld "00ff:0a:1b" Hcount).
Defined.

(** * Further properties *)

(** ** Metafields service, further properties *)

(** X4.  When the platform serves both requests, [setMetafield] returns
    true and a [getMetafield] of the same field right after it returns the
    value written. *)
Theorem X4_setMetafield_then_getMetafield session namespace key value w :
  nth 0 (shopReplies w) Served = Served ->
  nth 1 (shopReplies w) Served = Served ->
  (MetafieldsService.setMetafield session namespace key value w).1 = true
  /\ (MetafieldsService.getMetafield session namespace key
        (MetafieldsService.setMetafield session namespace key value w).2).1 = Some value.
Proof.
  intros H0 H1. rewrite setMetafield_run. cbn zeta.
  rewrite hd_nth, H0. cbn [fst snd]. split; [reflexivity|].
  rewrite getMetafield_run. cbn [fst snd].
  cbn [stored asked writeMetafield emit nextShopReply shopReplies metafields fst snd].
  rewrite hd_tl, H1. apply lookup_insert_eq.
Qed.


Lemma createDefinition_run session definition w :
  MetafieldsService.createDefinition session definition w
  = (match hd Served (shopReplies w) with Failed => Throw "request failed" | _ => Ok tt end,
     asked (MetafieldDefinitionCreate (shop session) definition.1.1 definition.1.2 definition.2) w).
Proof.
  destruct definition as [[name namespace] key].
  unfold MetafieldsService.createDefinition, asked, bind, emit, nextShopReply, ret; cbn.
  destruct (shopReplies w) as [|[|message|] replies]; reflexivity.
Qed.

Lemma createAll_spec session definitions :
  forall w,
    metafields (MetafieldsService.createAll session definitions w).2 = metafields w
    /\ llmReplies (MetafieldsService.createAll session definitions w).2 = llmReplies w
    /\ ((MetafieldsService.createAll session definitions w).1 = true
        <-> forall i, i < List.length definitions -> nth i (shopReplies w) Served <> Failed).
Proof.
  induction definitions as [|definition rest IH]; intros w.
  - cbn. repeat split. intros _ i Hi. lia.
  - cbn [MetafieldsService.createAll]. rewrite bind_run, createDefinition_run. cbn [fst snd].
    set (w1 := asked _ w).
    assert (Hw1 : metafields w1 = metafields w /\ llmReplies w1 = llmReplies w
                  /\ shopReplies w1 = tl (shopReplies w)) by (subst w1; repeat split).
    destruct Hw1 as (Hm & Hl & Hr).
    assert (Hstep : (forall i, i < List.length rest -> nth i (shopReplies w1) Served <> Failed)
                    <-> (forall i, 0 < i < S (List.length rest) ->
                                   nth i (shopReplies w) Served <> Failed)).
    { rewrite Hr. split.
      - intros Hall [|i] Hi; [lia|]. specialize (Hall i ltac:(lia)).
        destruct (shopReplies w); [now destruct i | exact Hall].
      - intros Hall i Hi. specialize (Hall (S i) ltac:(lia)).
        destruct (shopReplies w); [now destruct i | exact Hall]. }
    assert (Hcons : forall P : nat -> Prop, (forall i, i < S (List.length rest) -> P i)
                      <-> P 0 /\ (forall i, 0 < i < S (List.length rest) -> P i)).
    { intros P. split.
      - intros Hall. split; [apply Hall; lia | intros i Hi; apply Hall; lia].
      - intros [H0 Hall] [|i] Hi; [exact H0 | apply Hall; lia]. }
    cbn [List.length]. rewrite Hcons, <- hd_nth, <- Hstep.
    destruct (hd Served (shopReplies w)) eqn:Hhd; cbv beta iota.
    1,2: destruct (IH w1) as (IHm & IHl & IHt);
         split; [congruence|]; split; [congruence|]; rewrite IHt;
         split; [intros Hall; split; [discriminate | exact Hall] | intros [_ Hall]; exact Hall].
    split; [exact Hm|]. split; [exact Hl|].
    split; [discriminate | intros [Hne _]; contradiction].
Qed.

(** X6.  [setupMetafieldDefinitions] never changes a metafield value, and
    returns true exactly when none of its four requests throws: user errors
    in the answers are ignored. *)
Theorem X6_setupMetafieldDefinitions session w :
  metafields (MetafieldsService.setupMetafieldDefinitions session w).2 = metafields w
  /\ ((MetafieldsService.setupMetafieldDefinitions session w).1 = true
      <-> forall i, i < 4 -> nth i (shopReplies w) Served <> Failed).
Proof.
  unfold MetafieldsService.setupMetafieldDefinitions.
  destruct (createAll_spec session MetafieldsService.metafieldDefinitions w) as (Hm & _ & Ht).
  split; [exact Hm | exact Ht].
Qed.

(** ** API-key service, further properties *)

Lemma encrypt_run `{NodeCrypto} plaintext w :
  EncryptionService.encrypt plaintext w
  = (EncryptionService.encryptWith (ENCRYPTION_KEY w) (randomBytes 16 w).1 plaintext,
     (randomBytes 16 w).2).
Proof. reflexivity. Qed.

Lemma decrypt_run `{NodeCrypto} token w :
  EncryptionService.decrypt token w
  = (EncryptionService.decryptWith (ENCRYPTION_KEY w) token, w).
Proof. reflexivity. Qed.

Lemma truthy_token iv encrypted :
  Js.truthy (Hex.encode iv +:+ ":" +:+ Hex.encode encrypted) = true.
Proof. now destruct (Hex.encode iv). Qed.

Lemma nth_tl {A} (d : A) l i : nth i (tl l) d = nth (S i) l d.
Proof. destruct l; [now destruct i | reflexivity]. Qed.

(** X7.  Under an accepted key and a platform that serves the four
    requests, [saveApiKey] returns true and the [getApiKey] that follows,
    without filter or filtered on the same provider, returns the saved
    provider (['unknown'] when the provider is the empty string) and the
    saved key with every lone surrogate replaced by U+FFFD, hence the saved
    key itself when it is well formed, whatever was stored before. *)
Theorem X7_saveApiKey_then_getApiKey `{NodeCryptoLaws} session p k w key filter :
  EncryptionService.getEncryptionKey (ENCRYPTION_KEY w) = Ok key ->
  (forall i, i < 4 -> nth i (shopReplies w) Served = Served) ->
  filter = None \/ filter = Some p ->
  (ApiKeysService.saveApiKey session p k w).1 = true
  /\ (ApiKeysService.getApiKey session filter (ApiKeysService.saveApiKey session p k w).2).1
     = Some {| provider := Js.orElse (Some p) "unknown"; apiKey := Js.toWellFormed k |}
  /\ (Js.isWellFormed k = true ->
      (ApiKeysService.getApiKey session filter (ApiKeysService.saveApiKey session p k w).2).1
      = Some {| provider := Js.orElse (Some p) "unknown"; apiKey := k |}).
Proof.
  intros Hkey Hserved Hfilter.
  enough (Hget : (ApiKeysService.saveApiKey session p k w).1 = true
                 /\ (ApiKeysService.getApiKey session filter
                       (ApiKeysService.saveApiKey session p k w).2).1
                    = Some {| provider := Js.orElse (Some p) "unknown";
                              apiKey := Js.toWellFormed k |}).
  { destruct Hget as [Htrue Hget]. split; [exact Htrue|]. split; [exact Hget|].
    intros Hwf. rewrite Hget, (toWellFormed_wellFormed k Hwf). reflexivity. }
  destruct (decryptWith_encryptWith _ key (randomBytes 16 w).1 k Hkey (randomBytes_length 16 w))
    as (token & Henc & Hdec).
  destruct (encryptWith_token _ _ _ _ Henc) as (encrypted & Htoken).
  unfold ApiKeysService.saveApiKey.
  rewrite bind_run, encrypt_run, Henc. cbn [fst snd].
  rewrite bind_run, setMetafield_run. cbn zeta.
  assert (Hs0 : hd Served (shopReplies (randomBytes 16 w).2) = Served)
    by (rewrite hd_nth; apply (Hserved 0); lia).
  rewrite Hs0. cbn [fst snd].
  rewrite bind_run, setMetafield_run. cbn zeta.
  assert (Hs1 : hd Served (shopReplies
                 (stored (shop session, ApiKeysService.API_KEY_NAMESPACE,
                          ApiKeysService.API_KEY_FIELD_KEY) token
                    (asked (MetafieldsSetMutation (shop session) ApiKeysService.API_KEY_NAMESPACE
                              ApiKeysService.API_KEY_FIELD_KEY token
                              (fieldType ApiKeysService.API_KEY_FIELD_KEY))
                       (randomBytes 16 w).2))) = Served).
  { cbn [stored asked writeMetafield emit nextShopReply randomBytes shopReplies fst snd].
    rewrite hd_tl. apply (Hserved 1); lia. }
  rewrite Hs1. cbn [fst snd ret]. split; [reflexivity|].
  unfold ApiKeysService.getApiKey.
  rewrite bind_run, getMetafield_run. cbn [fst snd].
  set (w' := stored _ p _).
  assert (Hw' : metafields w' !! keyField session = Some token
                /\ metafields w' !! providerField session = Some p
                /\ shopReplies w' = tl (tl (shopReplies w))
                /\ ENCRYPTION_KEY w' = ENCRYPTION_KEY w).
  { subst w'. cbn -[insert lookup]. repeat split.
    - rewrite lookup_insert_ne by discriminate. apply lookup_insert_eq.
    - apply lookup_insert_eq. }
  destruct Hw' as (Hk & Hp & Hr & He).
  change (shop session, ApiKeysService.API_KEY_NAMESPACE, ApiKeysService.API_KEY_FIELD_KEY)
    with (keyField session).
  rewrite Hr, hd_tl_tl, (Hserved 2) by lia. rewrite Hk.
  assert (Ht : Js.truthy token = true) by (rewrite Htoken; apply truthy_token).
  rewrite Ht. cbn [negb].
  rewrite bind_run, getMetafield_run. cbn [fst snd].
  change (shop session, ApiKeysService.API_KEY_NAMESPACE, ApiKeysService.API_KEY_PROVIDER_KEY)
    with (providerField session).
  cbn [asked emit nextShopReply shopReplies metafields fst snd].
  rewrite Hr, hd_tl, !nth_tl, (Hserved 3) by lia. rewrite Hp.
  assert (Hf : match filter with
               | Some q => Js.truthy q && ApiKeysService.differs (Some p) q
               | None => false
               end = false).
  { destruct Hfilter as [-> | ->]; [reflexivity|].
    cbn [ApiKeysService.differs]. now rewrite String.eqb_refl, andb_false_r. }
  rewrite Hf.
  rewrite bind_run, decrypt_run. cbn [fst snd ENCRYPTION_KEY asked emit nextShopReply].
  rewrite He, Hdec. reflexivity.
Qed.

(** X9.  [getApiKey] filtered on a non-empty provider that is not the
    stored one returns [null]; filtered on the empty string it behaves as
    without filter. *)
Theorem X9_getApiKey_filter `{NodeCrypto} session p w :
  (p <> "" -> metafields w !! providerField session <> Some p ->
   (ApiKeysService.getApiKey session (Some p) w).1 = None)
  /\ ApiKeysService.getApiKey session (Some "") w = ApiKeysService.getApiKey session None w.
Proof.
  split; [|reflexivity].
  intros Hp Hstored. unfold ApiKeysService.getApiKey.
  rewrite bind_run, getMetafield_run. cbn [fst snd].
  destruct (match hd Served (shopReplies w) with Served => _ | _ => None end) as [enc|];
    [|reflexivity].
  destruct (Js.truthy enc); cbn [negb]; [|reflexivity].
  rewrite bind_run, getMetafield_run. cbn [fst snd].
  change (shop session, ApiKeysService.API_KEY_NAMESPACE, ApiKeysService.API_KEY_PROVIDER_KEY)
    with (providerField session).
  set (v := match hd Served (shopReplies (asked _ w)) with Served => _ | _ => None end).
  assert (Hv : v = None \/ v = metafields w !! providerField session).
  { subst v. destruct (hd Served _); auto. }
  assert (Hd : Js.truthy p && ApiKeysService.differs v p = true).
  { destruct p as [|c p]; [contradiction|]. cbn [Js.truthy andb].
    destruct Hv as [-> | ->]; [reflexivity|].
    destruct (metafields w !! providerField session) as [s|]; [|reflexivity].
    cbn. destruct (String.eqb_spec s (String c p)); [subst; contradiction | reflexivity]. }
  rewrite Hd. reflexivity.
Qed.

(** X11.  [getApiKey] changes no metafield, consumes no reply of a
    language-model service, and logs nothing but metafield reads. *)
Theorem X11_getApiKey_read_only `{NodeCrypto} session filter w :
  metafields (ApiKeysService.getApiKey session filter w).2 = metafields w
  /\ llmReplies (ApiKeysService.getApiKey session filter w).2 = llmReplies w
  /\ exists events,
       log (ApiKeysService.getApiKey session filter w).2 = (log w ++ events)%list
       /\ Forall isMetafieldQuery events.
Proof. apply getApiKey_world. Qed.

(** X12.  [deleteApiKey] returns true exactly when the platform serves its
    read and the stored provider is the requested one; the outcome of its
    two writes plays no part. *)
Theorem X12_deleteApiKey_true_iff session p w :
  (ApiKeysService.deleteApiKey session p w).1 = true
  <-> nth 0 (shopReplies w) Served = Served
      /\ metafields w !! providerField session = Some p.
Proof.
  rewrite <- hd_nth. split; [apply deleteApiKey_true|].
  intros [Hread Hstored]. now apply deleteApiKey_matching.
Qed.

Lemma other_field_kept session namespace key value (k : string * string * string) w :
  k <> (shop session, namespace, key) ->
  metafields (MetafieldsService.setMetafield session namespace key value w).2 !! k
  = metafields w !! k.
Proof.
  intros Hk. rewrite setMetafield_run. cbn zeta.
  destruct (hd Served (shopReplies w)); cbn -[insert lookup]; try reflexivity.
  now apply lookup_insert_ne.
Qed.

(** X13.  [saveApiKey] and [deleteApiKey] change no metafield other than
    the encrypted key and the provider of the session's shop. *)
Theorem X13_apiKeys_frame `{NodeCrypto} session p k (f : string * string * string) w :
  f <> keyField session -> f <> providerField session ->
  metafields (ApiKeysService.saveApiKey session p k w).2 !! f = metafields w !! f
  /\ metafields (ApiKeysService.deleteApiKey session p w).2 !! f = metafields w !! f.
Proof.
  intros Hk Hp. split.
  - unfold ApiKeysService.saveApiKey. rewrite bind_run, encrypt_run.
    destruct (EncryptionService.encryptWith _ _ _) as [token|message]; cbn [fst snd];
      [|reflexivity].
    rewrite !bind_run. cbn [ret snd]. now rewrite !other_field_kept.
  - unfold ApiKeysService.deleteApiKey. rewrite bind_run, getMetafield_run. cbn [fst snd].
    destruct (ApiKeysService.differs _ p); [reflexivity|].
    rewrite !bind_run. cbn [ret snd]. now rewrite !other_field_kept.
Qed.

(** X8.  Under an accepted key [saveApiKey] returns true whatever the
    platform answers: with both writes refused nothing is stored, and with
    only the second refused the new encrypted key stands beside the old
    provider. *)
Theorem X8_saveApiKey_reports_encryption_only `{NodeCryptoLaws} session p k w key :
  EncryptionService.getEncryptionKey (ENCRYPTION_KEY w) = Ok key ->
  exists token,
    (EncryptionService.encrypt k w).1 = Ok token
    /\ (ApiKeysService.saveApiKey session p k w).1 = true
    /\ (nth 0 (shopReplies w) Served <> Served ->
        nth 1 (shopReplies w) Served <> Served ->
        metafields (ApiKeysService.saveApiKey session p k w).2 = metafields w)
    /\ (nth 0 (shopReplies w) Served = Served ->
        nth 1 (shopReplies w) Served <> Served ->
        metafields (ApiKeysService.saveApiKey session p k w).2 !! keyField session
        = Some token
        /\ metafields (ApiKeysService.saveApiKey session p k w).2 !! providerField session
           = metafields w !! providerField session).
Proof.
  intros Hkey.
  destruct (decryptWith_encryptWith _ key (randomBytes 16 w).1 k Hkey (randomBytes_length 16 w))
    as (token & Henc & _).
  exists token. split; [exact Henc|].
  unfold ApiKeysService.saveApiKey.
  rewrite bind_run, encrypt_run, Henc. cbn [fst snd].
  assert (Hw0 : shopReplies (randomBytes 16 w).2 = shopReplies w
                /\ metafields (randomBytes 16 w).2 = metafields w) by (split; reflexivity).
  destruct Hw0 as [Hr0 Hm0]. generalize dependent (randomBytes 16 w).2. intros w0 Hr0 Hm0.
  rewrite bind_run.
  pose proof (setMetafield_spec session ApiKeysService.API_KEY_NAMESPACE
                ApiKeysService.API_KEY_FIELD_KEY token w0) as [Hr1 Hs1].
  destruct (MetafieldsService.setMetafield session _ ApiKeysService.API_KEY_FIELD_KEY _ w0)
    as [b1 w1]. cbn [fst snd] in *.
  rewrite bind_run.
  pose proof (setMetafield_spec session ApiKeysService.API_KEY_NAMESPACE
                ApiKeysService.API_KEY_PROVIDER_KEY p w1) as [Hr2 Hs2].
  destruct (MetafieldsService.setMetafield session _ ApiKeysService.API_KEY_PROVIDER_KEY _ w1)
    as [b2 w2]. cbn [fst snd ret] in *.
  rewrite Hr1, hd_tl, Hr0 in Hs2. rewrite Hr0, hd_nth in Hs1.
  split; [reflexivity|]. split.
  - intros N0 N1.
    destruct (nth 0 (shopReplies w) Served); [contradiction| |];
      destruct (nth 1 (shopReplies w) Served); try contradiction;
      destruct Hs1 as [_ Hm1], Hs2 as [_ Hm2]; congruence.
  - intros E0 N1. rewrite E0 in Hs1. destruct Hs1 as [_ Hm1].
    destruct (nth 1 (shopReplies w) Served); [contradiction| |];
      destruct Hs2 as [_ Hm2]; rewrite Hm2, Hm1, Hm0;
      (split; [apply lookup_insert_eq | apply lookup_insert_ne; discriminate]).
Qed.

Lemma decryptWith_malformed `{NodeCrypto} env token :
  Js.count ":" token <> 1 ->
  EncryptionService.decryptWith env token = Throw "Failed to decrypt data".
Proof.
  intros Hcount. unfold EncryptionService.decryptWith.
  pose proof (split_length ":" token) as Hlen.
  destruct (Js.split ":" token) as [|part0 [|part1 [|part2 parts]]]; try reflexivity.
  simpl in Hlen. congruence.
Qed.

(** X10.  When the stored encrypted key is not of the form [iv:data] (its
    number of colons is not one), [getApiKey] returns [null]: the
    decryption error does not escape. *)
Theorem X10_getApiKey_corrupt_token `{NodeCrypto} session filter token w :
  metafields w !! keyField session = Some token ->
  Js.count ":" token <> 1 ->
  (ApiKeysService.getApiKey session filter w).1 = None.
Proof.
  intros Hstored Hcount. unfold ApiKeysService.getApiKey.
  rewrite bind_run, getMetafield_run. cbn [fst snd].
  change (shop session, ApiKeysService.API_KEY_NAMESPACE, ApiKeysService.API_KEY_FIELD_KEY)
    with (keyField session).
  rewrite Hstored.
  destruct (hd Served (shopReplies w)); try reflexivity.
  destruct (Js.truthy token); cbn [negb]; [|reflexivity].
  rewrite bind_run.
  destruct (MetafieldsService.getMetafield session _ _ _) as [v w1]. cbn [fst snd].
  destruct (match filter with Some p => _ | None => false end); [reflexivity|].
  rewrite bind_run, decrypt_run. cbn [fst snd].
  now rewrite decryptWith_malformed.
Qed.

(** ** Encryption service, further properties *)

(** X1.  A key configured as [hex:] followed by the hexadecimal text of a
    buffer is that buffer itself when it has 32 bytes, and is rejected
    otherwise. *)
Theorem X1_getEncryptionKey_hex `{NodeCrypto} (b : Buffer) :
  EncryptionService.getEncryptionKey (Some ("hex:" +:+ Hex.encode b))
  = if Nat.eqb (List.length b) 32 then Ok b
    else Throw "ENCRYPTION_KEY must be 32 bytes (64 hex characters)".
Proof.
  unfold EncryptionService.getEncryptionKey.
  change ("hex:" +:+ Hex.encode b) with (String "h" (String "e" (String "x" (String ":" (Hex.encode b))))).
  cbn [Js.orElse Js.truthy Js.startsWith Ascii.eqb Bool.eqb andb Js.substring].
  rewrite hex_decode_encode. now destruct (Hex.encode b).
Qed.

(** X2.  When the configured key is rejected, [encrypt] throws its
    encryption error for every plaintext and [decrypt] its decryption error
    for every token. *)
Theorem X2_rejected_key_fails_both_ways `{NodeCrypto}
    (w : World) (message : string) (plaintext : Js.Text) (token : string) :
  EncryptionService.getEncryptionKey (ENCRYPTION_KEY w) = Throw message ->
  (EncryptionService.encrypt plaintext w).1 = Throw "Failed to encrypt data"
  /\ (EncryptionService.decrypt token w).1 = Throw "Failed to decrypt data".
Proof.
  intros Hkey. rewrite encrypt_run, decrypt_run. cbn [fst].
  unfold EncryptionService.encryptWith, EncryptionService.decryptWith. rewrite Hkey.
  split; [reflexivity|].
  now destruct (Js.split ":" token) as [|part0 [|part1 [|part2 parts]]].
Qed.

Lemma count_append c a b : Js.count c (a +:+ b) = Js.count c a + Js.count c b.
Proof. induction a as [|d a IH]; simpl; [reflexivity|]. rewrite IH. lia. Qed.

(** X3.  A token returned by [encrypt] has exactly one colon; the part
    before it has 32 characters and is the hexadecimal text of the 16 random
    bytes drawn for this call. *)
Theorem X3_token_shape `{NodeCrypto} (w : World) (plaintext : Js.Text) (token : string) :
  (EncryptionService.encrypt plaintext w).1 = Ok token ->
  Js.count ":" token = 1
  /\ exists ivHex encryptedHex,
       Js.split ":" token = [ivHex; encryptedHex]
       /\ String.length ivHex = 32
       /\ Hex.decode ivHex = (randomBytes 16 w).1.
Proof.
  rewrite encrypt_run. cbn [fst]. intros Henc.
  apply encryptWith_token in Henc as (encrypted & ->).
  split.
  - rewrite !count_append, !hex_encode_no_colon. reflexivity.
  - exists (Hex.encode (randomBytes 16 w).1), (Hex.encode encrypted).
    rewrite split_token, hex_encode_length, randomBytes_length, hex_decode_encode.
    repeat split.
Qed.

(** ** Providers, further properties *)

Lemma orElse_nonempty a d : d <> "" -> Js.orElse a d <> "".
Proof.
  intros Hd. destruct a as [[|c s]|]; cbn; try exact Hd. discriminate.
Qed.

Lemma wellFormed_failure err code : err <> "" -> wellFormed (failure err code).
Proof.
  intros He. cbn. split; [reflexivity|]. split; [now exists err | discriminate].
Qed.

Ltac run_provider w :=
  unfold sent, entered, nextReply, errorText, chatCompletion, bind, emit, nextLlmReply, ret;
  cbn [fst snd llmReplies];
  destruct (llmReplies w) as [|[text usage|status message] replies]; cbn [hd];
  unfold OpenAIProvider.response, DeepSeekProvider.response; cbn [statusIs];
  repeat match goal with
    | |- context [statusIs ?s ?n] => destruct (statusIs s n)
    end;
  reflexivity.

Lemma openai_generateProductContent_run apiKey productData customPrompt options w :
  OpenAIProvider.generateProductContent apiKey productData customPrompt options w
  = (match nextReply w with
     | Completed text usage => OpenAIProvider.generated "gpt-4" text usage
     | Thrown _ message =>
         failure (errorText message "An error occurred while generating content with OpenAI.")
           "OPENAI_ERROR"
     end,
     sent "openai" "generateProductContent" apiKey "gpt-4"
       (ProductPrompt productData customPrompt options) w).
Proof.
  unfold OpenAIProvider.generateProductContent. run_provider w.
Qed.

Lemma deepseek_generateProductContent_run apiKey productData customPrompt options w :
  DeepSeekProvider.generateProductContent apiKey productData customPrompt options w
  = (match nextReply w with
     | Completed text usage => DeepSeekProvider.generated "deepseek-coder-v2" text usage
     | Thrown status message =>
         if statusIs status 401 then
           failure "Invalid API key. Please check your DeepSeek API key in the settings."
             "INVALID_API_KEY"
         else if statusIs status 429 then
           failure "DeepSeek rate limit exceeded. Please try again later." "RATE_LIMIT_EXCEEDED"
         else failure (errorText message "An error occurred while generating content with DeepSeek.")
                "DEEPSEEK_ERROR"
     end,
     sent "deepseek" "generateProductContent" apiKey "deepseek-coder-v2"
       (ProductPrompt productData customPrompt options) w).
Proof.
  unfold DeepSeekProvider.generateProductContent. run_provider w.
Qed.

Lemma openai_regenerateContent_run apiKey previousResult feedback options w previousContent :
  success previousResult = true ->
  content previousResult = Some previousContent ->
  OpenAIProvider.regenerateContent apiKey previousResult feedback options w
  = (match nextReply w with
     | Completed text usage => OpenAIProvider.generated "gpt-4" text usage
     | Thrown _ message =>
         failure (errorText message "An error occurred while regenerating content with OpenAI.")
           "OPENAI_REGENERATION_ERROR"
     end,
     sent "openai" "regenerateContent" apiKey "gpt-4"
       (RegenerationPrompt previousContent feedback options) w).
Proof.
  intros Hs Hc. unfold OpenAIProvider.regenerateContent. rewrite Hs, Hc. run_provider w.
Qed.

Lemma deepseek_regenerateContent_run apiKey previousResult feedback options w previousContent :
  success previousResult = true ->
  content previousResult = Some previousContent ->
  DeepSeekProvider.regenerateContent apiKey previousResult feedback options w
  = (match nextReply w with
     | Completed text usage => DeepSeekProvider.generated "deepseek-coder-v2" text usage
     | Thrown _ message =>
         failure (errorText message "An error occurred while regenerating content with DeepSeek.")
           "DEEPSEEK_REGENERATION_ERROR"
     end,
     sent "deepseek" "regenerateContent" apiKey "deepseek-coder-v2"
       (RegenerationPrompt previousContent feedback options) w).
Proof.
  intros Hs Hc. unfold DeepSeekProvider.regenerateContent. rewrite Hs, Hc. run_provider w.
Qed.

Lemma openai_generateFromImage_run apiKey imageUrl storeContext customPrompt options w :
  OpenAIProvider.generateFromImage apiKey imageUrl storeContext customPrompt options w
  = (match nextReply w with
     | Completed text usage => OpenAIProvider.generated "gpt-4-vision-preview" text usage
     | Thrown _ message =>
         failure (errorText message
                    "An error occurred while generating content from image with OpenAI.")
           "OPENAI_IMAGE_ERROR"
     end,
     sent "openai" "generateFromImage" apiKey "gpt-4-vision-preview"
       (ImagePrompt imageUrl storeContext customPrompt options) w).
Proof.
  unfold OpenAIProvider.generateFromImage. run_provider w.
Qed.

Lemma deepseek_generateFromImage_run apiKey imageUrl storeContext customPrompt options w :
  DeepSeekProvider.generateFromImage apiKey imageUrl storeContext customPrompt options w
  = (failure
       "Image-based generation is not currently supported by DeepSeek. Please use OpenAI for this feature."
       "FEATURE_NOT_SUPPORTED",
     entered "deepseek" "generateFromImage" w).
Proof. reflexivity. Qed.

Lemma regenerate_no_previous_cases previousResult :
  (exists previousContent,
      success previousResult = true /\ content previousResult = Some previousContent)
  \/ (success previousResult = false \/ content previousResult = None).
Proof.
  destruct (success previousResult), (content previousResult) as [c|]; eauto.
Qed.

Lemma wellFormed_generated_openai model text usage :
  wellFormed (OpenAIProvider.generated model text usage).
Proof. cbn. repeat split. discriminate. Qed.

Lemma wellFormed_generated_deepseek model text usage :
  wellFormed (DeepSeekProvider.generated model text usage).
Proof. cbn. repeat split. discriminate. Qed.

Ltac close_envelope :=
  repeat match goal with
    | |- context [statusIs ?s ?n] => destruct (statusIs s n)
    end;
  first [ apply wellFormed_generated_openai
        | apply wellFormed_generated_deepseek
        | apply wellFormed_failure; first [discriminate | apply orElse_nonempty; discriminate] ].

(** X14.  Every result of a provider method is a well-formed envelope: a
    success with content and no error, or a failure without content, with
    an error text that is not empty and an error code. *)
Theorem X14_provider_result_well_formed
    (apiKey : Js.Text) (customPrompt feedback imageUrl : string) (productData : ProductData)
    (previousResult : ContentGenerationResult) (storeContext : StoreContext)
    (options : GenerationOptions) (w : World) :
  wellFormed (OpenAIProvider.generateProductContent apiKey productData customPrompt options w).1
  /\ wellFormed (OpenAIProvider.regenerateContent apiKey previousResult feedback options w).1
  /\ wellFormed (OpenAIProvider.generateFromImage apiKey imageUrl storeContext customPrompt
                   options w).1
  /\ wellFormed (DeepSeekProvider.generateProductContent apiKey productData customPrompt
                   options w).1
  /\ wellFormed (DeepSeekProvider.regenerateContent apiKey previousResult feedback options w).1
  /\ wellFormed (DeepSeekProvider.generateFromImage apiKey imageUrl storeContext customPrompt
                   options w).1.
Proof.
  rewrite openai_generateProductContent_run, deepseek_generateProductContent_run,
    openai_generateFromImage_run, deepseek_generateFromImage_run.
  destruct (regenerate_no_previous_cases previousResult) as [(pc & Hs & Hc) | Hnone].
  - rewrite (openai_regenerateContent_run _ _ _ _ _ _ Hs Hc),
      (deepseek_regenerateContent_run _ _ _ _ _ _ Hs Hc).
    cbn [fst]. unfold errorText.
    repeat split; try (destruct (nextReply w) as [text usage|status message]); close_envelope.
  - rewrite (regenerate_openai_no_previous _ _ _ _ _ Hnone),
      (regenerate_deepseek_no_previous _ _ _ _ _ Hnone).
    cbn [fst]. unfold errorText.
    repeat split; try (destruct (nextReply w) as [text usage|status message]); close_envelope.
Qed.

Lemma oneCallAtMost_sent provider method apiKey model prompt w :
  oneCallAtMost w (sent provider method apiKey model prompt w).
Proof.
  repeat split; [now right|].
  eexists [_; _]. split; [cbn; now rewrite <- app_assoc | cbn; lia].
Qed.

Lemma oneCallAtMost_entered provider method w :
  oneCallAtMost w (entered provider method w).
Proof.
  repeat split; [now left|]. eexists [_]. split; [reflexivity | cbn; lia].
Qed.

(** X15.  A provider method never touches the shop, calls its client at
    most once (the code has no retry of its own; what the client does
    within one call is not observed) and logs at most two events; the
    DeepSeek image method calls nothing at all. *)
Theorem X15_provider_one_call_at_most
    (apiKey : Js.Text) (customPrompt feedback imageUrl : string) (productData : ProductData)
    (previousResult : ContentGenerationResult) (storeContext : StoreContext)
    (options : GenerationOptions) (w : World) :
  oneCallAtMost w
    (OpenAIProvider.generateProductContent apiKey productData customPrompt options w).2
  /\ oneCallAtMost w
       (OpenAIProvider.regenerateContent apiKey previousResult feedback options w).2
  /\ oneCallAtMost w
       (OpenAIProvider.generateFromImage apiKey imageUrl storeContext customPrompt options w).2
  /\ oneCallAtMost w
       (DeepSeekProvider.generateProductContent apiKey productData customPrompt options w).2
  /\ oneCallAtMost w
       (DeepSeekProvider.regenerateContent apiKey previousResult feedback options w).2
  /\ (DeepSeekProvider.generateFromImage apiKey imageUrl storeContext customPrompt options w).2
     = entered "deepseek" "generateFromImage" w.
Proof.
  rewrite openai_generateProductContent_run, deepseek_generateProductContent_run,
    openai_generateFromImage_run, deepseek_generateFromImage_run.
  destruct (regenerate_no_previous_cases previousResult) as [(pc & Hs & Hc) | Hnone].
  - rewrite (openai_regenerateContent_run _ _ _ _ _ _ Hs Hc),
      (deepseek_regenerateContent_run _ _ _ _ _ _ Hs Hc).
    cbn [snd]. repeat apply conj; try apply oneCallAtMost_sent. reflexivity.
  - rewrite (regenerate_openai_no_previous _ _ _ _ _ Hnone),
      (regenerate_deepseek_no_previous _ _ _ _ _ Hnone).
    cbn [snd]. repeat apply conj; try apply oneCallAtMost_sent;
      try apply oneCallAtMost_entered. reflexivity.
Qed.

(** X16.  When the call to the client throws, [generateProductContent] of
    the DeepSeek provider maps status 401 to ['INVALID_API_KEY'], 429 to
    ['RATE_LIMIT_EXCEEDED'] and anything else to ['DEEPSEEK_ERROR'].  That of
    the OpenAI provider reports ['OPENAI_ERROR'] with the message of the
    error whatever the status: its branches on [error.response] are never
    taken, as the errors of the OpenAI client have no [response].
    [regenerateContent] of either provider reports its own regeneration
    code whatever the status. *)
Theorem X16_provider_error_codes
    (apiKey : Js.Text) (customPrompt feedback : string) (productData : ProductData)
    (previousResult : ContentGenerationResult) (previousContent : ProductContent)
    (options : GenerationOptions) (w : World) (status : option Z) (message : string) :
  nextReply w = Thrown status message ->
  success previousResult = true ->
  content previousResult = Some previousContent ->
  (errorCode (OpenAIProvider.generateProductContent apiKey productData customPrompt
                options w).1
   = Some "OPENAI_ERROR"
   /\ error (OpenAIProvider.generateProductContent apiKey productData customPrompt
               options w).1
      = Some (errorText message "An error occurred while generating content with OpenAI."))
  /\ errorCode (DeepSeekProvider.generateProductContent apiKey productData customPrompt
                  options w).1
     = Some (if statusIs status 401 then "INVALID_API_KEY"
             else if statusIs status 429 then "RATE_LIMIT_EXCEEDED" else "DEEPSEEK_ERROR")
  /\ errorCode (OpenAIProvider.regenerateContent apiKey previousResult feedback options w).1
     = Some "OPENAI_REGENERATION_ERROR"
  /\ errorCode (DeepSeekProvider.regenerateContent apiKey previousResult feedback options w).1
     = Some "DEEPSEEK_REGENERATION_ERROR".
Proof.
  intros Hreply Hs Hc.
  rewrite openai_generateProductContent_run, deepseek_generateProductContent_run,
    (openai_regenerateContent_run _ _ _ _ _ _ Hs Hc),
    (deepseek_regenerateContent_run _ _ _ _ _ _ Hs Hc), Hreply.
  cbn [fst]. destruct (statusIs status 401), (statusIs status 429); repeat split.
Qed.

(** ** The facade, further properties *)

Lemma image_with_credential `{NodeCrypto} session imageUrl storeContext customPrompt options w d :
  (ApiKeysService.getApiKey session None w).1 = Some d ->
  AiServiceImplementation.generateFromImage session imageUrl storeContext customPrompt options w
  = (failure ("Unsupported AI provider: " +:+ provider d) "IMAGE_GENERATION_FAILED",
     (ApiKeysService.getApiKey session None w).2).
Proof.
  intros Hsome. unfold AiServiceImplementation.generateFromImage.
  rewrite bind_run, Hsome. cbn zeta. rewrite getProvider_unsupported. reflexivity.
Qed.

Lemma facade_without_credential `{NodeCrypto} session productData previousResult imageUrl
    storeContext customPrompt feedback options w :
  (ApiKeysService.getApiKey session None w).1 = None ->
  AiServiceImplementation.generateProductContent session productData customPrompt options w
  = (AiServiceImplementation.noApiKey, (ApiKeysService.getApiKey session None w).2)
  /\ AiServiceImplementation.regenerateContent session previousResult feedback options w
     = (AiServiceImplementation.noApiKey, (ApiKeysService.getApiKey session None w).2)
  /\ AiServiceImplementation.generateFromImage session imageUrl storeContext customPrompt
       options w
     = (AiServiceImplementation.noApiKey, (ApiKeysService.getApiKey session None w).2).
Proof.
  intros Hnone.
  unfold AiServiceImplementation.generateProductContent,
    AiServiceImplementation.regenerateContent, AiServiceImplementation.generateFromImage.
  rewrite !bind_run, Hnone. repeat split.
Qed.

(** X18.  As the selection of the provider throws for every identifier, the
    three methods of the facade always return a failure: ['NO_API_KEY']
    when the key lookup returns [null] and their own failure code otherwise.
    The world they leave is the one the key lookup left: no metafield
    changed, no reply of a service consumed, only metafield reads logged. *)
Theorem X18_facade_never_reaches_a_provider `{NodeCrypto}
    (session : Session) (productData : ProductData) (previousResult : ContentGenerationResult)
    (imageUrl customPrompt feedback : string) (storeContext : StoreContext)
    (options : GenerationOptions) (w : World) :
  let lookup := ApiKeysService.getApiKey session None w in
  let code (failed : string) :=
    Some (match lookup.1 with None => "NO_API_KEY" | Some _ => failed end) in
  let generate :=
    AiServiceImplementation.generateProductContent session productData customPrompt options w in
  let regenerate :=
    AiServiceImplementation.regenerateContent session previousResult feedback options w in
  let image :=
    AiServiceImplementation.generateFromImage session imageUrl storeContext customPrompt
      options w in
  (success generate.1 = false /\ errorCode generate.1 = code "GENERATION_FAILED"
   /\ generate.2 = lookup.2)
  /\ (success regenerate.1 = false /\ errorCode regenerate.1 = code "REGENERATION_FAILED"
      /\ regenerate.2 = lookup.2)
  /\ (success image.1 = false /\ errorCode image.1 = code "IMAGE_GENERATION_FAILED"
      /\ image.2 = lookup.2)
  /\ metafields lookup.2 = metafields w
  /\ llmReplies lookup.2 = llmReplies w
  /\ exists events, log lookup.2 = (log w ++ events)%list /\ Forall isMetafieldQuery events.
Proof.
  cbn zeta.
  destruct (ApiKeysService.getApiKey session None w).1 as [d|] eqn:Hlookup.
  - rewrite (generate_with_credential _ _ _ _ _ _ Hlookup),
      (regenerate_with_credential _ _ _ _ _ _ Hlookup),
      (image_with_credential _ _ _ _ _ _ _ Hlookup).
    repeat split; apply getApiKey_world.
  - destruct (facade_without_credential session productData previousResult imageUrl
                storeContext customPrompt feedback options w Hlookup) as (-> & -> & ->).
    repeat split; apply getApiKey_world.
Qed.

Lemma run_star {R} p s cap (k : list ascii -> option (list ascii) -> option R) :
  Js.run (Js.Star (Js.Cls p)) s cap k = greedy p (fun s' => k s' cap) s.
Proof.
  cbn [Js.run].
  generalize (Nat.le_refl (List.length s)).
  generalize (List.length s) at 2 3 as fuel.
  intros fuel. revert s.
  induction fuel as [|fuel IH]; intros s Hlen.
  - destruct s; [reflexivity | cbn in Hlen; lia].
  - destruct s as [|d s]; [reflexivity|].
    cbn [greedy]. destruct (p d); [|reflexivity].
    assert (Hlt : Nat.ltb (List.length s) (List.length (d :: s)) = true)
      by (apply Nat.ltb_lt; cbn; lia).
    rewrite Hlt, IH by (cbn in Hlen; lia). reflexivity.
Qed.

Lemma run_star_lazy {R} p s cap (k : list ascii -> option (list ascii) -> option R) :
  Js.run (Js.StarLazy (Js.Cls p)) s cap k = lazily p (fun s' => k s' cap) s.
Proof.
  cbn [Js.run].
  generalize (Nat.le_refl (List.length s)).
  generalize (List.length s) at 2 3 as fuel.
  intros fuel. revert s.
  induction fuel as [|fuel IH]; intros s Hlen.
  - destruct s; [|cbn in Hlen; lia]. cbn. now destruct (k [] cap).
  - destruct s as [|d s]; cbn [lazily].
    + now destruct (k [] cap).
    + destruct (k (d :: s) cap); [reflexivity|].
      destruct (p d); [|reflexivity].
      assert (Hlt : Nat.ltb (List.length s) (List.length (d :: s)) = true)
        by (apply Nat.ltb_lt; cbn; lia).
      rewrite Hlt, IH by (cbn in Hlen; lia). reflexivity.
Qed.

Lemma run_lit {R} h s cap (k : list ascii -> option (list ascii) -> option R) :
  Js.run (Js.Lit h) s cap k
  = match strip h s with Some s' => k s' cap | None => None end.
Proof.
  revert s k. induction h as [|c h IH]; intros s k; [reflexivity|].
  destruct h as [|c' h].
  - cbn. destruct s as [|d s]; [reflexivity|]. now destruct (Ascii.eqb d c).
  - change (Js.Lit (String c (String c' h))) with (Js.Seq (Js.Chr c) (Js.Lit (String c' h))).
    cbn [Js.run strip]. destruct s as [|d s]; [reflexivity|].
    destruct (Ascii.eqb d c); [|reflexivity]. apply IH.
Qed.

Lemma run_ahead {R} s cap (k : list ascii -> option (list ascii) -> option R) :
  Js.run (Js.LookAhead (Js.Alt (Js.Seq (Js.Chr Js.newline) (Js.Seq (Js.Chr "#") (Js.Chr " ")))
                               Js.Eos)) s cap k
  = if ahead s then k s cap else None.
Proof.
  destruct s as [|a [|b [|c s]]]; cbn [Js.run ahead]; try reflexivity.
  - now destruct (Ascii.eqb a Js.newline).
  - destruct (Ascii.eqb a Js.newline); [|reflexivity]. now destruct (Ascii.eqb b "#").
  - destruct (Ascii.eqb a Js.newline); [|reflexivity].
    destruct (Ascii.eqb b "#"); [|reflexivity]. now destruct (Ascii.eqb c " ").
Qed.

Lemma run_seq {R} a b s cap (k : list ascii -> option (list ascii) -> option R) :
  Js.run (Js.Seq a b) s cap k = Js.run a s cap (fun s' cap' => Js.run b s' cap' k).
Proof. reflexivity. Qed.

Lemma run_chr {R} c s cap (k : list ascii -> option (list ascii) -> option R) :
  Js.run (Js.Chr c) s cap k
  = match s with d :: s' => if Ascii.eqb d c then k s' cap else None | [] => None end.
Proof. reflexivity. Qed.

Lemma run_group {R} r s cap (k : list ascii -> option (list ascii) -> option R) :
  Js.run (Js.Group r) s cap k
  = Js.run r s cap (fun s' _ => k s' (Some (Js.firstn_diff s s'))).
Proof. reflexivity. Qed.

Lemma greedy_ext {R} p (k1 k2 : list ascii -> option R) s :
  (forall s', k1 s' = k2 s') -> greedy p k1 s = greedy p k2 s.
Proof.
  intros Hk. induction s as [|d s IH]; cbn; [apply Hk|].
  rewrite IH, Hk. reflexivity.
Qed.

Lemma lazily_ext {R} p1 p2 (k1 k2 : list ascii -> option R) s :
  (forall c, p1 c = p2 c) -> (forall s', k1 s' = k2 s') ->
  lazily p1 k1 s = lazily p2 k2 s.
Proof.
  intros Hp Hk. induction s as [|d s IH]; cbn; rewrite Hk; [reflexivity|].
  destruct (k2 (d :: s)); [reflexivity|]. rewrite Hp, IH. reflexivity.
Qed.

Lemma run_section h s :
  Js.run (sectionRe h) s None (fun _ cap => Some cap) = sectionAt h s.
Proof.
  unfold sectionRe, sectionAt. rewrite run_seq, run_lit.
  destruct (strip h s) as [rest|]; [|reflexivity].
  rewrite run_seq, run_star. apply greedy_ext. intros r.
  rewrite run_seq, run_chr. destruct r as [|d g]; [reflexivity|].
  destruct (Ascii.eqb d Js.newline); [|reflexivity].
  rewrite run_seq, run_group, run_star_lazy. apply lazily_ext.
  - intros c. apply orb_negb_r.
  - intros s'. cbv beta. now rewrite run_ahead.
Qed.

Lemma search_section h s : Js.search (sectionRe h) s = sectionSearch h s.
Proof.
  induction s as [|c s IH]; cbn [Js.search sectionSearch]; rewrite run_section.
  - reflexivity.
  - now rewrite IH.
Qed.

Lemma chars_app a b : chars (a +:+ b) = (chars a ++ chars b)%list.
Proof. induction a as [|c a IH]; simpl; [reflexivity | now f_equal]. Qed.

Lemma hashFree_chars s : Js.count "#" s = 0 -> hashFree (chars s).
Proof.
  induction s as [|c s IH]; cbn; [constructor|].
  destruct (Ascii.eqb_spec c "#"%char); [discriminate|].
  intros Hc. constructor; [assumption | now apply IH].
Qed.

Lemma sectionAt_no_hash h s :
  match s with [] => True | c :: _ => c <> "#"%char end ->
  sectionAt (headingText h) s = None.
Proof.
  intros Hs. unfold sectionAt.
  assert (Hstrip : strip (headingText h) s = None).
  { destruct s as [|c s]; [now destruct h|].
    destruct (Ascii.eqb_spec c "#"%char) as [->|Hne]; [contradiction|].
    destruct h; cbn; now rewrite (proj2 (Ascii.eqb_neq _ _) Hne). }
  now rewrite Hstrip.
Qed.

Lemma sectionSearch_skip h a s :
  hashFree a -> sectionSearch (headingText h) (a ++ s) = sectionSearch (headingText h) s.
Proof.
  induction 1 as [|c a Hc Ha IH]; [reflexivity|].
  cbn [app sectionSearch]. rewrite sectionAt_no_hash by exact Hc. exact IH.
Qed.

Lemma sectionSearch_nil h : sectionSearch (headingText h) [] = None.
Proof. cbn. now rewrite sectionAt_no_hash. Qed.

Lemma strip_other_heading h hx s :
  Heading_eqb hx h = false -> strip (headingText h) (chars (headingText hx) ++ s) = None.
Proof. destruct h, hx; cbn; intros E; try discriminate E; try reflexivity. Qed.

Lemma heading_shape h :
  exists t, chars (headingText h) = "#"%char :: " "%char :: t /\ hashFree (" "%char :: t).
Proof.
  destruct h; eexists; (split; [reflexivity|]); repeat constructor; discriminate.
Qed.

Lemma strip_heading h s : strip (headingText h) (chars (headingText h) ++ s) = Some s.
Proof. destruct h; reflexivity. Qed.

Lemma trimStart_length s : String.length (Js.trimStart s) <= String.length s.
Proof.
  induction s as [|c s IH]; cbn; [lia|]. destruct (Js.isWhiteSpace c); cbn; lia.
Qed.

Lemma trimEnd_length s : String.length (Js.trimEnd s) <= String.length s.
Proof.
  induction s as [|c s IH]; cbn; [lia|].
  destruct (Js.trimEnd s); [destruct (Js.isWhiteSpace c)|]; cbn in *; lia.
Qed.

Lemma clean_head b :
  clean b -> exists c t, b = String c t /\ Js.isWhiteSpace c = false.
Proof.
  intros (Hne & Htrim & _). destruct b as [|c t]; [contradiction|].
  exists c, t. split; [reflexivity|].
  destruct (Js.isWhiteSpace c) eqn:Hc; [|reflexivity].
  exfalso. unfold Js.trim in Htrim. cbn [Js.trimStart] in Htrim. rewrite Hc in Htrim.
  pose proof (trimEnd_length (Js.trimStart t)) as H1.
  pose proof (trimStart_length t) as H2.
  rewrite Htrim in H1. cbn in H1. lia.
Qed.

Lemma ahead_inside B2 post :
  hashFree B2 -> B2 <> [] -> endsSection post -> ahead (B2 ++ post) = false.
Proof.
  intros HB Hne Hpost. destruct B2 as [|a B2]; [contradiction|].
  inversion HB as [|? ? Ha HB2]; subst.
  destruct B2 as [|b B2].
  - destruct Hpost as [-> | (t & ->)]; [reflexivity|]. cbn.
    now rewrite andb_false_r.
  - inversion HB2 as [|? ? Hb HB3]; subst.
    assert (Hc : exists c rest, ((a :: b :: B2) ++ post = a :: b :: c :: rest)%list
                                \/ ((a :: b :: B2) ++ post = [a; b])%list).
    { destruct B2 as [|c B2]; [|now exists c, (B2 ++ post)%list; left].
      destruct post as [|c post]; [exists a, []; now right | exists c, post; now left]. }
    destruct Hc as (c & rest & [-> | ->]); [|reflexivity].
    cbn. rewrite (proj2 (Ascii.eqb_neq b "#") Hb). now rewrite andb_false_r.
Qed.

Lemma ahead_post post : endsSection post -> ahead post = true.
Proof. intros [-> | (t & ->)]; reflexivity. Qed.

Lemma lazily_found g B post :
  hashFree B -> endsSection post ->
  lazily (fun _ => true)
    (fun s' => if ahead s' then Some (Some (Js.firstn_diff g s')) else None) (B ++ post)
  = Some (Some (Js.firstn_diff g post)).
Proof.
  intros HB Hpost. induction HB as [|c B Hc HB IH].
  - cbn [app]. destruct post as [|d post]; cbn [lazily]; rewrite (ahead_post _ Hpost);
      reflexivity.
  - assert (Hin : ahead ((c :: B) ++ post) = false).
    { apply ahead_inside; [now constructor | discriminate | exact Hpost]. }
    cbn [app] in Hin. cbn [app lazily]. rewrite Hin. exact IH.
Qed.

Lemma firstn_diff_app B post : Js.firstn_diff (B ++ post) post = B.
Proof.
  unfold Js.firstn_diff. rewrite length_app.
  replace (List.length B + List.length post - List.length post) with (List.length B) by lia.
  now rewrite firstn_app, Nat.sub_diag, firstn_all, firstn_O, app_nil_r.
Qed.

Lemma sectionAt_hit h b post :
  clean b -> endsSection post ->
  sectionAt (headingText h) (chars (headingText h) ++ Js.newline :: chars b ++ post)
  = Some (Some (chars b)).
Proof.
  intros Hclean Hpost. unfold sectionAt. rewrite strip_heading.
  destruct (clean_head b Hclean) as (c & t & -> & Hc).
  assert (Hfree : hashFree (chars (String c t))) by (apply hashFree_chars, Hclean).
  cbn [greedy list_ascii_of_string app]. change (Js.isWhiteSpace Js.newline) with true. cbv iota.
  rewrite Hc.
  assert (Hne : Ascii.eqb c Js.newline = false).
  { apply Ascii.eqb_neq. intros ->. discriminate Hc. }
  rewrite Hne, Ascii.eqb_refl.
  change (c :: (chars t ++ post)%list) with ((chars (String c t)) ++ post)%list.
  rewrite lazily_found by assumption. now rewrite firstn_diff_app.
Qed.

Lemma reply_cons x rest :
  chars (reply (x :: rest)) = (chars (headingText x.1) ++ Js.newline :: chars x.2 ++ after rest)%list.
Proof.
  destruct rest as [|y rest]; cbn [reply after]; unfold sectionText.
  - now rewrite !chars_app, app_nil_r.
  - rewrite !chars_app. cbn. now rewrite <- !app_assoc.
Qed.

Lemma endsSection_after rest : endsSection (after rest).
Proof.
  destruct rest as [|y rest]; [now left|]. right.
  cbn [after]. rewrite reply_cons.
  destruct (heading_shape y.1) as (t & -> & _). eexists. reflexivity.
Qed.

Lemma sectionSearch_cons h c s :
  sectionSearch h (c :: s)
  = match sectionAt h (c :: s) with Some cap => Some cap | None => sectionSearch h s end.
Proof. reflexivity. Qed.

Lemma sectionSearch_reply h sections :
  Forall (fun x => clean x.2) sections ->
  sectionSearch (headingText h) (chars (reply sections))
  = match body h sections with Some b => Some (Some (chars b)) | None => None end.
Proof.
  induction 1 as [|[hx bx] rest Hx Hrest IH]; [apply sectionSearch_nil|].
  rewrite reply_cons. cbn [fst snd body].
  destruct (Heading_eqb hx h) eqn:E.
  - assert (hx = h) as -> by (destruct hx, h; (reflexivity || discriminate)).
    destruct (chars (headingText h) ++ _)%list eqn:Es; cbn [sectionSearch];
      rewrite <- Es, sectionAt_hit; auto using endsSection_after.
  - destruct (heading_shape hx) as (t & Ht & Hfree).
    pose proof (strip_other_heading h hx (Js.newline :: chars bx ++ after rest) E) as Hstrip.
    rewrite Ht in *. cbn [app] in *. rewrite sectionSearch_cons. unfold sectionAt at 1.
    rewrite Hstrip.
    change (" "%char :: (t ++ Js.newline :: chars bx ++ after rest)%list)
      with ((" "%char :: t) ++ Js.newline :: chars bx ++ after rest)%list.
    rewrite sectionSearch_skip by exact Hfree.
    change (Js.newline :: chars bx ++ after rest)%list
      with ((Js.newline :: chars bx) ++ after rest)%list.
    rewrite sectionSearch_skip
      by (constructor; [discriminate | apply hashFree_chars, Hx]).
    destruct rest as [|y rest]; [apply sectionSearch_nil|].
    cbn [after].
    change (Js.newline :: chars (reply (y :: rest))) with ([Js.newline] ++ chars (reply (y :: rest)))%list.
    rewrite sectionSearch_skip by (constructor; [discriminate | constructor]).
    exact IH.
Qed.

Lemma parsers_agree raw :
  DeepSeekProvider.parseGeneratedContent raw = OpenAIProvider.parseGeneratedContent raw.
Proof. reflexivity. Qed.

Lemma matchGroup1_section h raw :
  Js.matchGroup1 (sectionRe (headingText h)) raw
  = match sectionSearch (headingText h) (chars raw) with
    | Some cap => Some (string_of_list_ascii <$> cap)
    | None => None
    end.
Proof. unfold Js.matchGroup1. now rewrite search_section. Qed.

Lemma parse_by_sections raw :
  OpenAIProvider.parseGeneratedContent raw
  = {| title := match found TITLE raw with Some g => Js.trim g | None => "" end;
       description := match found DESCRIPTION raw with Some g => Js.trim g | None => "" end;
       seoTitle := Js.trim <$> found SEO_TITLE raw;
       seoDescription := Js.trim <$> found SEO_DESCRIPTION raw;
       keywords := parseKeywords <$> found KEYWORDS raw |}.
Proof. reflexivity. Qed.

Lemma matchGroup1_no_hash h raw :
  Js.count "#" raw = 0 -> Js.matchGroup1 (sectionRe (headingText h)) raw = None.
Proof.
  intros Hfree. rewrite matchGroup1_section.
  pose proof (sectionSearch_skip h (chars raw) [] (hashFree_chars _ Hfree)) as Hskip.
  rewrite (List.app_nil_r (chars raw)) in Hskip. now rewrite Hskip, sectionSearch_nil.
Qed.

Lemma parse_no_hash raw :
  Js.count "#" raw = 0 -> OpenAIProvider.parseGeneratedContent raw = emptyContent.
Proof.
  intros Hfree. rewrite parse_by_sections. unfold found.
  rewrite !matchGroup1_no_hash by exact Hfree. reflexivity.
Qed.

(** X19.  A text without [#] has no section: the parser of either provider
    returns empty title and description and no optional field. *)
Theorem X19_parse_without_headings raw :
  Js.count "#" raw = 0 ->
  OpenAIProvider.parseGeneratedContent raw
  = {| title := ""; description := ""; seoTitle := None; seoDescription := None;
       keywords := None |}
  /\ DeepSeekProvider.parseGeneratedContent raw
     = {| title := ""; description := ""; seoTitle := None; seoDescription := None;
          keywords := None |}.
Proof.
  intros Hfree.
  change (DeepSeekProvider.parseGeneratedContent raw)
    with (OpenAIProvider.parseGeneratedContent raw).
  rewrite (parse_no_hash raw Hfree). split; reflexivity.
Qed.

Lemma body_clean h sections b :
  Forall (fun x => clean x.2) sections -> body h sections = Some b -> clean b.
Proof.
  induction 1 as [|[hx bx] rest Hx Hrest IH]; cbn; [discriminate|].
  destruct (Heading_eqb hx h); [now intros [= <-] | exact IH].
Qed.

Lemma found_in_reply h sections :
  Forall (fun x => clean x.2) sections ->
  found h (reply sections) = body h sections.
Proof.
  intros Hclean. unfold found. rewrite matchGroup1_section, sectionSearch_reply by exact Hclean.
  destruct (body h sections) as [b|] eqn:Hb; [|reflexivity].
  cbn. rewrite string_of_list_ascii_of_string.
  destruct (body_clean _ _ _ Hclean Hb) as (Hne & _).
  destruct b; [contradiction | reflexivity].
Qed.

(** X20.  On a reply made of sections in any order, each with a clean text,
    the parser of either provider returns for each field the text of the
    first section with its heading: the empty string for a missing title or
    description, absence for a missing optional field, and the keywords
    split from the text of the KEYWORDS section. *)
Theorem X20_parse_reply_sections sections :
  Forall (fun x => clean x.2) sections ->
  OpenAIProvider.parseGeneratedContent (reply sections)
  = {| title := default "" (body TITLE sections);
       description := default "" (body DESCRIPTION sections);
       seoTitle := body SEO_TITLE sections;
       seoDescription := body SEO_DESCRIPTION sections;
       keywords := parseKeywords <$> body KEYWORDS sections |}
  /\ DeepSeekProvider.parseGeneratedContent (reply sections)
     = {| title := default "" (body TITLE sections);
          description := default "" (body DESCRIPTION sections);
          seoTitle := body SEO_TITLE sections;
          seoDescription := body SEO_DESCRIPTION sections;
          keywords := parseKeywords <$> body KEYWORDS sections |}.
Proof.
  intros Hclean.
  change (DeepSeekProvider.parseGeneratedContent (reply sections))
    with (OpenAIProvider.parseGeneratedContent (reply sections)).
  assert (Hparse : OpenAIProvider.parseGeneratedContent (reply sections)
                   = {| title := default "" (body TITLE sections);
                        description := default "" (body DESCRIPTION sections);
                        seoTitle := body SEO_TITLE sections;
                        seoDescription := body SEO_DESCRIPTION sections;
                        keywords := parseKeywords <$> body KEYWORDS sections |});
    [|now rewrite Hparse].
  rewrite parse_by_sections. rewrite !found_in_reply by exact Hclean.
  assert (Htrim : forall h b, body h sections = Some b -> Js.trim b = b).
  { intros h b Hb. apply (body_clean _ _ _ Hclean Hb). }
  f_equal.
  - destruct (body TITLE sections) eqn:E; [now apply (Htrim TITLE) | reflexivity].
  - destruct (body DESCRIPTION sections) eqn:E; [now apply (Htrim DESCRIPTION) | reflexivity].
  - destruct (body SEO_TITLE sections) eqn:E; cbn;
      [f_equal; now apply (Htrim SEO_TITLE) | reflexivity].
  - destruct (body SEO_DESCRIPTION sections) eqn:E; cbn;
      [f_equal; now apply (Htrim SEO_DESCRIPTION) | reflexivity].
Qed.

(** ** Trimming *)

Lemma trimStart_head s :
  Js.trimStart s = "" \/ exists c t, Js.trimStart s = String c t /\ Js.isWhiteSpace c = false.
Proof.
  induction s as [|c s IH]; cbn; [now left|].
  destruct (Js.isWhiteSpace c) eqn:Hc; [exact IH|]. right. now exists c, s.
Qed.

Lemma trimEnd_cons c t :
  Js.isWhiteSpace c = false -> exists u, Js.trimEnd (String c t) = String c u.
Proof.
  intros Hc. cbn. destruct (Js.trimEnd t); [rewrite Hc|]; eauto.
Qed.

Lemma trimEnd_idem s : Js.trimEnd (Js.trimEnd s) = Js.trimEnd s.
Proof.
  induction s as [|c s IH]; cbn; [reflexivity|].
  destruct (Js.trimEnd s) as [|d t] eqn:E.
  - destruct (Js.isWhiteSpace c) eqn:Hc; cbn; [reflexivity | now rewrite Hc].
  - cbn [Js.trimEnd]. cbn [Js.trimEnd] in IH. now rewrite IH.
Qed.

Lemma trim_idem s : Js.trim (Js.trim s) = Js.trim s.
Proof.
  unfold Js.trim.
  destruct (trimStart_head s) as [-> | (c & t & -> & Hc)]; [reflexivity|].
  destruct (trimEnd_cons c t Hc) as (u & Hu).
  assert (Hs : Js.trimStart (Js.trimEnd (String c t)) = Js.trimEnd (String c t)).
  { rewrite Hu. cbn. now rewrite Hc. }
  now rewrite Hs, trimEnd_idem.
Qed.

Lemma count_trimStart c s : Js.count c (Js.trimStart s) <= Js.count c s.
Proof.
  induction s as [|d s IH]; cbn; [lia|]. destruct (Js.isWhiteSpace d); cbn; lia.
Qed.

Lemma count_trimEnd c s : Js.count c (Js.trimEnd s) <= Js.count c s.
Proof.
  induction s as [|d s IH]; cbn; [lia|].
  destruct (Js.trimEnd s); [destruct (Js.isWhiteSpace d)|]; cbn in *; lia.
Qed.

Lemma count_trim c s : Js.count c s = 0 -> Js.count c (Js.trim s) = 0.
Proof.
  intros Hc. unfold Js.trim.
  pose proof (count_trimEnd c (Js.trimStart s)). pose proof (count_trimStart c s). lia.
Qed.

Lemma split_parts sep s : Forall (fun part => Js.count sep part = 0) (Js.split sep s).
Proof.
  induction s as [|c s IH]; cbn; [now repeat constructor|].
  destruct (Ascii.eqb c sep) eqn:E; [now constructor|].
  destruct (Js.split sep s) as [|part parts]; [repeat constructor; cbn; now rewrite E|].
  inversion IH; subst. constructor; [cbn; now rewrite E | assumption].
Qed.

Lemma trimEnd_last s c :
  last (chars (Js.trimEnd s)) = Some c -> Js.isWhiteSpace c = false.
Proof.
  induction s as [|d s IH]; cbn [Js.trimEnd]; [discriminate|].
  destruct (Js.trimEnd s) as [|e t] eqn:E.
  - destruct (Js.isWhiteSpace d) eqn:Hd; cbn; [discriminate|]. now intros [= <-].
  - exact IH.
Qed.

Lemma trim_ends s : noSpaceAtEnds (Js.trim s).
Proof.
  unfold Js.trim. split; [|apply trimEnd_last].
  destruct (trimStart_head s) as [-> | (d & t & -> & Hd)]; [discriminate|].
  destruct (trimEnd_cons d t Hd) as (u & ->). cbn. now intros c [= <-].
Qed.

Lemma parseKeywords_each g :
  Forall (fun k => k <> "" /\ noSpaceAtEnds k /\ Js.count "," k = 0) (parseKeywords g).
Proof.
  unfold parseKeywords.
  induction (split_parts "," (Js.trim g)) as [|part parts Hpart _ IH]; cbn; [constructor|].
  destruct (Js.trim part) as [|c t] eqn:E; cbn; [exact IH|].
  constructor; [|exact IH]. rewrite <- E. split_and!.
  - rewrite E. discriminate.
  - apply trim_ends.
  - now apply count_trim.
Qed.

(** X21.  Whatever the text, the title, the description and the SEO fields
    the parser returns have no white space as first or last character, and
    every keyword it returns is not empty, has no white space as first or
    last character and has no comma; the two parsers agree. *)
Theorem X21_parse_fields_trimmed raw :
  let c := OpenAIProvider.parseGeneratedContent raw in
  noSpaceAtEnds (title c) /\ noSpaceAtEnds (description c)
  /\ (forall t, seoTitle c = Some t -> noSpaceAtEnds t)
  /\ (forall t, seoDescription c = Some t -> noSpaceAtEnds t)
  /\ (forall ks, keywords c = Some ks ->
      Forall (fun k => k <> "" /\ noSpaceAtEnds k /\ Js.count "," k = 0) ks)
  /\ DeepSeekProvider.parseGeneratedContent raw = c.
Proof.
  assert (Hempty : noSpaceAtEnds "") by (split; discriminate).
  cbn zeta. rewrite parse_by_sections. cbn [title description seoTitle seoDescription keywords].
  split_and!.
  - destruct (found TITLE raw); [apply trim_ends | exact Hempty].
  - destruct (found DESCRIPTION raw); [apply trim_ends | exact Hempty].
  - intros t. destruct (found SEO_TITLE raw); cbn; [|discriminate].
    intros [= <-]. apply trim_ends.
  - intros t. destruct (found SEO_DESCRIPTION raw); cbn; [|discriminate].
    intros [= <-]. apply trim_ends.
  - intros ks. destruct (found KEYWORDS raw); cbn; [|discriminate].
    intros [= <-]. apply parseKeywords_each.
  - reflexivity.
Qed.

(** ** Keywords *)

Lemma keyword_head k :
  keyword k -> exists c t, k = String c t /\ Js.isWhiteSpace c = false.
Proof.
  intros (Hne & Htrim & _). destruct k as [|c t]; [contradiction|].
  exists c, t. split; [reflexivity|].
  destruct (Js.isWhiteSpace c) eqn:Hc; [|reflexivity].
  exfalso. unfold trimmed, Js.trim in Htrim. cbn [Js.trimStart] in Htrim. rewrite Hc in Htrim.
  pose proof (trimEnd_length (Js.trimStart t)) as H1.
  pose proof (trimStart_length t) as H2.
  rewrite Htrim in H1. cbn in H1. lia.
Qed.

Lemma keyword_trimEnd k : keyword k -> Js.trimEnd k = k.
Proof.
  intros Hk. destruct (keyword_head k Hk) as (c & t & -> & Hc).
  destruct Hk as (_ & Htrim & _). unfold trimmed, Js.trim in Htrim.
  cbn [Js.trimStart] in Htrim. now rewrite Hc in Htrim.
Qed.

Lemma trimEnd_app a b : b <> "" -> Js.trimEnd b = b -> Js.trimEnd (a +:+ b) = a +:+ b.
Proof.
  intros Hne Hb. induction a as [|c a IH]; [exact Hb|].
  change (Js.trimEnd (String c (a +:+ b)) = String c (a +:+ b)).
  cbn [Js.trimEnd]. rewrite IH. destruct (a +:+ b) eqn:E; [|reflexivity].
  destruct a; cbn in E; [contradiction | discriminate].
Qed.

Lemma join_cons k k' rest : join (k :: k' :: rest) = k +:+ ", " +:+ join (k' :: rest).
Proof. reflexivity. Qed.

Lemma join_trimEnd ks :
  ks <> [] -> Forall keyword ks -> Js.trimEnd (join ks) = join ks /\ join ks <> "".
Proof.
  intros Hne Hks. induction Hks as [|k rest Hk Hrest IH]; [contradiction|].
  destruct rest as [|k' rest].
  - cbn. split; [now apply keyword_trimEnd | apply Hk].
  - destruct IH as [IH1 IH2]; [discriminate|].
    rewrite join_cons. split.
    + rewrite (trimEnd_app k (", " +:+ join (k' :: rest))); [reflexivity| |].
      * discriminate.
      * change (", " +:+ join (k' :: rest)) with (String "," (String " " (join (k' :: rest)))).
        change (Js.trimEnd (String "," (String " " (join (k' :: rest)))))
          with (match (match Js.trimEnd (join (k' :: rest)) with
                       | "" => ""
                       | t => String " " t
                       end) with
                | "" => ","
                | t => String "," t
                end).
        rewrite IH1. destruct (join (k' :: rest)); [contradiction | reflexivity].
    + destruct k; [now destruct Hk | discriminate].
Qed.

Lemma join_trim ks : ks <> [] -> Forall keyword ks -> Js.trim (join ks) = join ks.
Proof.
  intros Hne Hks. unfold Js.trim.
  assert (Hs : Js.trimStart (join ks) = join ks).
  { destruct ks as [|k rest]; [contradiction|]. inversion Hks as [|? ? Hk Hrest]; subst.
    destruct (keyword_head k Hk) as (c & t & -> & Hc).
    assert (Hcons : forall u, Js.trimStart (String c u) = String c u)
      by (intros u; cbn [Js.trimStart]; now rewrite Hc).
    destruct rest as [|k' rest]; [apply Hcons|].
    rewrite join_cons. apply (Hcons (t +:+ ", " +:+ join (k' :: rest))). }
  rewrite Hs. now apply join_trimEnd.
Qed.

Lemma split_space s :
  Js.split "," (String " " s)
  = match Js.split "," s with part :: parts => String " " part :: parts | [] => [" "] end.
Proof. reflexivity. Qed.

Lemma split_join ks :
  ks <> [] -> Forall keyword ks ->
  Js.split "," (join ks) = hd "" ks :: List.map (String " ") (tl ks).
Proof.
  intros Hne Hks. induction Hks as [|k rest Hk Hrest IH]; [contradiction|].
  destruct rest as [|k' rest].
  - cbn. apply split_no_separator, Hk.
  - rewrite join_cons.
    change (k +:+ ", " +:+ join (k' :: rest))
      with (k +:+ String "," (String " " (join (k' :: rest)))).
    rewrite split_first_separator by apply Hk.
    rewrite split_space, IH by discriminate. reflexivity.
Qed.

(** X22.  Keywords joined with [', '] are split back into the same list, in
    order and with duplicates, provided none is empty, padded with white
    space or contains a comma. *)
Theorem X22_parseKeywords_join ks :
  ks <> [] -> Forall keyword ks -> parseKeywords (join ks) = ks.
Proof.
  intros Hne Hks. unfold parseKeywords.
  rewrite join_trim, split_join by assumption.
  destruct ks as [|k rest]; [contradiction|]. inversion Hks as [|? ? Hk Hrest]; subst.
  cbn [hd tl List.map List.filter].
  assert (Hk1 : Js.trim k = k) by apply Hk. rewrite Hk1.
  assert (Hlen : forall x, keyword x -> Nat.ltb 0 (String.length x) = true).
  { intros x Hx. destruct x; [now destruct Hx | reflexivity]. }
  rewrite (Hlen k Hk). f_equal. clear Hks Hne.
  induction Hrest as [|x rest Hx Hrest IHr]; [reflexivity|].
  cbn [List.map List.filter].
  assert (Hx1 : Js.trim (String " " x) = x).
  { unfold Js.trim. cbn [Js.trimStart]. change (Js.isWhiteSpace " ") with true. cbv iota.
    apply Hx. }
  rewrite Hx1, (Hlen x Hx). f_equal. apply IHr.
Qed.

Lemma isInteger_iff q : Zod.isInteger (Zod.Fin q) = true <-> exists n, (q == inject_Z n)%Q.
Proof.
  cbn. rewrite Z.eqb_eq. unfold Qeq. cbn. split.
  - intros Hmod. exists (Qnum q / Zpos (Qden q))%Z.
    rewrite Z.mul_1_r. apply Z.div_exact in Hmod; [lia | discriminate].
  - intros (n & Hn). rewrite Z.mul_1_r in Hn. rewrite Hn. apply Z.mod_mul. discriminate.
Qed.

Lemma number_checks lo hi m1 m2 v :
  Zod.number [Zod.int; Zod.min lo m1; Zod.max hi m2] v = [] <-> integerIn lo hi v.
Proof.
  unfold integerIn. split.
  - destruct v as [| | |[q| | |]| | |]; cbn; try discriminate.
    unfold Zod.int, Zod.min, Zod.max.
    destruct (Zod.isInteger (Zod.Fin q)) eqn:Hint; [|discriminate].
    destruct (Zod.geq (Zod.Fin q) lo) eqn:Hlo; [|discriminate].
    destruct (Zod.leq (Zod.Fin q) hi) eqn:Hhi; [|discriminate].
    intros _. apply isInteger_iff in Hint as (n & Hn). exists q, n.
    cbn in Hlo, Hhi. apply Qle_bool_iff in Hlo, Hhi. rewrite Hn in Hlo, Hhi.
    rewrite <- Zle_Qle in Hlo, Hhi. auto.
  - intros (q & n & -> & Hn & Hlo & Hhi). cbn. unfold Zod.int, Zod.min, Zod.max.
    rewrite (proj2 (isInteger_iff q)) by eauto.
    assert (Hlo' : Zod.geq (Zod.Fin q) lo = true).
    { cbn. apply Qle_bool_iff. rewrite Hn, <- Zle_Qle. exact Hlo. }
    assert (Hhi' : Zod.leq (Zod.Fin q) hi = true).
    { cbn. apply Qle_bool_iff. rewrite Hn, <- Zle_Qle. exact Hhi. }
    now rewrite Hlo', Hhi'.
Qed.

Lemma string_between lo hi m1 m2 v :
  Zod.string_ [Zod.minLength lo m1; Zod.maxLength hi m2] v = []
  <-> stringOfLength lo (Some hi) v.
Proof.
  unfold stringOfLength. split.
  - destruct v as [| | | |s| |]; cbn; try discriminate.
    unfold Zod.minLength, Zod.maxLength.
    destruct (Nat.leb_spec lo (String.length s)); [|discriminate].
    destruct (Nat.leb_spec (String.length s) hi); [|discriminate].
    intros _. eauto.
  - intros (s & -> & Hlo & Hhi). cbn. unfold Zod.minLength, Zod.maxLength.
    now rewrite (proj2 (Nat.leb_le _ _) Hlo), (proj2 (Nat.leb_le _ _) Hhi).
Qed.

Lemma string_at_least lo m1 v :
  Zod.string_ [Zod.minLength lo m1] v = [] <-> stringOfLength lo None v.
Proof.
  unfold stringOfLength. split.
  - destruct v as [| | | |s| |]; cbn; try discriminate.
    unfold Zod.minLength.
    destruct (Nat.leb_spec lo (String.length s)); [|discriminate]. intros _. eauto.
  - intros (s & -> & Hlo & _). cbn. unfold Zod.minLength.
    now rewrite (proj2 (Nat.leb_le _ _) Hlo).
Qed.

Lemma string_at_most hi m2 v :
  Zod.string_ [Zod.maxLength hi m2] v = [] <-> stringOfLength 0 (Some hi) v.
Proof.
  unfold stringOfLength. split.
  - destruct v as [| | | |s| |]; cbn; try discriminate.
    unfold Zod.maxLength.
    destruct (Nat.leb_spec (String.length s) hi); [|discriminate]. intros _.
    exists s. repeat split; [lia | assumption].
  - intros (s & -> & _ & Hhi). cbn. unfold Zod.maxLength.
    now rewrite (proj2 (Nat.leb_le _ _) Hhi).
Qed.

Lemma enum_values values v : Zod.enum values v = [] <-> oneOf values v.
Proof.
  unfold oneOf. split.
  - destruct v as [| | | |s| |]; cbn; try discriminate.
    destruct (existsb (String.eqb s) values) eqn:E; [|discriminate].
    intros _. exists s. split; [reflexivity|].
    apply existsb_exists in E as (x & Hin & Hx). apply String.eqb_eq in Hx. now subst.
  - intros (s & -> & Hin). cbn.
    assert (E : existsb (String.eqb s) values = true).
    { apply existsb_exists. exists s. split; [exact Hin | apply String.eqb_refl]. }
    now rewrite E.
Qed.

Lemma array_of_strings v : Zod.array (Zod.string_ []) v = [] <-> stringArray v.
Proof.
  unfold stringArray. split.
  - destruct v as [| | | | |items|]; cbn; try discriminate.
    induction items as [|item items IH]; cbn; [intros _; now exists []|].
    destruct item as [| | | |s| |]; cbn; try discriminate.
    intros Hrest. destruct (IH Hrest) as (strings & [= ->]).
    now exists (s :: strings).
  - intros (items & ->). cbn. induction items; cbn; auto.
Qed.

Lemma optional_iff schema P v :
  (forall v', schema v' = [] <-> P v') -> (Zod.optional schema v = [] <-> absentOr P v).
Proof.
  intros Hs. unfold absentOr. destruct v; cbn; rewrite <- ?Hs; cbn;
    intuition (try discriminate; auto).
Qed.

Lemma app_nil_iff {A} (a b : list A) : (a ++ b)%list = [] <-> a = [] /\ b = [].
Proof. destruct a; cbn; intuition (try discriminate; auto). Qed.

Ltac split_issues :=
  repeat match goal with
    | H : (_ ++ _)%list = [] |- _ => apply app_nil_iff in H as [? H]
    end.

Ltac join_issues :=
  repeat (apply app_nil_iff; split); try reflexivity.

Lemma safeParse_iff schema v : Zod.safeParse schema v = true <-> schema v = [].
Proof. unfold Zod.safeParse. destruct (schema v); intuition discriminate. Qed.

(** X23.  [GenerationOptionsSchema] accepts exactly the objects whose
    [length] is an integer from 100 to 500, whose [tone], when present, is
    one of the three tones and whose [includeKeywords], when present, is an
    array of strings. *)
Theorem X23_GenerationOptionsSchema_accepts v :
  Zod.safeParse GenerationOptionsSchema v = true
  <-> exists fields,
        v = Zod.JObject fields
        /\ integerIn 100 500 (Zod.field "length" fields)
        /\ absentOr (oneOf ["professional"; "casual"; "enthusiastic"]) (Zod.field "tone" fields)
        /\ absentOr stringArray (Zod.field "includeKeywords" fields).
Proof.
  rewrite safeParse_iff. unfold GenerationOptionsSchema, Zod.object.
  destruct v as [| | | | | |fields];
    try (split; [discriminate | intros (f & [=] & _)]).
  cbn [List.map List.concat].
  split.
  - intros H. split_issues. exists fields. split; [reflexivity|].
    split; [eapply number_checks; eassumption|].
    split; [eapply (optional_iff _ _ _ (enum_values _)); eassumption|].
    eapply (optional_iff _ _ _ array_of_strings); eassumption.
  - intros (f & [= <-] & H1 & H2 & H3). join_issues.
    + eapply number_checks; eassumption.
    + eapply (optional_iff _ _ _ (enum_values _)); eassumption.
    + eapply (optional_iff _ _ _ array_of_strings); eassumption.
Qed.

(** X24.  [AppSettingsSchema] accepts exactly the objects with a known
    provider, an API key of 20 to 100 characters, a custom prompt of 10 to
    1000 characters and an integer default length from 100 to 500. *)
Theorem X24_AppSettingsSchema_accepts v :
  Zod.safeParse AppSettingsSchema v = true
  <-> exists fields,
        v = Zod.JObject fields
        /\ oneOf ["openaiApiKey"; "deepseekApiKey"] (Zod.field "apiProvider" fields)
        /\ stringOfLength 20 (Some 100) (Zod.field "apiKey" fields)
        /\ stringOfLength 10 (Some 1000) (Zod.field "customPrompt" fields)
        /\ integerIn 100 500 (Zod.field "defaultLength" fields).
Proof.
  rewrite safeParse_iff. unfold AppSettingsSchema, Zod.object.
  destruct v as [| | | | | |fields];
    try (split; [discriminate | intros (f & [=] & _)]).
  cbn [List.map List.concat].
  split.
  - intros H. split_issues. exists fields. split; [reflexivity|].
    split; [eapply enum_values; eassumption|].
    split; [eapply string_between; eassumption|].
    split; [eapply string_between; eassumption | eapply number_checks; eassumption].
  - intros (f & [= <-] & H1 & H2 & H3 & H4). join_issues.
    + eapply enum_values; eassumption.
    + eapply string_between; eassumption.
    + eapply string_between; eassumption.
    + eapply number_checks; eassumption.
Qed.

(** X25.  [FeedbackSchema] accepts exactly the objects with a feedback of 10
    to 500 characters and an integer length from 100 to 500. *)
Theorem X25_FeedbackSchema_accepts v :
  Zod.safeParse FeedbackSchema v = true
  <-> exists fields,
        v = Zod.JObject fields
        /\ stringOfLength 10 (Some 500) (Zod.field "feedback" fields)
        /\ integerIn 100 500 (Zod.field "length" fields).
Proof.
  rewrite safeParse_iff. unfold FeedbackSchema, Zod.object.
  destruct v as [| | | | | |fields];
    try (split; [discriminate | intros (f & [=] & _)]).
  cbn [List.map List.concat].
  split.
  - intros H. split_issues. exists fields. split; [reflexivity|].
    split; [eapply string_between; eassumption | eapply number_checks; eassumption].
  - intros (f & [= <-] & H1 & H2). join_issues.
    + eapply string_between; eassumption.
    + eapply number_checks; eassumption.
Qed.

(** X26.  [ProductContentSchema] accepts exactly the objects with a title of
    5 to 100 characters, a description of at least 50, an optional SEO title
    of at most 70, an optional SEO description of at most 160 and an
    optional array of keyword strings. *)
Theorem X26_ProductContentSchema_accepts v :
  Zod.safeParse ProductContentSchema v = true
  <-> exists fields,
        v = Zod.JObject fields
        /\ stringOfLength 5 (Some 100) (Zod.field "title" fields)
        /\ stringOfLength 50 None (Zod.field "description" fields)
        /\ absentOr (stringOfLength 0 (Some 70)) (Zod.field "seoTitle" fields)
        /\ absentOr (stringOfLength 0 (Some 160)) (Zod.field "seoDescription" fields)
        /\ absentOr stringArray (Zod.field "keywords" fields).
Proof.
  rewrite safeParse_iff. unfold ProductContentSchema, Zod.object.
  destruct v as [| | | | | |fields];
    try (split; [discriminate | intros (f & [=] & _)]).
  cbn [List.map List.concat].
  split.
  - intros H. split_issues. exists fields. split; [reflexivity|].
    split; [eapply string_between; eassumption|].
    split; [eapply string_at_least; eassumption|].
    split; [eapply (optional_iff _ _ _ (string_at_most _ _)); eassumption|].
    split; [eapply (optional_iff _ _ _ (string_at_most _ _)); eassumption|].
    eapply (optional_iff _ _ _ array_of_strings); eassumption.
  - intros (f & [= <-] & H1 & H2 & H3 & H4 & H5). join_issues.
    + eapply string_between; eassumption.
    + eapply string_at_least; eassumption.
    + eapply (optional_iff _ _ _ (string_at_most _ _)); eassumption.
    + eapply (optional_iff _ _ _ (string_at_most _ _)); eassumption.
    + eapply (optional_iff _ _ _ array_of_strings); eassumption.
Qed.

(** X17.  A completion whose text is missing, empty or without [#] is still
    reported as a success by [generateProductContent] of either provider,
    with a content whose title and description are empty. *)
Theorem X17_completion_without_sections
    (apiKey : Js.Text) (customPrompt : string) (productData : ProductData)
    (options : GenerationOptions)
    (w : World) (text : option string) (usage : option Usage) :
  nextReply w = Completed text usage ->
  Js.count "#" (Js.orElse text "") = 0 ->
  let openai := (OpenAIProvider.generateProductContent apiKey productData customPrompt
                   options w).1 in
  let deepseek := (DeepSeekProvider.generateProductContent apiKey productData customPrompt
                     options w).1 in
  success openai = true /\ content openai = Some emptyContent
  /\ success deepseek = true /\ content deepseek = Some emptyContent.
Proof.
  intros Hreply Hfree. cbn zeta.
  rewrite openai_generateProductContent_run, deepseek_generateProductContent_run, Hreply.
  cbn [fst OpenAIProvider.generated DeepSeekProvider.generated success content].
  change (DeepSeekProvider.parseGeneratedContent (Js.orElse text ""))
    with (OpenAIProvider.parseGeneratedContent (Js.orElse text "")).
  rewrite (parse_no_hash _ Hfree). repeat split.
Qed.

(** ** Instances of the further properties *)

Lemma X2_witness :
  @EncryptionService.getEncryptionKey XorCrypto.crypto (ENCRYPTION_KEY shortKeyWorld)
  = Throw "ENCRYPTION_KEY must be 32 bytes (64 hex characters)"
  /\ (@EncryptionService.encrypt XorCrypto.crypto (Js.text "sk-secret") shortKeyWorld).1
     = Throw "Failed to encrypt data"
  /\ (@EncryptionService.decrypt XorCrypto.crypto "00ff:0a1b" shortKeyWorld).1
     = Throw "Failed to decrypt data".
Proof.
  assert (Hkey : @EncryptionService.getEncryptionKey XorCrypto.crypto
                   (ENCRYPTION_KEY shortKeyWorld)
                 = Throw "ENCRYPTION_KEY must be 32 bytes (64 hex characters)")
    by (vm_compute; reflexivity).
  split; [exact Hkey|].
  exact (@X2_rejected_key_fails_both_ways XorCrypto.crypto shortKeyWorld _ (Js.text "sk-secret")
           "00ff:0a1b" Hkey).
Defined.

Lemma X3_witness :
  exists token,
    (@EncryptionService.encrypt XorCrypto.crypto (Js.text "sk-secret") emptyWorld).1 = Ok token
    /\ Js.count ":" token = 1.
Proof.
  eexists.
  assert (Henc : (@EncryptionService.encrypt XorCrypto.crypto (Js.text "sk-secret") emptyWorld).1
                 = Ok _) by (vm_compute; reflexivity).
  split; [exact Henc|].
  exact (proj1 (@X3_token_shape XorCrypto.crypto emptyWorld (Js.text "sk-secret") _ Henc)).
Defined.

Lemma X4_witness :
  nth 0 (shopReplies emptyWorld) Served = Served
  /\ nth 1 (shopReplies emptyWorld) Served = Served
  /\ (MetafieldsService.getMetafield demoSession "ai_content_generator" "custom_prompt"
        (MetafieldsService.setMetafield demoSession "ai_content_generator" "custom_prompt"
           "Write warmly" emptyWorld).2).1
     = Some "Write warmly".
Proof.
  assert (H0 : nth 0 (shopReplies emptyWorld) Served = Served) by reflexivity.
  assert (H1 : nth 1 (shopReplies emptyWorld) Served = Served) by reflexivity.
  split; [exact H0|]. split; [exact H1|].
  exact (proj2 (X4_setMetafield_then_getMetafield demoSession "ai_content_generator"
                  "custom_prompt" "Write warmly" emptyWorld H0 H1)).
Defined.

Lemma X7_witness :
  @EncryptionService.getEncryptionKey XorCrypto.crypto (ENCRYPTION_KEY emptyWorld)
  = Ok (XorCrypto.digest
          (XorCrypto.encodeText (Js.text "default_encryption_key_for_development_only")))
  /\ (forall i, i < 4 -> nth i (shopReplies emptyWorld) Served = Served)
  /\ Js.isWellFormed (Js.text "sk-secret") = true
  /\ (@ApiKeysService.getApiKey XorCrypto.crypto demoSession (Some "deepseekApiKey")
        (@ApiKeysService.saveApiKey XorCrypto.crypto demoSession "deepseekApiKey"
           (Js.text "sk-secret") emptyWorld).2).1
     = Some {| provider := "deepseekApiKey"; apiKey := Js.text "sk-secret" |}.
Proof.
  assert (Hkey : @EncryptionService.getEncryptionKey XorCrypto.crypto
                   (ENCRYPTION_KEY emptyWorld)
                 = Ok (XorCrypto.digest
                         (XorCrypto.encodeText
                            (Js.text "default_encryption_key_for_development_only"))))
    by reflexivity.
  assert (Hserved : forall i, i < 4 -> nth i (shopReplies emptyWorld) Served = Served)
    by (intros i _; now destruct i).
  assert (Hwf : Js.isWellFormed (Js.text "sk-secret") = true) by reflexivity.
  split; [exact Hkey|]. split; [exact Hserved|]. split; [exact Hwf|].
  exact (proj2 (proj2 (@X7_saveApiKey_then_getApiKey XorCrypto.crypto XorCrypto_laws
                         demoSession "deepseekApiKey" (Js.text "sk-secret") emptyWorld _
                         (Some "deepseekApiKey") Hkey Hserved (or_intror eq_refl))) Hwf).
Defined.

Lemma X8_witness :
  @EncryptionService.getEncryptionKey XorCrypto.crypto (ENCRYPTION_KEY emptyWorld)
  = Ok (XorCrypto.digest
          (XorCrypto.encodeText (Js.text "default_encryption_key_for_development_only")))
  /\ (@ApiKeysService.saveApiKey XorCrypto.crypto demoSession "openaiApiKey" (Js.text "sk-secret")
        (withShopReplies [Failed; Refused "Value is invalid"] emptyWorld)).1 = true
  /\ metafields (@ApiKeysService.saveApiKey XorCrypto.crypto demoSession "openaiApiKey"
                   (Js.text "sk-secret")
                   (withShopReplies [Failed; Refused "Value is invalid"] emptyWorld)).2
     = metafields (withShopReplies [Failed; Refused "Value is invalid"] emptyWorld).
Proof.
  assert (Hkey : @EncryptionService.getEncryptionKey XorCrypto.crypto
                   (ENCRYPTION_KEY
                      (withShopReplies [Failed; Refused "Value is invalid"] emptyWorld))
                 = Ok (XorCrypto.digest
                         (XorCrypto.encodeText
                            (Js.text "default_encryption_key_for_development_only"))))
    by reflexivity.
  split; [exact Hkey|].
  destruct (@X8_saveApiKey_reports_encryption_only XorCrypto.crypto XorCrypto_laws demoSession
              "openaiApiKey" (Js.text "sk-secret")
              (withShopReplies [Failed; Refused "Value is invalid"] emptyWorld) _ Hkey)
    as (token & _ & Htrue & Hnone & _).
  split; [exact Htrue|]. apply Hnone; cbn; discriminate.
Defined.

Lemma X9_witness :
  "deepseekApiKey" <> ""
  /\ metafields (savedWorld "openaiApiKey") !! providerField demoSession
     <> Some "deepseekApiKey"
  /\ (@ApiKeysService.getApiKey XorCrypto.crypto demoSession (Some "deepseekApiKey")
        (savedWorld "openaiApiKey")).1 = None.
Proof.
  assert (Hp : "deepseekApiKey" <> "") by discriminate.
  assert (Hstored : metafields (savedWorld "openaiApiKey") !! providerField demoSession
                    <> Some "deepseekApiKey") by (vm_compute; discriminate).
  split; [exact Hp|]. split; [exact Hstored|].
  exact (proj1 (@X9_getApiKey_filter XorCrypto.crypto demoSession "deepseekApiKey"
                  (savedWorld "openaiApiKey")) Hp Hstored).
Defined.

Lemma X10_witness :
  metafields corruptWorld !! keyField demoSession = Some "not-a-token"
  /\ Js.count ":" "not-a-token" <> 1
  /\ (@ApiKeysService.getApiKey XorCrypto.crypto demoSession None corruptWorld).1 = None.
Proof.
  assert (Hstored : metafields corruptWorld !! keyField demoSession = Some "not-a-token")
    by (vm_compute; reflexivity).
  assert (Hcount : Js.count ":" "not-a-token" <> 1) by (vm_compute; discriminate).
  split; [exact Hstored|]. split; [exact Hcount|].
  exact (@X10_getApiKey_corrupt_token XorCrypto.crypto demoSession None "not-a-token"
           corruptWorld Hstored Hcount).
Defined.

Lemma X13_witness :
  (shop demoSession, "ai_content_generator", "custom_prompt") <> keyField demoSession
  /\ (shop demoSession, "ai_content_generator", "custom_prompt") <> providerField demoSession
  /\ metafields (ApiKeysService.deleteApiKey demoSession "openaiApiKey"
                   (savedWorld "openaiApiKey")).2
     !! (shop demoSession, "ai_content_generator", "custom_prompt")
     = metafields (savedWorld "openaiApiKey")
       !! (shop demoSession, "ai_content_generator", "custom_prompt").
Proof.
  assert (Hk : (shop demoSession, "ai_content_generator", "custom_prompt")
               <> keyField demoSession) by discriminate.
  assert (Hp : (shop demoSession, "ai_content_generator", "custom_prompt")
               <> providerField demoSession) by discriminate.
  split; [exact Hk|]. split; [exact Hp|].
  exact (proj2 (@X13_apiKeys_frame XorCrypto.crypto demoSession "openaiApiKey" (Js.text "sk-secret")
                  _ (savedWorld "openaiApiKey") Hk Hp)).
Defined.

Lemma X16_witness :
  nextReply unauthorizedWorld = Thrown (Some 401%Z) "Unauthorized"
  /\ errorCode (OpenAIProvider.generateProductContent (Js.text "sk-wrong") sampleProduct ""
                  sampleOptions unauthorizedWorld).1
     = Some "OPENAI_ERROR"
  /\ errorCode (DeepSeekProvider.generateProductContent (Js.text "sk-wrong") sampleProduct ""
                  sampleOptions unauthorizedWorld).1
     = Some "INVALID_API_KEY"
  /\ errorCode (OpenAIProvider.regenerateContent (Js.text "sk-wrong") previousSuccess
                  "Shorter, please" sampleOptions unauthorizedWorld).1
     = Some "OPENAI_REGENERATION_ERROR".
Proof.
  assert (Hreply : nextReply unauthorizedWorld = Thrown (Some 401%Z) "Unauthorized")
    by reflexivity.
  split; [exact Hreply|].
  destruct (X16_provider_error_codes (Js.text "sk-wrong") "" "Shorter, please" sampleProduct
              previousSuccess sampleContent sampleOptions unauthorizedWorld _ _
              Hreply eq_refl eq_refl) as ((Hopenai & _) & Hdeepseek & Hregenerate & _).
  split; [exact Hopenai|]. split; [exact Hdeepseek | exact Hregenerate].
Defined.

Lemma X17_witness :
  nextReply silentWorld = Completed None None
  /\ Js.count "#" (Js.orElse None "") = 0
  /\ success (OpenAIProvider.generateProductContent (Js.text "sk-secret") sampleProduct ""
                sampleOptions silentWorld).1 = true
  /\ content (OpenAIProvider.generateProductContent (Js.text "sk-secret") sampleProduct ""
                sampleOptions silentWorld).1 = Some emptyContent.
Proof.
  assert (Hreply : nextReply silentWorld = Completed None None) by reflexivity.
  assert (Hfree : Js.count "#" (Js.orElse None "") = 0) by reflexivity.
  split; [exact Hreply|]. split; [exact Hfree|].
  destruct (X17_completion_without_sections (Js.text "sk-secret") "" sampleProduct sampleOptions
              silentWorld None None Hreply Hfree) as (Hsuccess & Hcontent & _).
  split; [exact Hsuccess | exact Hcontent].
Defined.

Lemma X19_witness :
  Js.count "#" "I cannot help with that." = 0
  /\ OpenAIProvider.parseGeneratedContent "I cannot help with that."
     = {| title := ""; description := ""; seoTitle := None; seoDescription := None;
          keywords := None |}.
Proof.
  assert (Hfree : Js.count "#" "I cannot help with that." = 0) by (vm_compute; reflexivity).
  split; [exact Hfree|].
  exact (proj1 (X19_parse_without_headings "I cannot help with that." Hfree)).
Defined.

Lemma X20_witness :
  Forall (fun x => clean x.2) sampleSections
  /\ OpenAIProvider.parseGeneratedContent (reply sampleSections)
     = {| title := "Blue mug";
          description := "A sturdy mug." +:+ nl +:+ "Dishwasher safe.";
          seoTitle := None; seoDescription := None;
          keywords := Some ["mug"; "blue mug"] |}.
Proof.
  assert (Hclean : Forall (fun x => clean x.2) sampleSections)
    by (repeat constructor; vm_compute; discriminate).
  split; [exact Hclean|].
  exact (proj1 (X20_parse_reply_sections sampleSections Hclean)).
Defined.

Lemma X22_witness :
  ["mug"; "blue mug"] <> []
  /\ Forall keyword ["mug"; "blue mug"]
  /\ parseKeywords (join ["mug"; "blue mug"]) = ["mug"; "blue mug"].
Proof.
  assert (Hne : ["mug"; "blue mug"] <> ([] : list string)) by discriminate.
  assert (Hks : Forall keyword ["mug"; "blue mug"])
    by (repeat constructor; vm_compute; discriminate).
  split; [exact Hne|]. split; [exact Hks|].
  exact (X22_parseKeywords_join ["mug"; "blue mug"] Hne Hks).
Defined.
